(** * myrail / works: engagement counters, toggles, feed and search

    A shallow embedding of the views of [works/views.py] over the tables of
    [works/models.py], and the properties of the engagement core that the
    specification states about them.

    Conventions of the embedding.
    - A table is a finite map from primary key to row ([gmap N row]); the
      primary keys are the UUIDs of the models, drawn by [uuid.uuid4], which
      is modelled as picking a key that is not in the table.
    - A [PositiveIntegerField] holds an [N]; an update that would take it
      below zero is refused by the store with [IntegrityError].
    - A view runs in the [ORM] monad: it reads and writes the database and
      either returns a value or raises.  Every statement is committed on its
      own, so what was written before an exception stays written.
    - Python strings are lists of code points.  [int(...)] and the UUID
      conversion of query parameters are taken through their result.
    - A response is kept up to its status, its flags and its result lists;
      serializers are not modelled, a listed row stands for its
      serialization. *)

From Stdlib Require Import ZArith NArith Ascii.
From Stdlib Require DecimalString.
From stdpp Require Import strings gmap list sorting.

Local Open Scope Z_scope.

(** ** Strings *)

Definition str := list N.

Definition py (s : string) : str :=
  (λ a, N_of_ascii a) <$> String.list_ascii_of_string s.
Arguments py s : simpl never.

(** [str.isspace] for one code point: the characters Python treats as
    whitespace. *)
Definition isspace (c : N) : bool :=
  ((9 <=? c) && (c <=? 13) || (28 <=? c) && (c <=? 32) || (c =? 133)
   || (c =? 160) || (c =? 5760) || (8192 <=? c) && (c <=? 8202)
   || (c =? 8232) || (c =? 8233) || (c =? 8239) || (c =? 8287)
   || (c =? 12288))%N.

Fixpoint lstrip (s : str) : str :=
  match s with
  | c :: s' => if isspace c then lstrip s' else s
  | [] => []
  end.

Definition rstrip (s : str) : str := reverse (lstrip (reverse s)).

(** [s.strip()] *)
Definition strip (s : str) : str := rstrip (lstrip s).

(** [s.replace(c, '')] for a one-character [c] *)
Definition remove_char (c : N) (s : str) : str := filter (λ x, x ≠ c) s.

(** [s.split(c)] for a one-character separator *)
Fixpoint split (c : N) (s : str) : list str :=
  match s with
  | [] => [[]]
  | x :: s' =>
      if decide (x = c) then [] :: split c s'
      else match split c s' with
           | w :: ws => (x :: w) :: ws
           | [] => [[x]]
           end
  end.

Definition lower_char (c : N) : N :=
  if ((65 <=? c) && (c <=? 90))%N then (c + 32)%N else c.

Definition lower (s : str) : str := lower_char <$> s.

Fixpoint is_prefix (p s : str) : bool :=
  match p, s with
  | [], _ => true
  | x :: p', y :: s' => bool_decide (x = y) && is_prefix p' s'
  | _ :: _, [] => false
  end.

Fixpoint contains (s sub : str) : bool :=
  is_prefix sub s ||
  match s with
  | [] => false
  | _ :: s' => contains s' sub
  end.

(** The [__icontains] lookup: [LIKE '%sub%'], which folds the case of the
    ASCII letters. *)
Definition icontains (s sub : str) : bool := contains (lower s) (lower sub).

(** ** Models *)

Module User.
Record t := {
  username : str;
  first_name : str;
  last_name : str;
  followers_count : N;
  following_count : N;
  total_likes : N;
  total_views : N
}.
End User.

Module Destination.
Record t := {
  name : str;
  country : str;
  city : str;
  has_3d_model : bool;
  posts_count : N
}.
End Destination.

Module TravelPost.
Record t := {
  user : N;
  destination : N;
  description : str;
  featured_3d : bool;
  is_featured : bool;
  is_public : bool;
  likes_count : N;
  comments_count : N;
  shares_count : N;
  views_count : N;
  created_at : Z
}.
End TravelPost.

Module PostTag.
Record t := { name : str; posts_count : N }.
End PostTag.

Module PostTagRelation.
Record t := { post : N; tag : N }.
End PostTagRelation.

Module PostLike.
Record t := { user : N; post : N }.
End PostLike.

Module PostShare.
Record t := { user : N; post : N; platform : str }.
End PostShare.

Module PostView.
Record t := { user : option N; post : N; ip_address : option str }.
End PostView.

Module UserFollow.
Record t := { follower : N; following : N }.
End UserFollow.

Module UserPreference.
Record t := {
  show_3d_content : bool;
  auto_play_videos : bool;
  show_trending : bool
}.
End UserPreference.

(** The database: one table per model.  [UserPreference] is keyed by its
    user (a one-to-one primary key). *)
Record DB := {
  users : gmap N User.t;
  destinations : gmap N Destination.t;
  posts : gmap N TravelPost.t;
  post_tags : gmap N PostTag.t;
  tag_relations : gmap N PostTagRelation.t;
  likes : gmap N PostLike.t;
  shares : gmap N PostShare.t;
  views : gmap N PostView.t;
  follows : gmap N UserFollow.t;
  preferences : gmap N UserPreference.t
}.

(** ** The ORM monad *)

Inductive Exn :=
| MultipleObjectsReturned
| IntegrityError
| DatabaseError
| ValueError
| ValidationError
| TypeError.

Inductive Outcome (A : Type) :=
| Ok (a : A)
| Raise (e : Exn).
Arguments Ok {A} a.
Arguments Raise {A} e.

Definition ORM (A : Type) : Type := DB → Outcome A * DB.

#[export] Instance ORM_ret : MRet ORM := λ A a db, (Ok a, db).

#[export] Instance ORM_bind : MBind ORM := λ A B f m db,
  match m db with
  | (Ok a, db') => f a db'
  | (Raise e, db') => (Raise e, db')
  end.

Definition raise {A} (e : Exn) : ORM A := λ db, (Raise e, db).

(** [Model.objects]: where the rows of a model live in the database. *)
Record Manager (R : Type) := {
  rows : DB → gmap N R;
  with_rows : gmap N R → DB → DB
}.
Arguments rows {R} _ _.
Arguments with_rows {R} _ _ _.

(** A column of a model holding a [PositiveIntegerField]. *)
Record Field (R : Type) := {
  fget : R → N;
  fset : N → R → R
}.
Arguments fget {R} _ _.
Arguments fset {R} _ _ _.

(** The expressions [F(field) + n] and [F(field) - n]. *)
Inductive FExpr :=
| F_plus (n : N)
| F_minus (n : N).

Definition eval_F (e : FExpr) (v : N) : Z :=
  match e with
  | F_plus n => Z.of_N v + Z.of_N n
  | F_minus n => Z.of_N v - Z.of_N n
  end.

(** [objects.get(pk=...)] of a model, as an option. *)
Definition get_pk {R} (objects : Manager R) (pk : N) : ORM (option R) :=
  λ db, (Ok (rows objects db !! pk), db).

(** The rows of a table that satisfy a lookup. *)
Definition matching {R} (P : R → Prop) `{!∀ r, Decision (P r)}
    (m : gmap N R) : gmap N R :=
  filter (λ kr, P kr.2) m.

(** [objects.get_or_create] with a lookup and defaults: the row matching the
    lookup if there is exactly one, a new row if there is none. *)
Definition get_or_create {R} (objects : Manager R) (P : R → Prop)
    `{!∀ r, Decision (P r)} (new : R) : ORM (N * R * bool) :=
  λ db,
    match map_to_list (matching P (rows objects db)) with
    | [] =>
        let pk := fresh (dom (rows objects db)) in
        (Ok (pk, new, true), with_rows objects (<[pk := new]> (rows objects db)) db)
    | [(pk, r)] => (Ok (pk, r, false), db)
    | _ :: _ :: _ => (Raise MultipleObjectsReturned, db)
    end.

(** [objects.create(...)] *)
Definition create {R} (objects : Manager R) (new : R) : ORM N :=
  λ db,
    let pk := fresh (dom (rows objects db)) in
    (Ok pk, with_rows objects (<[pk := new]> (rows objects db)) db).

(** [instance.delete()] *)
Definition delete_row {R} (objects : Manager R) (pk : N) : ORM unit :=
  λ db, (Ok tt, with_rows objects (delete pk (rows objects db)) db).

(** [instance.field = F(field) ± n; instance.save(update_fields=[field])]:
    one UPDATE of the row with that primary key. *)
Definition save_F {R} (objects : Manager R) (pk : N) (fld : Field R)
    (e : FExpr) : ORM unit :=
  λ db,
    match rows objects db !! pk with
    | None => (Raise DatabaseError, db)
    | Some r =>
        let v := eval_F e (fget fld r) in
        if v <? 0 then (Raise IntegrityError, db)
        else (Ok tt, with_rows objects (<[pk := fset fld (Z.to_N v) r]> (rows objects db)) db)
    end.

(** ** Managers and counter columns *)

Module Objects.
Definition User : Manager User.t := {|
  rows := users;
  with_rows m db :=
    {| users := m; destinations := destinations db; posts := posts db;
       post_tags := post_tags db; tag_relations := tag_relations db;
       likes := likes db; shares := shares db; views := views db;
       follows := follows db; preferences := preferences db |}
|}.

Definition TravelPost : Manager TravelPost.t := {|
  rows := posts;
  with_rows m db :=
    {| users := users db; destinations := destinations db; posts := m;
       post_tags := post_tags db; tag_relations := tag_relations db;
       likes := likes db; shares := shares db; views := views db;
       follows := follows db; preferences := preferences db |}
|}.

Definition PostLike : Manager PostLike.t := {|
  rows := likes;
  with_rows m db :=
    {| users := users db; destinations := destinations db; posts := posts db;
       post_tags := post_tags db; tag_relations := tag_relations db;
       likes := m; shares := shares db; views := views db;
       follows := follows db; preferences := preferences db |}
|}.

Definition PostShare : Manager PostShare.t := {|
  rows := shares;
  with_rows m db :=
    {| users := users db; destinations := destinations db; posts := posts db;
       post_tags := post_tags db; tag_relations := tag_relations db;
       likes := likes db; shares := m; views := views db;
       follows := follows db; preferences := preferences db |}
|}.

Definition PostView : Manager PostView.t := {|
  rows := views;
  with_rows m db :=
    {| users := users db; destinations := destinations db; posts := posts db;
       post_tags := post_tags db; tag_relations := tag_relations db;
       likes := likes db; shares := shares db; views := m;
       follows := follows db; preferences := preferences db |}
|}.

Definition UserFollow : Manager UserFollow.t := {|
  rows := follows;
  with_rows m db :=
    {| users := users db; destinations := destinations db; posts := posts db;
       post_tags := post_tags db; tag_relations := tag_relations db;
       likes := likes db; shares := shares db; views := views db;
       follows := m; preferences := preferences db |}
|}.

Definition UserPreference : Manager UserPreference.t := {|
  rows := preferences;
  with_rows m db :=
    {| users := users db; destinations := destinations db; posts := posts db;
       post_tags := post_tags db; tag_relations := tag_relations db;
       likes := likes db; shares := shares db; views := views db;
       follows := follows db; preferences := m |}
|}.
End Objects.

Module Col.
Definition likes_count : Field TravelPost.t := {|
  fget := TravelPost.likes_count;
  fset v p :=
    {| TravelPost.user := TravelPost.user p;
       TravelPost.destination := TravelPost.destination p;
       TravelPost.description := TravelPost.description p;
       TravelPost.featured_3d := TravelPost.featured_3d p;
       TravelPost.is_featured := TravelPost.is_featured p;
       TravelPost.is_public := TravelPost.is_public p;
       TravelPost.likes_count := v;
       TravelPost.comments_count := TravelPost.comments_count p;
       TravelPost.shares_count := TravelPost.shares_count p;
       TravelPost.views_count := TravelPost.views_count p;
       TravelPost.created_at := TravelPost.created_at p |}
|}.

Definition shares_count : Field TravelPost.t := {|
  fget := TravelPost.shares_count;
  fset v p :=
    {| TravelPost.user := TravelPost.user p;
       TravelPost.destination := TravelPost.destination p;
       TravelPost.description := TravelPost.description p;
       TravelPost.featured_3d := TravelPost.featured_3d p;
       TravelPost.is_featured := TravelPost.is_featured p;
       TravelPost.is_public := TravelPost.is_public p;
       TravelPost.likes_count := TravelPost.likes_count p;
       TravelPost.comments_count := TravelPost.comments_count p;
       TravelPost.shares_count := v;
       TravelPost.views_count := TravelPost.views_count p;
       TravelPost.created_at := TravelPost.created_at p |}
|}.

Definition views_count : Field TravelPost.t := {|
  fget := TravelPost.views_count;
  fset v p :=
    {| TravelPost.user := TravelPost.user p;
       TravelPost.destination := TravelPost.destination p;
       TravelPost.description := TravelPost.description p;
       TravelPost.featured_3d := TravelPost.featured_3d p;
       TravelPost.is_featured := TravelPost.is_featured p;
       TravelPost.is_public := TravelPost.is_public p;
       TravelPost.likes_count := TravelPost.likes_count p;
       TravelPost.comments_count := TravelPost.comments_count p;
       TravelPost.shares_count := TravelPost.shares_count p;
       TravelPost.views_count := v;
       TravelPost.created_at := TravelPost.created_at p |}
|}.

Definition followers_count : Field User.t := {|
  fget := User.followers_count;
  fset v u :=
    {| User.username := User.username u;
       User.first_name := User.first_name u;
       User.last_name := User.last_name u;
       User.followers_count := v;
       User.following_count := User.following_count u;
       User.total_likes := User.total_likes u;
       User.total_views := User.total_views u |}
|}.

Definition following_count : Field User.t := {|
  fget := User.following_count;
  fset v u :=
    {| User.username := User.username u;
       User.first_name := User.first_name u;
       User.last_name := User.last_name u;
       User.followers_count := User.followers_count u;
       User.following_count := v;
       User.total_likes := User.total_likes u;
       User.total_views := User.total_views u |}
|}.
End Col.

(** ** Requests and responses *)

(** A query parameter read through [int(request.GET.get(name, default))]. *)
Inductive IntParam :=
| IntAbsent
| IntInvalid
| IntOf (z : Z).

(** A query parameter used as a UUID in a lookup; [UuidAbsent] is a missing
    or empty parameter. *)
Inductive UuidParam :=
| UuidAbsent
| UuidInvalid
| UuidOf (id : N).

(** [request.GET] / [request.query_params], one field per parameter the
    views read. *)
Module GET.
Record t := {
  user : option str;
  destination : UuidParam;
  tags : option str;
  feed : option str;
  q : option str;
  page_size : IntParam;
  offset : IntParam
}.
End GET.

Module Request.
Record t := {
  (** [request.user]: the authenticated account, [None] when anonymous *)
  user : option N;
  GET : GET.t;
  (** [request.data.get('platform')] *)
  platform : option str;
  (** the client address [get_client_ip] computes *)
  client_ip : option str;
  (** [timezone.now()], in microseconds *)
  now : Z
}.
End Request.

Abbreviation PostRow := (N * TravelPost.t)%type.

Inductive Response :=
| Liked (liked : bool)
| Shared
| Following (following : bool)
| SearchResults (users : list (N * User.t))
    (destinations : list (N * Destination.t))
    (posts : list PostRow) (tags : list (N * PostTag.t))
| FeedPage (results : list PostRow) (has_next : bool)
| Error (status : N) (error : string)
| NotAuthenticated.

Definition HTTP_400_BAD_REQUEST : N := 400.
Definition HTTP_404_NOT_FOUND : N := 404.

(** [@permission_classes([IsAuthenticated])] *)
Definition IsAuthenticated (request : Request.t)
    (view : N → ORM Response) : ORM Response :=
  match Request.user request with
  | Some me => view me
  | None => mret NotAuthenticated
  end.

(** [TravelPost.objects.get(id=post_id, is_public=True)]; [None] stands for
    [DoesNotExist]. *)
Definition get_public_post (post_id : N) : ORM (option TravelPost.t) :=
  post ← get_pk Objects.TravelPost post_id;
  mret (match post with
        | Some p => if TravelPost.is_public p then Some p else None
        | None => None
        end).

(** ** Engagement views *)

Definition like_lookup (me post_id : N) (r : PostLike.t) : Prop :=
  PostLike.user r = me ∧ PostLike.post r = post_id.

#[export] Instance like_lookup_dec me post_id r :
  Decision (like_lookup me post_id r).
Proof. unfold like_lookup. apply _. Defined.

(** [like_post]: "Like or unlike a post".  The response body also echoes a
    [likes_count] computed from the in-memory instance; only the flag is
    kept here.  After an unlike that instance holds the expression
    [F('likes_count') - 1], not a number: [max(0, post.likes_count - 1)]
    cannot compare it with 0 and raises [TypeError], once the row is deleted
    and the counter saved. *)
Definition like_post (request : Request.t) (post_id : N) : ORM Response :=
  IsAuthenticated request (λ me,
    post ← get_public_post post_id;
    match post with
    | None => mret (Error HTTP_404_NOT_FOUND "Post not found")
    | Some _ =>
        '(like, _, created) ← get_or_create Objects.PostLike
            (like_lookup me post_id)
            {| PostLike.user := me; PostLike.post := post_id |};
        if created : bool then
          save_F Objects.TravelPost post_id Col.likes_count (F_plus 1);;
          mret (Liked true)
        else
          delete_row Objects.PostLike like;;
          save_F Objects.TravelPost post_id Col.likes_count (F_minus 1);;
          raise TypeError
    end).

(** [share_post]: "Share a post".  As for [like_post], the echoed
    [shares_count] of the body is not kept. *)
Definition share_post (request : Request.t) (post_id : N) : ORM Response :=
  IsAuthenticated request (λ me,
    post ← get_public_post post_id;
    match post with
    | None => mret (Error HTTP_404_NOT_FOUND "Post not found")
    | Some _ =>
        let platform := default (py "native") (Request.platform request) in
        create Objects.PostShare
          {| PostShare.user := me; PostShare.post := post_id;
             PostShare.platform := platform |};;
        save_F Objects.TravelPost post_id Col.shares_count (F_plus 1);;
        mret Shared
    end).

Definition follow_lookup (me user_id : N) (r : UserFollow.t) : Prop :=
  UserFollow.follower r = me ∧ UserFollow.following r = user_id.

#[export] Instance follow_lookup_dec me user_id r :
  Decision (follow_lookup me user_id r).
Proof. unfold follow_lookup. apply _. Defined.

(** [follow_user]: "Follow or unfollow a user" *)
Definition follow_user (request : Request.t) (user_id : N) : ORM Response :=
  IsAuthenticated request (λ me,
    user_to_follow ← get_pk Objects.User user_id;
    match user_to_follow with
    | None => mret (Error HTTP_404_NOT_FOUND "User not found")
    | Some _ =>
        if decide (user_id = me) then
          mret (Error HTTP_400_BAD_REQUEST "Cannot follow yourself")
        else
          '(follow, _, created) ← get_or_create Objects.UserFollow
              (follow_lookup me user_id)
              {| UserFollow.follower := me; UserFollow.following := user_id |};
          if created : bool then
            save_F Objects.User user_id Col.followers_count (F_plus 1);;
            save_F Objects.User me Col.following_count (F_plus 1);;
            mret (Following true)
          else
            delete_row Objects.UserFollow follow;;
            save_F Objects.User user_id Col.followers_count (F_minus 1);;
            save_F Objects.User me Col.following_count (F_minus 1);;
            mret (Following false)
    end).

Definition view_lookup (me post_id : N) (r : PostView.t) : Prop :=
  PostView.user r = Some me ∧ PostView.post r = post_id.

#[export] Instance view_lookup_dec me post_id r :
  Decision (view_lookup me post_id r).
Proof. unfold view_lookup. apply _. Defined.

(** [TravelPostDetailView.get_object]: fetch the public post (404 when there
    is none), track the view, count it. *)
Definition get_object (request : Request.t) (pk : N)
    : ORM (option TravelPost.t) :=
  obj ← get_public_post pk;
  match obj with
  | None => mret None
  | Some p =>
      match Request.user request with
      | Some me =>
          get_or_create Objects.PostView (view_lookup me pk)
            {| PostView.user := Some me; PostView.post := pk;
               PostView.ip_address := Request.client_ip request |};;
          mret tt
      | None =>
          create Objects.PostView
            {| PostView.user := None; PostView.post := pk;
               PostView.ip_address := Request.client_ip request |};;
          mret tt
      end;;
      save_F Objects.TravelPost pk Col.views_count (F_plus 1);;
      mret (Some p)
  end.

(** ** Query sets *)

(** The two orderings the views use: [Meta.ordering = ['-created_at']] of
    [TravelPost], and [order_by('-engagement_score', '-created_at')]. *)
Inductive Ordering :=
| created_at_desc
| engagement_desc.

(** [F('likes_count') + F('comments_count') * 2 + F('shares_count') * 3] *)
Definition engagement_score (p : TravelPost.t) : N :=
  (TravelPost.likes_count p + TravelPost.comments_count p * 2
   + TravelPost.shares_count p * 3)%N.

Definition before (o : Ordering) (x y : PostRow) : Prop :=
  match o with
  | created_at_desc => TravelPost.created_at y.2 ≤ TravelPost.created_at x.2
  | engagement_desc =>
      (engagement_score y.2 < engagement_score x.2)%N
      ∨ (engagement_score y.2 = engagement_score x.2
         ∧ TravelPost.created_at y.2 ≤ TravelPost.created_at x.2)
  end.

#[export] Instance before_dec o x y : Decision (before o x y).
Proof. destruct o; simpl; apply _. Defined.

(** A lazy query over posts: the rows selected so far and the ordering that
    evaluation applies. *)
Record QuerySet := {
  qs_rows : list PostRow;
  qs_ordering : Ordering
}.

(** [queryset.filter(...)] *)
Definition qs_filter (P : PostRow → Prop) `{!∀ r, Decision (P r)}
    (qs : QuerySet) : QuerySet :=
  {| qs_rows := filter P (qs_rows qs); qs_ordering := qs_ordering qs |}.

(** [queryset.order_by(...)] *)
Definition order_by (o : Ordering) (qs : QuerySet) : QuerySet :=
  {| qs_rows := qs_rows qs; qs_ordering := o |}.

(** Evaluation of the whole query. *)
Definition evaluate (qs : QuerySet) : list PostRow :=
  merge_sort (before (qs_ordering qs)) (qs_rows qs).

(** [LIMIT] and [OFFSET] are 64-bit integers in the database. *)
Definition max_bigint : Z := 2 ^ 63 - 1.

(** [list(queryset[start:stop])]: a negative bound is refused, an empty or
    inverted range is empty and runs no query.  Otherwise the query runs
    with [LIMIT stop - start OFFSET start], and the database refuses a
    number above [max_bigint] there ("datatype mismatch" in SQLite, which
    Django raises as [IntegrityError]). *)
Definition slice (qs : QuerySet) (start stop : Z) : ORM (list PostRow) :=
  if (start <? 0) || (stop <? 0) then raise ValueError
  else if (start <? stop)
          && ((max_bigint <? start) || (max_bigint <? stop - start))
  then raise IntegrityError
  else
    let low := Z.min stop start in
    mret (take (Z.to_nat (stop - low)) (drop (Z.to_nat low) (evaluate qs))).

(** [TravelPost.objects.filter(is_public=True)] *)
Definition public_posts : ORM QuerySet :=
  λ db,
    (Ok (qs_filter (λ r, TravelPost.is_public r.2 = true)
           {| qs_rows := map_to_list (posts db);
              qs_ordering := created_at_desc |}), db).

(** A read of the tables for the joins and subqueries of a lookup. *)
Definition tables : ORM DB := λ db, (Ok db, db).

(** [int(request.GET.get(name, default))] *)
Definition int_param (p : IntParam) (default : Z) : ORM Z :=
  match p with
  | IntAbsent => mret default
  | IntInvalid => raise ValueError
  | IntOf z => mret z
  end.

(** ** The feed *)

(** [feed_view]: "Main feed endpoint - TikTok style" *)
Definition feed_view (request : Request.t) : ORM Response :=
  n ← int_param (GET.page_size (Request.GET request)) 10;
  let page_size := Z.min n 20 in
  offset ← int_param (GET.offset (Request.GET request)) 0;
  queryset ← public_posts;
  db ← tables;
  let queryset :=
    match Request.user request with
    | Some me =>
        match preferences db !! me with
        | Some prefs =>
            if negb (UserPreference.show_3d_content prefs)
            then qs_filter (λ r, TravelPost.featured_3d r.2 = false) queryset
            else queryset
        | None => queryset
        end
    | None => queryset
    end in
  posts ← slice queryset offset (offset + page_size);
  mret (FeedPage posts (bool_decide (Z.of_nat (length posts) = page_size))).

(** [tag_relations__tag__name__in=tag_list] *)
Definition tagged_with (db : DB) (tag_list : list str) (r : PostRow) : Prop :=
  ∃ rel, rel ∈ (map_to_list (tag_relations db)).*2
         ∧ PostTagRelation.post rel = r.1
         ∧ ∃ name, PostTag.name <$> post_tags db !! PostTagRelation.tag rel
                   = Some name ∧ name ∈ tag_list.

#[export] Instance tagged_with_dec db tag_list r :
  Decision (tagged_with db tag_list r).
Proof.
  unfold tagged_with.
  apply (list_exist_dec _ _).
  intros rel. apply and_dec; [apply _ |].
  destruct (PostTag.name <$> post_tags db !! PostTagRelation.tag rel) as [n|].
  - destruct (decide (n ∈ tag_list)) as [Hin | Hout].
    + left. eauto.
    + right. intros (n' & [= <-] & ?). done.
  - right. intros (n' & [=] & ?).
Defined.

(** [user__in=following_users], with [following_users] the accounts [me]
    follows. *)
Definition followed_by (db : DB) (me : N) (r : PostRow) : Prop :=
  ∃ f, f ∈ (map_to_list (follows db)).*2
       ∧ UserFollow.follower f = me
       ∧ UserFollow.following f = TravelPost.user r.2.

#[export] Instance followed_by_dec db me r : Decision (followed_by db me r).
Proof. unfold followed_by. apply (list_exist_dec _ _). intros f. apply _. Defined.

Definition timedelta_hours (h : Z) : Z := h * 3600 * 1000000.

(** [TravelPostListView.get_queryset] *)
Definition get_queryset (request : Request.t) : ORM QuerySet :=
  let query_params := Request.GET request in
  queryset ← public_posts;
  db ← tables;
  (* Filter by user *)
  let queryset :=
    match GET.user query_params with
    | Some ((_ :: _) as username) =>
        qs_filter (λ r, User.username <$> users db !! TravelPost.user r.2
                        = Some username) queryset
    | _ => queryset
    end in
  (* Filter by destination *)
  queryset ←
    match GET.destination query_params with
    | UuidAbsent => mret queryset
    | UuidInvalid => raise ValidationError
    | UuidOf destination_id =>
        mret (qs_filter (λ r, TravelPost.destination r.2 = destination_id)
                queryset)
    end;
  (* Filter by tags *)
  let queryset :=
    match GET.tags query_params with
    | Some ((_ :: _) as tags) =>
        let tag_list :=
          (λ tag, remove_char 35 (strip tag)) <$> split 44 tags in
        qs_filter (tagged_with db tag_list) queryset
    | _ => queryset
    end in
  (* Feed algorithm *)
  let feed_type := default (py "latest") (GET.feed query_params) in
  if decide (feed_type = py "trending") then
    let last_24h := Request.now request - timedelta_hours 24 in
    mret (order_by engagement_desc
            (qs_filter (λ r, last_24h ≤ TravelPost.created_at r.2) queryset))
  else if decide (feed_type = py "following"
                  ∧ is_Some (Request.user request)) then
    match Request.user request with
    | Some me => mret (qs_filter (followed_by db me) queryset)
    | None => mret queryset
    end
  else if decide (feed_type = py "3d") then
    mret (qs_filter (λ r, TravelPost.featured_3d r.2 = true) queryset)
  else mret queryset.

(** ** Search *)

Definition author_matches (db : DB) (query : str) (r : PostRow) : bool :=
  match users db !! TravelPost.user r.2 with
  | Some u => icontains (User.username u) query
  | None => false
  end.

(** [search_view]: "Global search for users, destinations, and posts" *)
Definition search_view (request : Request.t) : ORM Response :=
  let query := strip (default [] (GET.q (Request.GET request))) in
  if decide (query = []) then
    mret (Error HTTP_400_BAD_REQUEST "Query parameter required")
  else
    db ← tables;
    (* Search users *)
    let users :=
      take 10 (filter (λ r, icontains (User.username r.2) query
                            || icontains (User.first_name r.2) query
                            || icontains (User.last_name r.2) query = true)
                 (map_to_list (users db))) in
    (* Search destinations *)
    let destinations :=
      take 10 (filter (λ r, icontains (Destination.name r.2) query
                            || icontains (Destination.country r.2) query
                            || icontains (Destination.city r.2) query = true)
                 (map_to_list (destinations db))) in
    (* Search posts *)
    queryset ← public_posts;
    posts ← slice
      (qs_filter (λ r, icontains (TravelPost.description r.2) query
                       || author_matches db query r = true) queryset) 0 10;
    (* Search tags *)
    let tags :=
      take 10 (filter (λ r, icontains (PostTag.name r.2)
                              (remove_char 35 query) = true)
                 (map_to_list (post_tags db))) in
    mret (SearchResults users destinations posts tags).

(** ** Running a view *)

(** The database a view leaves behind, and what it answered. *)
Definition exec {A} (m : ORM A) (db : DB) : DB := (m db).2.
Definition answer {A} (m : ORM A) (db : DB) : Outcome A := (m db).1.

(** A sequence of calls, one after the other, whatever each one answers. *)
Definition exec_all {A} (ms : list (ORM A)) (db : DB) : DB :=
  foldl (λ db m, exec m db) db ms.

(** Row counts the claims speak of. *)
Definition count {R} (P : R → Prop) `{!∀ r, Decision (P r)}
    (m : gmap N R) : nat :=
  size (matching P m).

Definition like_rows (db : DB) (post_id : N) : nat :=
  count (λ r, PostLike.post r = post_id) (likes db).

Definition share_rows (db : DB) (post_id : N) : nat :=
  count (λ r, PostShare.post r = post_id) (shares db).

Definition view_rows (db : DB) (post_id : N) : nat :=
  count (λ r, PostView.post r = post_id) (views db).

Definition follow_rows (db : DB) (a b : N) : nat :=
  count (follow_lookup a b) (follows db).

(** The denormalised counter of a post agrees with the Like table. *)
Definition likes_consistent (db : DB) (post_id : N) : Prop :=
  ∃ p, posts db !! post_id = Some p
       ∧ TravelPost.likes_count p = N.of_nat (like_rows db post_id).

(** A counter column one up, one down. *)
Definition incr {R} (fld : Field R) (r : R) : R := fset fld (fget fld r + 1)%N r.
Definition decr {R} (fld : Field R) (r : R) : R := fset fld (fget fld r - 1)%N r.
Arguments incr {R} fld r : simpl never.
Arguments decr {R} fld r : simpl never.

(** The two states of an (actor, target) pair. *)
Inductive ToggleState :=
| absent
| present.

Definition like_state (db : DB) (a t : N) : ToggleState :=
  if decide (count (like_lookup a t) (likes db) = 0%nat) then absent else present.

Definition follow_state (db : DB) (a t : N) : ToggleState :=
  if decide (follow_rows db a t = 0%nat) then absent else present.

Definition likes_count_of (db : DB) (post_id : N) : option N :=
  TravelPost.likes_count <$> posts db !! post_id.

Definition followers_count_of (db : DB) (user_id : N) : option N :=
  User.followers_count <$> users db !! user_id.

Definition following_count_of (db : DB) (user_id : N) : option N :=
  User.following_count <$> users db !! user_id.

(** What a second follow call would leave behind if it were a no-op: one
    Follow row for the pair, the followers counter of the target one above its
    initial value. *)
Definition followed_exactly_once (request : Request.t) (a b : N) (db : DB)
    : Prop :=
  let db' := exec (follow_user request b) (exec (follow_user request b) db) in
  follow_rows db' a b = 1%nat
  ∧ followers_count_of db' b = N.succ <$> followers_count_of db b.

Definition shares_count_of (db : DB) (post_id : N) : option N :=
  TravelPost.shares_count <$> posts db !! post_id.

Definition views_count_of (db : DB) (post_id : N) : option N :=
  TravelPost.views_count <$> posts db !! post_id.

(** Share rows of one user on one post. *)
Definition share_rows_by (db : DB) (me post_id : N) : nat :=
  count (λ r, PostShare.user r = me ∧ PostShare.post r = post_id) (shares db).

(** View rows of one authenticated user on one post. *)
Definition view_rows_by (db : DB) (me post_id : N) : nat :=
  count (view_lookup me post_id) (views db).

(** The viewer is authenticated and has preferences that switch 3D content
    off. *)
Definition hides_3d (request : Request.t) (db : DB) : Prop :=
  ∃ me prefs, Request.user request = Some me
              ∧ preferences db !! me = Some prefs
              ∧ UserPreference.show_3d_content prefs = false.

#[export] Instance hides_3d_dec request db : Decision (hides_3d request db).
Proof.
  unfold hides_3d.
  destruct (Request.user request) as [me |]; cycle 1.
  { right. by intros (? & ? & ? & _). }
  destruct (preferences db !! me) as [prefs |] eqn:Hp; cycle 1.
  { right. intros (? & ? & [= <-] & ? & _). congruence. }
  destruct (UserPreference.show_3d_content prefs) eqn:Hs.
  - right. intros (? & ? & [= <-] & ? & ?). congruence.
  - left. eauto.
Defined.

(** The posts [feed_view] draws the page of a viewer from. *)
Definition in_feed (request : Request.t) (db : DB) (r : PostRow) : Prop :=
  TravelPost.is_public r.2 = true
  ∧ (hides_3d request db → TravelPost.featured_3d r.2 = false).

(** C3 as stated, for a request that asks for 100 posts: every public post is
    returned and [has_next] is false. *)
Definition feed_returns_all (request : Request.t) (db : DB) : Prop :=
  ∃ results,
    answer (feed_view request) db = Ok (FeedPage results false)
    ∧ length results =
        length (filter (λ r : PostRow, TravelPost.is_public r.2 = true)
                  (map_to_list (posts db))).

(** C3 as stated, for a request without [page_size]: a full page holds 20
    posts. *)
Definition feed_default_is_20 (request : Request.t) (db : DB) : Prop :=
  ∃ results has_next,
    answer (feed_view request) db = Ok (FeedPage results has_next)
    ∧ length results = 20%nat.

(** C7 as stated, for the listing that has the feed modes: no 3D post among
    the posts it selects. *)
Definition listing_has_no_3d (request : Request.t) (db : DB) : Prop :=
  ∃ qs, answer (get_queryset request) db = Ok qs
        ∧ ∀ r, r ∈ evaluate qs → TravelPost.featured_3d r.2 = false.

(** ** Sample data *)

Module Sample.
Definition account (name : string) : User.t :=
  {| User.username := py name; User.first_name := []; User.last_name := [];
     User.followers_count := 0; User.following_count := 0;
     User.total_likes := 0; User.total_views := 0 |}.

Definition post (author : N) (created : Z) (is_3d : bool) : TravelPost.t :=
  {| TravelPost.user := author; TravelPost.destination := 1;
     TravelPost.description := py "sunset"; TravelPost.featured_3d := is_3d;
     TravelPost.is_featured := false; TravelPost.is_public := true;
     TravelPost.likes_count := 0; TravelPost.comments_count := 0;
     TravelPost.shares_count := 0; TravelPost.views_count := 0;
     TravelPost.created_at := created |}.

Definition no_params : GET.t :=
  {| GET.user := None; GET.destination := UuidAbsent; GET.tags := None;
     GET.feed := None; GET.q := None; GET.page_size := IntAbsent;
     GET.offset := IntAbsent |}.

Definition request_with (who : option N) (params : GET.t) : Request.t :=
  {| Request.user := who; Request.GET := params; Request.platform := None;
     Request.client_ip := None; Request.now := 0 |}.

Definition request_by (who : N) : Request.t := request_with (Some who) no_params.

(** Accounts 1 and 2, one plain post (10) and one 3D post (11) of account 1,
    nothing else. *)
Definition db : DB :=
  {| users := {[ 1%N := account "alice"; 2%N := account "bob" ]};
     destinations := ∅;
     posts := {[ 10%N := post 1 (-5) false; 11%N := post 1 (-3) true ]};
     post_tags := ∅; tag_relations := ∅; likes := ∅; shares := ∅;
     views := ∅; follows := ∅; preferences := ∅ |}.

(** 45 public posts of account 1, created at instants 0 .. 44. *)
Definition db45 : DB :=
  {| users := {[ 1%N := account "alice" ]};
     destinations := ∅;
     posts := list_to_map
                ((λ i, (N.of_nat i, post 1 (Z.of_nat i) false)) <$> seq 0 45);
     post_tags := ∅; tag_relations := ∅; likes := ∅; shares := ∅;
     views := ∅; follows := ∅; preferences := ∅ |}.

Definition page_size_100 : GET.t :=
  {| GET.user := None; GET.destination := UuidAbsent; GET.tags := None;
     GET.feed := None; GET.q := None; GET.page_size := IntOf 100;
     GET.offset := IntAbsent |}.

Definition feed_mode (mode : string) : GET.t :=
  {| GET.user := None; GET.destination := UuidAbsent; GET.tags := None;
     GET.feed := Some (py mode); GET.q := None; GET.page_size := IntAbsent;
     GET.offset := IntAbsent |}.

(** [db] where account 2 has switched 3D content off. *)
Definition db_no_3d : DB :=
  with_rows Objects.UserPreference
    {[ 2%N := {| UserPreference.show_3d_content := false;
                 UserPreference.auto_play_videos := true;
                 UserPreference.show_trending := true |} ]} db.
End Sample.

(** * Further views and serializer fields *)

(** [queryset.filter(...).exists()] *)
Definition exists_row {R} (objects : Manager R) (P : R → Prop)
    `{!∀ r, Decision (P r)} : ORM bool :=
  λ db, (Ok (bool_decide (count P (rows objects db) ≠ 0%nat)), db).

(** [str(n)] of an integer, as an f-string prints it. *)
Definition format_int (z : Z) : str :=
  py (DecimalString.NilZero.string_of_int (Z.to_int z)).

Module UserProfileSerializer.
(** [get_is_following]; [request] is [self.context.get('request')]. *)
Definition get_is_following (request : option Request.t) (obj : N)
    : ORM bool :=
  match request with
  | Some request =>
      match Request.user request with
      | Some me => exists_row Objects.UserFollow (follow_lookup me obj)
      | None => mret false
      end
  | None => mret false
  end.

(** [get_posts_count]: [obj.posts.filter(is_public=True).count()] *)
Definition get_posts_count (obj : N) : ORM nat :=
  λ db,
    (Ok (length (filter (λ r : PostRow, TravelPost.user r.2 = obj
                                        ∧ TravelPost.is_public r.2 = true)
                   (map_to_list (posts db)))), db).
End UserProfileSerializer.

(** The method fields of [TravelPostListSerializer]; [TravelPostSerializer]
    defines [get_tags], [get_is_liked] and [get_time_ago] with the same
    bodies. *)
Module TravelPostListSerializer.
(** [get_tags]: the names of the tags of the post, each behind a [#]. *)
Definition get_tags (obj : N) : ORM (list str) :=
  λ db,
    (Ok (omap (λ rel,
                 if decide (PostTagRelation.post rel = obj) then
                   (λ tag, 35%N :: PostTag.name tag)
                     <$> post_tags db !! PostTagRelation.tag rel
                 else None)
           (map_to_list (tag_relations db)).*2), db).

(** [get_is_liked] *)
Definition get_is_liked (request : option Request.t) (obj : N) : ORM bool :=
  match request with
  | Some request =>
      match Request.user request with
      | Some me => exists_row Objects.PostLike (like_lookup me obj)
      | None => mret false
      end
  | None => mret false
  end.

(** [diff.days] and [diff.seconds] of a [timedelta] of [diff] microseconds. *)
Definition days (diff : Z) : Z := diff / (86400 * 1000000).
Definition seconds (diff : Z) : Z := diff `mod` (86400 * 1000000) / 1000000.

(** [get_time_ago], with [now] for [timezone.now()]. *)
Definition get_time_ago (now created_at : Z) : str :=
  let diff := now - created_at in
  if 0 <? days diff then
    format_int (days diff) ++ py "d ago"
  else if 3600 <? seconds diff then
    let hours := seconds diff / 3600 in
    format_int hours ++ py "h ago"
  else if 60 <? seconds diff then
    let minutes := seconds diff / 60 in
    format_int minutes ++ py "m ago"
  else py "Just now".
End TravelPostListSerializer.

Module PopularTagsView.
(** The order of [order_by('-posts_count')]. *)
Definition posts_count_desc (x y : N * PostTag.t) : Prop :=
  (PostTag.posts_count y.2 ≤ PostTag.posts_count x.2)%N.

#[export] Instance posts_count_desc_dec x y : Decision (posts_count_desc x y).
Proof. unfold posts_count_desc. apply _. Defined.

(** [PostTag.objects.filter(posts_count__gt=0).order_by('-posts_count')] *)
Definition get_queryset : ORM (list (N * PostTag.t)) :=
  λ db,
    (Ok (merge_sort posts_count_desc
           (filter (λ r : N * PostTag.t, (0 < PostTag.posts_count r.2)%N)
              (map_to_list (post_tags db)))), db).
End PopularTagsView.

Module UserPreferenceView.
(** The field defaults of [UserPreference]. *)
Definition defaults : UserPreference.t :=
  {| UserPreference.show_3d_content := true;
     UserPreference.auto_play_videos := true;
     UserPreference.show_trending := true |}.

(** [get_object]: [UserPreference.objects.get_or_create(user=request.user)];
    the table is keyed by the user.  [None] is the refusal of an anonymous
    request by [IsAuthenticated]. *)
Definition get_object (request : Request.t)
    : ORM (option UserPreference.t) :=
  match Request.user request with
  | None => mret None
  | Some me =>
      λ db,
        match preferences db !! me with
        | Some preference => (Ok (Some preference), db)
        | None =>
            (Ok (Some defaults),
             with_rows Objects.UserPreference
               (<[me := defaults]> (preferences db)) db)
        end
  end.
End UserPreferenceView.

Module TravelPostDetailView.
(** [get_client_ip], from the two entries of [request.META] it reads. *)
Definition get_client_ip (HTTP_X_FORWARDED_FOR REMOTE_ADDR : option str)
    : option str :=
  match HTTP_X_FORWARDED_FOR with
  | Some ((_ :: _) as x_forwarded_for) => head (split 44 x_forwarded_for)
  | _ => REMOTE_ADDR
  end.
End TravelPostDetailView.

(** ** Consistency of the other counters *)

(** The shares counter of a post agrees with the Share table. *)
Definition shares_consistent (db : DB) (post_id : N) : Prop :=
  ∃ p, posts db !! post_id = Some p
       ∧ TravelPost.shares_count p = N.of_nat (share_rows db post_id).

(** The two follow counters of every account agree with the Follow table. *)
Definition follows_consistent (db : DB) : Prop :=
  ∀ x u, users db !! x = Some u →
    User.followers_count u
      = N.of_nat (count (λ r, UserFollow.following r = x) (follows db))
    ∧ User.following_count u
      = N.of_nat (count (λ r, UserFollow.follower r = x) (follows db)).

(** The views counter of a post is not behind the View table, and agrees
    with it. *)
Definition views_cover_rows (db : DB) (post_id : N) : Prop :=
  ∃ p, posts db !! post_id = Some p
       ∧ (N.of_nat (view_rows db post_id) ≤ TravelPost.views_count p)%N.

Definition views_consistent (db : DB) (post_id : N) : Prop :=
  ∃ p, posts db !! post_id = Some p
       ∧ TravelPost.views_count p = N.of_nat (view_rows db post_id).

(** The request with its [feed] parameter replaced. *)
Definition with_feed (feed : option str) (request : Request.t) : Request.t :=
  {| Request.user := Request.user request;
     Request.GET :=
       {| GET.user := GET.user (Request.GET request);
          GET.destination := GET.destination (Request.GET request);
          GET.tags := GET.tags (Request.GET request);
          GET.feed := feed;
          GET.q := GET.q (Request.GET request);
          GET.page_size := GET.page_size (Request.GET request);
          GET.offset := GET.offset (Request.GET request) |};
     Request.platform := Request.platform request;
     Request.client_ip := Request.client_ip request;
     Request.now := Request.now request |}.

(** The listing is narrowed by none of [user], [destination], [tags]. *)
Definition unfiltered (request : Request.t) : Prop :=
  (GET.user (Request.GET request) = None
   ∨ GET.user (Request.GET request) = Some [])
  ∧ GET.destination (Request.GET request) = UuidAbsent
  ∧ (GET.tags (Request.GET request) = None
     ∨ GET.tags (Request.GET request) = Some []).

(** The request with its [offset] parameter replaced. *)
Definition with_offset (offset : IntParam) (request : Request.t) : Request.t :=
  {| Request.user := Request.user request;
     Request.GET :=
       {| GET.user := GET.user (Request.GET request);
          GET.destination := GET.destination (Request.GET request);
          GET.tags := GET.tags (Request.GET request);
          GET.feed := GET.feed (Request.GET request);
          GET.q := GET.q (Request.GET request);
          GET.page_size := GET.page_size (Request.GET request);
          GET.offset := offset |};
     Request.platform := Request.platform request;
     Request.client_ip := Request.client_ip request;
     Request.now := Request.now request |}.

(** The whole feed of a viewer, newest first. *)
Definition whole_feed (request : Request.t) (db : DB) : list PostRow :=
  merge_sort (before created_at_desc)
    (filter (in_feed request db) (map_to_list (posts db))).

(** One day, in microseconds. *)
Definition one_day : Z := 86400 * 1000000.

(** * Creating posts and comments *)

(** Managers of the tables the serializers write. *)
Module MoreObjects.
Definition Destination : Manager Destination.t := {|
  rows := destinations;
  with_rows m db :=
    {| users := users db; destinations := m; posts := posts db;
       post_tags := post_tags db; tag_relations := tag_relations db;
       likes := likes db; shares := shares db; views := views db;
       follows := follows db; preferences := preferences db |}
|}.

Definition PostTag : Manager PostTag.t := {|
  rows := post_tags;
  with_rows m db :=
    {| users := users db; destinations := destinations db; posts := posts db;
       post_tags := m; tag_relations := tag_relations db;
       likes := likes db; shares := shares db; views := views db;
       follows := follows db; preferences := preferences db |}
|}.

Definition PostTagRelation : Manager PostTagRelation.t := {|
  rows := tag_relations;
  with_rows m db :=
    {| users := users db; destinations := destinations db; posts := posts db;
       post_tags := post_tags db; tag_relations := m;
       likes := likes db; shares := shares db; views := views db;
       follows := follows db; preferences := preferences db |}
|}.
End MoreObjects.

(** [objects.create(...)] on a model with a [unique_together] constraint:
    [same] selects the rows that would collide with the new one. *)
Definition create_unique {R} (objects : Manager R) (same : R → Prop)
    `{!∀ r, Decision (same r)} (new : R) : ORM N :=
  λ db,
    if decide (count same (rows objects db) = 0%nat) then create objects new db
    else (Raise IntegrityError, db).

(** [instance.save()] of a fetched or just created row: the row is written
    under its primary key. *)
Definition save_row {R} (objects : Manager R) (pk : N) (r : R) : ORM unit :=
  λ db, (Ok tt, with_rows objects (<[pk := r]> (rows objects db)) db).

(** [for x in l: body(x)] *)
Fixpoint for_each {A} (l : list A) (body : A → ORM unit) : ORM unit :=
  match l with
  | [] => mret tt
  | x :: l' => body x ;; for_each l' body
  end.

(** [s.split()]: the words of [s] between runs of whitespace; [word] holds
    the characters of the current word, last first. *)
Fixpoint words_from (word : str) (s : str) : list str :=
  match s with
  | [] => match word with [] => [] | _ :: _ => [reverse word] end
  | c :: s' =>
      if isspace c then
        match word with
        | [] => words_from [] s'
        | _ :: _ => reverse word :: words_from [] s'
        end
      else words_from (c :: word) s'
  end.

Definition split_whitespace (s : str) : list str := words_from [] s.

(** [s.startswith(c)] for a one-character [c] *)
Definition startswith (c : N) (s : str) : bool :=
  match s with
  | x :: _ => bool_decide (x = c)
  | [] => false
  end.

(** The validated data [TravelPostSerializer.create] receives, for the
    columns of the model kept here; a flag that the request left out is
    [None] and takes the default of the model. *)
Module PostData.
Record t := {
  description : str;
  featured_3d : option bool;
  is_featured : option bool;
  is_public : option bool;
  destination_id : N;
  tags_input : option str
}.
End PostData.

Definition same_relation (post tag : N) (r : PostTagRelation.t) : Prop :=
  PostTagRelation.post r = post ∧ PostTagRelation.tag r = tag.

#[export] Instance same_relation_dec post tag r :
  Decision (same_relation post tag r).
Proof. unfold same_relation. apply _. Defined.

Module TravelPostSerializer.
(** The names of the hashtags of [tags_input]. *)
Definition tag_names (tags_input : str) : list str :=
  (λ tag, remove_char 35 (strip tag))
    <$> filter (λ tag, startswith 35 (strip tag) = true)
          (split_whitespace tags_input).

(** The body of the loop over the tag names. *)
Definition attach_tag (post : N) (tag_name : str) : ORM unit :=
  '(tag_pk, tag, created) ← get_or_create MoreObjects.PostTag
      (λ t, PostTag.name t = tag_name)
      {| PostTag.name := tag_name; PostTag.posts_count := 0 |};
  create_unique MoreObjects.PostTagRelation (same_relation post tag_pk)
    {| PostTagRelation.post := post; PostTagRelation.tag := tag_pk |};;
  save_row MoreObjects.PostTag tag_pk
    {| PostTag.name := PostTag.name tag;
       PostTag.posts_count :=
         if created : bool then 1%N else (PostTag.posts_count tag + 1)%N |}.

(** The row [TravelPost.objects.create] inserts. *)
Definition new_post (request : Request.t) (me : N)
    (validated_data : PostData.t) : TravelPost.t :=
  {| TravelPost.user := me;
     TravelPost.destination := PostData.destination_id validated_data;
     TravelPost.description := PostData.description validated_data;
     TravelPost.featured_3d :=
       default false (PostData.featured_3d validated_data);
     TravelPost.is_featured :=
       default false (PostData.is_featured validated_data);
     TravelPost.is_public := default true (PostData.is_public validated_data);
     TravelPost.likes_count := 0; TravelPost.comments_count := 0;
     TravelPost.shares_count := 0; TravelPost.views_count := 0;
     TravelPost.created_at := Request.now request |}.

(** [create]: the post, then its tags.  An anonymous [request.user] cannot
    be assigned to the [user] column. *)
Definition create (request : Request.t) (validated_data : PostData.t)
    : ORM (N * TravelPost.t) :=
  let tags_input := default [] (PostData.tags_input validated_data) in
  let destination_id := PostData.destination_id validated_data in
  destination ← get_pk MoreObjects.Destination destination_id;
  match destination with
  | None => raise ValidationError
  | Some _ =>
      match Request.user request with
      | None => raise ValueError
      | Some me =>
          let post := new_post request me validated_data in
          pk ← create Objects.TravelPost post;
          match tags_input with
          | [] => mret tt
          | _ :: _ => for_each (tag_names tags_input) (attach_tag pk)
          end;;
          mret (pk, post)
      end
  end.
End TravelPostSerializer.

(** Every tag relation points to a tag, and the [posts_count] of every tag
    is the number of relations that point to it. *)
Definition tags_consistent (db : DB) : Prop :=
  (∀ k rel, tag_relations db !! k = Some rel →
     is_Some (post_tags db !! PostTagRelation.tag rel))
  ∧ ∀ t tag, post_tags db !! t = Some tag →
      PostTag.posts_count tag
        = N.of_nat (count (λ rel, PostTagRelation.tag rel = t)
                      (tag_relations db)).

(** [db'] differs from [db] in the tag tables at most. *)
Definition same_but_tags (db db' : DB) : Prop :=
  users db' = users db ∧ destinations db' = destinations db
  ∧ posts db' = posts db ∧ likes db' = likes db ∧ shares db' = shares db
  ∧ views db' = views db ∧ follows db' = follows db
  ∧ preferences db' = preferences db.

(** The [unique] constraint on [PostTag.name]. *)
Definition tag_names_unique (db : DB) : Prop :=
  ∀ t1 t2 tag1 tag2,
    post_tags db !! t1 = Some tag1 → post_tags db !! t2 = Some tag2 →
    PostTag.name tag1 = PostTag.name tag2 → t1 = t2.

(** The foreign key of [PostTagRelation.post]. *)
Definition relations_point_to_posts (db : DB) : Prop :=
  ∀ k rel, tag_relations db !! k = Some rel →
    is_Some (posts db !! PostTagRelation.post rel).

(** The state of the loop of [create] over the tag names, after the names
    [seen]: tag names are unique, and the tags attached to [post] are the
    tags of the names seen. *)
Definition attached (post : N) (seen : list str) (db : DB) : Prop :=
  tag_names_unique db
  ∧ (∀ k rel, tag_relations db !! k = Some rel →
       PostTagRelation.post rel = post →
       ∃ tag, post_tags db !! PostTagRelation.tag rel = Some tag
              ∧ PostTag.name tag ∈ seen)
  ∧ (∀ n, n ∈ seen →
       ∃ t tag, post_tags db !! t = Some tag ∧ PostTag.name tag = n
                ∧ count (same_relation post t) (tag_relations db) ≠ 0%nat).

(** Data for the examples of the further properties. *)
Module Demo.
(** [Sample.db] after account 1 liked post 10 and followed account 2. *)
Definition db : DB :=
  exec (follow_user (Sample.request_by 1) 2)
    (exec (like_post (Sample.request_by 1) 10) Sample.db).

(** [Sample.db] with the tag "sunset" on post 10 and an unused tag. *)
Definition db_tagged : DB :=
  {| users := users Sample.db; destinations := destinations Sample.db;
     posts := posts Sample.db;
     post_tags :=
       {[ 1%N := {| PostTag.name := py "sunset"; PostTag.posts_count := 1 |};
          2%N := {| PostTag.name := py "beach"; PostTag.posts_count := 0 |} ]};
     tag_relations :=
       {[ 1%N := {| PostTagRelation.post := 10; PostTagRelation.tag := 1 |} ]};
     likes := ∅; shares := ∅; views := ∅; follows := ∅; preferences := ∅ |}.

Definition params (user tags : option str) : GET.t :=
  {| GET.user := user; GET.destination := UuidAbsent; GET.tags := tags;
     GET.feed := None; GET.q := None; GET.page_size := IntAbsent;
     GET.offset := IntAbsent |}.

(** [db_tagged] with the destination 1. *)
Definition db_with_destination : DB :=
  {| users := users db_tagged;
     destinations :=
       {[ 1%N := {| Destination.name := py "Tokyo";
                    Destination.country := py "Japan";
                    Destination.city := py "Tokyo";
                    Destination.has_3d_model := true;
                    Destination.posts_count := 0 |} ]};
     posts := posts db_tagged; post_tags := post_tags db_tagged;
     tag_relations := tag_relations db_tagged; likes := ∅; shares := ∅;
     views := ∅; follows := ∅; preferences := ∅ |}.

(** The data of a post at destination 1 with these hashtags. *)
Definition post_data (tags_input : string) : PostData.t :=
  {| PostData.description := py "dawn"; PostData.featured_3d := None;
     PostData.is_featured := None; PostData.is_public := None;
     PostData.destination_id := 1; PostData.tags_input := Some (py tags_input) |}.
End Demo.

(** * Comments *)

Module PostComment.
Record t := {
  user : N;
  post : N;
  (** [None] for a top-level comment *)
  parent : option N;
  content : str;
  likes_count : N;
  created_at : Z
}.
End PostComment.

(** The tables of [DB] together with the table of comments. *)
Record Site := {
  database : DB;
  comments : gmap N PostComment.t
}.

Abbreviation CommentRow := (N * PostComment.t)%type.

(** [ordering = ['-created_at']] of [PostComment], and
    [order_by('-created_at')]. *)
Definition newest_first (x y : CommentRow) : Prop :=
  PostComment.created_at y.2 ≤ PostComment.created_at x.2.

#[export] Instance newest_first_dec x y : Decision (newest_first x y).
Proof. unfold newest_first. apply _. Defined.

Module MoreCol.
Definition comments_count : Field TravelPost.t := {|
  fget := TravelPost.comments_count;
  fset v p :=
    {| TravelPost.user := TravelPost.user p;
       TravelPost.destination := TravelPost.destination p;
       TravelPost.description := TravelPost.description p;
       TravelPost.featured_3d := TravelPost.featured_3d p;
       TravelPost.is_featured := TravelPost.is_featured p;
       TravelPost.is_public := TravelPost.is_public p;
       TravelPost.likes_count := TravelPost.likes_count p;
       TravelPost.comments_count := v;
       TravelPost.shares_count := TravelPost.shares_count p;
       TravelPost.views_count := TravelPost.views_count p;
       TravelPost.created_at := TravelPost.created_at p |}
|}.
End MoreCol.

Definition top_level_of (post_id : N) (c : PostComment.t) : Prop :=
  PostComment.post c = post_id ∧ PostComment.parent c = None.

#[export] Instance top_level_of_dec post_id c : Decision (top_level_of post_id c).
Proof. unfold top_level_of. apply _. Defined.

Module PostCommentListView.
(** [get_queryset]: the top-level comments of the post, newest first. *)
Definition get_queryset (post_id : N) (s : Site) : list CommentRow :=
  merge_sort newest_first
    (map_to_list (matching (top_level_of post_id) (comments s))).

(** [perform_create], with the validated [content] of the serializer, whose
    fields do not include [parent].  [None] stands for the [DoesNotExist] of
    [TravelPost.objects.get], which the view does not catch; nothing is
    written then.  An anonymous [request.user] cannot be assigned to the
    [user] column. *)
Definition perform_create (request : Request.t) (post_id : N)
    (content : str) (s : Site) : option (Outcome unit * Site) :=
  match answer (get_public_post post_id) (database s) with
  | Raise e => Some (Raise e, s)
  | Ok None => None
  | Ok (Some post) =>
      match Request.user request with
      | None => Some (Raise ValueError, s)
      | Some me =>
          let pk := fresh (dom (comments s)) in
          let comment :=
            {| PostComment.user := me; PostComment.post := post_id;
               PostComment.parent := None; PostComment.content := content;
               PostComment.likes_count := 0;
               PostComment.created_at := Request.now request |} in
          let '(saved, db) :=
            save_F Objects.TravelPost post_id MoreCol.comments_count
              (F_plus 1) (database s) in
          Some (saved,
                {| database := db;
                   comments := <[pk := comment]> (comments s) |})
      end
  end.
End PostCommentListView.

Module PostCommentSerializer.
(** [get_replies]: the first three replies to the comment, newest first. *)
Definition get_replies (obj : N) (s : Site) : list CommentRow :=
  let replies :=
    matching (λ c, PostComment.parent c = Some obj) (comments s) in
  if bool_decide (replies ≠ ∅) then
    take 3 (merge_sort newest_first (map_to_list replies))
  else [].
End PostCommentSerializer.

(** [TravelPostSerializer.get_comments]: the first three top-level comments
    of the post, in the default order of [PostComment]. *)
Definition get_comments (obj : N) (s : Site) : list CommentRow :=
  take 3 (merge_sort newest_first
            (map_to_list (matching (top_level_of obj) (comments s)))).

(** The site after a call; an uncaught exception leaves it as it was. *)
Definition site_after (r : option (Outcome unit * Site)) (s : Site) : Site :=
  match r with
  | Some (_, s') => s'
  | None => s
  end.

(** Comments posted one after the other: caller, post and content of each. *)
Definition post_comments (calls : list (Request.t * N * str)) (s : Site)
    : Site :=
  foldl (λ s c,
           site_after (PostCommentListView.perform_create c.1.1 c.1.2 c.2 s) s)
    s calls.

(** The comments counter of every post agrees with the table of comments. *)
Definition comments_consistent (s : Site) : Prop :=
  ∀ pk post, posts (database s) !! pk = Some post →
    TravelPost.comments_count post
      = N.of_nat (count (λ c, PostComment.post c = pk) (comments s)).

(** No comment of the site is a reply. *)
Definition no_replies (s : Site) : Prop :=
  ∀ k c, comments s !! k = Some c → PostComment.parent c = None.

Module DemoSite.
(** [Sample.db] with one comment of account 2 on post 10. *)
Definition site : Site :=
  {| database :=
       with_rows Objects.TravelPost
         {[ 10%N := fset MoreCol.comments_count 1 (Sample.post 1 (-5) false);
            11%N := Sample.post 1 (-3) true ]} Sample.db;
     comments :=
       {[ 1%N := {| PostComment.user := 2; PostComment.post := 10;
                    PostComment.parent := None;
                    PostComment.content := py "wow";
                    PostComment.likes_count := 0;
                    PostComment.created_at := 5 |} ]} |}.
End DemoSite.

(** * The listing of posts *)

Module StandardResultsSetPagination.
Definition page_size : Z := 20.
Definition max_page_size : Z := 100.

(** [get_page_size]: the [page_size] parameter when it is a positive
    integer, cut off at [max_page_size]; the [page_size] of the class when
    it is missing, not an integer or not positive. *)
Definition get_page_size (request : Request.t) : Z :=
  match GET.page_size (Request.GET request) with
  | IntOf n => if 0 <? n then Z.min n max_page_size else page_size
  | _ => page_size
  end.

(** [paginate_queryset] for the first page: the paginator counts the rows
    and takes them up to the page size. *)
Definition paginate_queryset (queryset : QuerySet) (request : Request.t)
    : ORM (list PostRow) :=
  let count := Z.of_nat (length (qs_rows queryset)) in
  let per_page := get_page_size request in
  let top := if count <=? per_page then count else per_page in
  slice queryset 0 top.
End StandardResultsSetPagination.

Module TravelPostListView.
(** [ordering = ['-created_at']] *)
Definition ordering : Ordering := created_at_desc.

(** [filter_queryset] with [filter_backends = [DjangoFilterBackend,
    SearchFilter, OrderingFilter]].  A request of [GET.t] has none of the
    parameters [featured_3d], [destination__country], [search] and
    [ordering]: the first two backends leave the query as it is, and
    [OrderingFilter] orders it by the [ordering] of the view, which replaces
    the order the query came with. *)
Definition filter_queryset (queryset : QuerySet) : QuerySet :=
  order_by ordering queryset.

(** [list], the GET of the listing, for a request without a [page]
    parameter. *)
Definition list (request : Request.t) : ORM (list PostRow) :=
  queryset ← get_queryset request;
  StandardResultsSetPagination.paginate_queryset (filter_queryset queryset)
    request.
End TravelPostListView.

(** The engagement score the claims speak of, with its weights. *)
Definition weighted_engagement (p : TravelPost.t) : N :=
  (TravelPost.likes_count p * 1 + TravelPost.comments_count p * 2
   + TravelPost.shares_count p * 3)%N.

(** Ordered by score descending, ties by creation time descending. *)
Definition by_score (x y : PostRow) : Prop :=
  (weighted_engagement y.2 < weighted_engagement x.2)%N
  ∨ (weighted_engagement y.2 = weighted_engagement x.2
     ∧ TravelPost.created_at y.2 ≤ TravelPost.created_at x.2).

#[export] Instance by_score_dec x y : Decision (by_score x y).
Proof. unfold by_score. apply _. Defined.

Module Trending.
Definition day : Z := 24 * 60 * 60 * 1000000.

Definition engaged (created : Z) (public : bool)
    (likes comments shares : N) : TravelPost.t :=
  {| TravelPost.user := 1; TravelPost.destination := 1;
     TravelPost.description := py "sunset"; TravelPost.featured_3d := false;
     TravelPost.is_featured := false; TravelPost.is_public := public;
     TravelPost.likes_count := likes; TravelPost.comments_count := comments;
     TravelPost.shares_count := shares; TravelPost.views_count := 0;
     TravelPost.created_at := created |}.

(** At instant 0: post 1 is exactly 24 hours old and was shared once, post 2
    has one comment, posts 7 and 3 have two likes and one, post 4 is the
    newest and has nothing; post 5 is older than 24 hours, post 6 is
    private. *)
Definition db : DB :=
  {| users := {[ 1%N := Sample.account "alice" ]};
     destinations := ∅;
     posts :=
       {[ 1%N := engaged (- day) true 0 0 1;
          2%N := engaged (-3) true 0 1 0;
          3%N := engaged (-2) true 1 0 0;
          4%N := engaged (-1) true 0 0 0;
          5%N := engaged (- day - 1) true 100 0 0;
          6%N := engaged (-1) false 50 0 0;
          7%N := engaged (-4) true 2 0 0 ]};
     post_tags := ∅; tag_relations := ∅; likes := ∅; shares := ∅;
     views := ∅; follows := ∅; preferences := ∅ |}.

(** GET of the listing with [feed=trending] and nothing else, at instant
    0. *)
Definition request : Request.t :=
  Sample.request_with None (Sample.feed_mode "trending").
End Trending.

(** * Properties *)

(** ** Counting rows *)

Section count.
Context {R : Type} (P : R → Prop) `{!∀ r, Decision (P r)}.
Implicit Types m : gmap N R.

Lemma count_empty : count P (∅ : gmap N R) = 0%nat.
Proof. unfold count, matching. by rewrite map_filter_empty, map_size_empty. Qed.

Lemma count_insert m k r :
  m !! k = None →
  count P (<[k := r]> m) = ((if decide (P r) then 1 else 0) + count P m)%nat.
Proof.
  intros Hk. unfold count, matching. destruct (decide (P r)) as [Hr | Hr].
  - rewrite map_filter_insert_True by done.
    rewrite map_size_insert_None; [done |].
    by rewrite map_lookup_filter_None_2; [| left].
  - rewrite map_filter_insert_not'; [done | done |].
    intros y Hy. congruence.
Qed.

Lemma count_delete m k r :
  m !! k = Some r →
  count P m = ((if decide (P r) then 1 else 0) + count P (delete k m))%nat.
Proof.
  intros Hk. rewrite <- (insert_delete_id m k r) at 1 by done.
  apply count_insert, lookup_delete_eq.
Qed.

Lemma fresh_key m : m !! fresh (dom m) = None.
Proof. apply not_elem_of_dom, is_fresh. Qed.

Lemma count_matching m : count P m = length (map_to_list (matching P m)).
Proof. unfold count. by rewrite length_map_to_list. Qed.

Lemma matching_only m k r :
  map_to_list (matching P m) = [(k, r)] → m !! k = Some r ∧ P r.
Proof.
  intros E.
  assert ((k, r) ∈ map_to_list (matching P m)) as Hin by (rewrite E; left).
  apply elem_of_map_to_list in Hin. unfold matching in Hin.
  by apply map_lookup_filter_Some in Hin.
Qed.
End count.

(** ** What the ORM primitives do *)

Lemma get_or_create_cases {R} (objects : Manager R) (P : R → Prop)
    `{!∀ r, Decision (P r)} (new : R) (db : DB) :
  (count P (rows objects db) = 0%nat
   ∧ get_or_create objects P new db =
       (Ok (fresh (dom (rows objects db)), new, true),
        with_rows objects (<[fresh (dom (rows objects db)) := new]> (rows objects db)) db))
  ∨ (∃ pk r, count P (rows objects db) = 1%nat
       ∧ rows objects db !! pk = Some r ∧ P r
       ∧ get_or_create objects P new db = (Ok (pk, r, false), db))
  ∨ ((2 ≤ count P (rows objects db))%nat
     ∧ get_or_create objects P new db = (Raise MultipleObjectsReturned, db)).
Proof.
  unfold get_or_create. rewrite count_matching.
  destruct (map_to_list (matching P (rows objects db)))
    as [| [pk r] [| kr l]] eqn:E.
  - by left.
  - right; left. exists pk, r.
    destruct (matching_only P _ _ _ E). by repeat split.
  - right; right. split; [simpl; lia | done].
Qed.

Lemma save_F_plus {R} (objects : Manager R) (pk : N) (fld : Field R)
    (n : N) (r : R) (db : DB) :
  rows objects db !! pk = Some r →
  save_F objects pk fld (F_plus n) db =
    (Ok tt, with_rows objects
              (<[pk := fset fld (fget fld r + n)%N r]> (rows objects db)) db).
Proof.
  intros Hr. unfold save_F. rewrite Hr. cbn.
  destruct (Z.ltb_spec (Z.of_N (fget fld r) + Z.of_N n) 0); [lia |].
  by rewrite <- N2Z.inj_add, N2Z.id.
Qed.

Lemma save_F_minus {R} (objects : Manager R) (pk : N) (fld : Field R)
    (n : N) (r : R) (db : DB) :
  rows objects db !! pk = Some r →
  save_F objects pk fld (F_minus n) db =
    if decide (n ≤ fget fld r)%N
    then (Ok tt, with_rows objects
                   (<[pk := fset fld (fget fld r - n)%N r]> (rows objects db)) db)
    else (Raise IntegrityError, db).
Proof.
  intros Hr. unfold save_F. rewrite Hr. cbn.
  destruct (Z.ltb_spec (Z.of_N (fget fld r) - Z.of_N n) 0);
    destruct (decide (n ≤ fget fld r)%N); try lia; [done |].
  by rewrite <- N2Z.inj_sub, N2Z.id.
Qed.

Lemma save_F_missing {R} (objects : Manager R) (pk : N) (fld : Field R)
    (e : FExpr) (db : DB) :
  rows objects db !! pk = None →
  save_F objects pk fld e db = (Raise DatabaseError, db).
Proof. intros Hr. unfold save_F. by rewrite Hr. Qed.

Lemma bind_eq {A B} (m : ORM A) (f : A → ORM B) (db : DB) :
  (m ≫= f) db =
    match m db with
    | (Ok a, db') => f a db'
    | (Raise e, db') => (Raise e, db')
    end.
Proof. done. Qed.

Lemma exec_all_cons {A} (m : ORM A) (ms : list (ORM A)) (db : DB) :
  exec_all (m :: ms) db = exec_all ms (exec m db).
Proof. done. Qed.

Lemma exec_all_app {A} (ms1 ms2 : list (ORM A)) (db : DB) :
  exec_all (ms1 ++ ms2) db = exec_all ms2 (exec_all ms1 db).
Proof. unfold exec_all. by rewrite foldl_app. Qed.

(** ** C1: the like counter and the Like rows *)

Lemma like_post_consistent (request : Request.t) (q post_id : N) (db : DB) :
  likes_consistent db post_id →
  likes_consistent (exec (like_post request q) db) post_id.
Proof.
  intros (p & Hp & Hc). unfold like_post, exec, IsAuthenticated.
  destruct (Request.user request) as [me |]; [| by exists p].
  unfold get_public_post, get_pk. rewrite !bind_eq. cbn.
  destruct (posts db !! q) as [pq |] eqn:Hq; [| by exists p].
  destruct (TravelPost.is_public pq); [| by exists p].
  rewrite bind_eq.
  destruct (get_or_create_cases Objects.PostLike (like_lookup me q)
              {| PostLike.user := me; PostLike.post := q |} db)
    as [[Hn ->] | [(pk & r & Hn & Hpk & Hr & ->) | [Hn ->]]];
    [| | by exists p].
  - (* a Like row is created *)
    rewrite bind_eq, (save_F_plus _ _ _ _ pq) by done. cbn.
    unfold likes_consistent, like_rows. cbn.
    rewrite (count_insert _ _ _ _ (fresh_key _)). cbn.
    destruct (decide (q = post_id)) as [-> | Hne].
    + rewrite lookup_insert_eq. eexists; split; [done |]. cbn.
      rewrite Hq in Hp. injection Hp as ->. fold (like_rows db post_id). lia.
    + rewrite lookup_insert_ne by done. exists p. by split.
  - (* the Like row is deleted *)
    rewrite bind_eq. unfold delete_row. cbn. destruct Hr as [_ Hr].
    assert (like_rows db post_id =
            ((if decide (q = post_id) then 1 else 0)
             + count (λ r, PostLike.post r = post_id) (delete pk (likes db)))%nat)
      as Hrows.
    { unfold like_rows. rewrite (count_delete _ _ _ _ Hpk). by rewrite Hr. }
    rewrite bind_eq, (save_F_minus _ _ _ _ pq) by done. cbn.
    destruct (decide (q = post_id)) as [-> | Hne].
    + rewrite Hq in Hp. injection Hp as ->.
      rewrite decide_True by lia. cbn.
      unfold likes_consistent, like_rows. cbn.
      rewrite lookup_insert_eq. eexists; split; [done |]. cbn. lia.
    + case_decide; cbn; unfold likes_consistent, like_rows; cbn.
      * rewrite lookup_insert_ne by done. exists p. split; [done | lia].
      * exists p. split; [done | lia].
Qed.

(** C1. From a state where the likes counter of post P equals the number of
    Like rows referencing P, any finite sequence of [like_post] calls (by any
    callers, on any posts) ends in a state where it still does. *)
Theorem likes_count_equals_like_rows
    (calls : list (Request.t * N)) (db : DB) (post_id : N) :
  likes_consistent db post_id →
  likes_consistent
    (exec_all ((λ c, like_post c.1 c.2) <$> calls) db) post_id.
Proof.
  revert db. induction calls as [| [request q] calls IH]; intros db H.
  - done.
  - rewrite fmap_cons, exec_all_cons. apply IH. cbn.
    by apply like_post_consistent.
Qed.

Lemma likes_count_equals_like_rows_witness :
  likes_consistent Sample.db 10
  ∧ likes_consistent
      (exec_all ((λ c, like_post c.1 c.2) <$>
                   [(Sample.request_by 1, 10%N); (Sample.request_by 2, 10%N);
                    (Sample.request_by 1, 11%N); (Sample.request_by 1, 10%N)])
         Sample.db) 10.
Proof.
  assert (likes_consistent Sample.db 10) as H.
  { eexists. split; vm_compute; reflexivity. }
  split; [exact H |].
  apply (likes_count_equals_like_rows _ Sample.db 10 H).
Defined.

(** ** One call of a toggle, step by step *)

Lemma decr_incr_post (fld : Field TravelPost.t) (p : TravelPost.t) :
  fld ∈ [Col.likes_count; Col.shares_count; Col.views_count] →
  decr fld (incr fld p) = p.
Proof.
  intros Hf. unfold decr, incr. destruct p.
  repeat (apply elem_of_cons in Hf as [-> | Hf]; [cbn; f_equal; lia |]).
  by apply elem_of_nil in Hf.
Qed.

Lemma decr_incr_user (fld : Field User.t) (u : User.t) :
  fld ∈ [Col.followers_count; Col.following_count] →
  decr fld (incr fld u) = u.
Proof.
  intros Hf. unfold decr, incr. destruct u.
  repeat (apply elem_of_cons in Hf as [-> | Hf]; [cbn; f_equal; lia |]).
  by apply elem_of_nil in Hf.
Qed.

(** [like_post] when no Like row of the caller exists: the row is created and
    the counter goes up. *)
Lemma like_post_like (request : Request.t) (me q : N) (p : TravelPost.t)
    (db : DB) :
  Request.user request = Some me →
  posts db !! q = Some p → TravelPost.is_public p = true →
  count (like_lookup me q) (likes db) = 0%nat →
  like_post request q db =
    (Ok (Liked true),
     with_rows Objects.TravelPost (<[q := incr Col.likes_count p]> (posts db))
       (with_rows Objects.PostLike
          (<[fresh (dom (likes db)) :=
               {| PostLike.user := me; PostLike.post := q |}]> (likes db)) db)).
Proof.
  intros Hme Hq Hpub Hn. unfold like_post, IsAuthenticated. rewrite Hme.
  unfold get_public_post, get_pk. rewrite !bind_eq. cbn. rewrite Hq, Hpub.
  rewrite bind_eq.
  destruct (get_or_create_cases Objects.PostLike (like_lookup me q)
              {| PostLike.user := me; PostLike.post := q |} db)
    as [[_ ->] | [(pk & r & Hn' & _) | [Hn' _]]];
    [| cbn in Hn'; lia | cbn in Hn'; lia].
  rewrite bind_eq, (save_F_plus _ _ _ _ p) by exact Hq. done.
Qed.

(** [like_post] when exactly one Like row of the caller exists: that row is
    deleted and the counter goes down, then the response raises. *)
Lemma like_post_unlike (request : Request.t) (me q : N) (p : TravelPost.t)
    (db : DB) :
  Request.user request = Some me →
  posts db !! q = Some p → TravelPost.is_public p = true →
  count (like_lookup me q) (likes db) = 1%nat →
  (1 ≤ TravelPost.likes_count p)%N →
  ∃ pk r, likes db !! pk = Some r ∧ like_lookup me q r ∧
    like_post request q db =
      (Raise TypeError,
       with_rows Objects.TravelPost (<[q := decr Col.likes_count p]> (posts db))
         (with_rows Objects.PostLike (delete pk (likes db)) db)).
Proof.
  intros Hme Hq Hpub Hn Hc. unfold like_post, IsAuthenticated. rewrite Hme.
  unfold get_public_post, get_pk. rewrite !bind_eq. cbn. rewrite Hq, Hpub.
  rewrite bind_eq.
  destruct (get_or_create_cases Objects.PostLike (like_lookup me q)
              {| PostLike.user := me; PostLike.post := q |} db)
    as [[Hn' _] | [(pk & r & _ & Hpk & Hr & ->) | [Hn' _]]];
    [cbn in Hn'; lia | | cbn in Hn'; lia].
  exists pk, r. split; [done |]. split; [done |].
  rewrite bind_eq. unfold delete_row.
  rewrite bind_eq, (save_F_minus _ _ _ _ p) by exact Hq.
  rewrite decide_True by done. done.
Qed.

Lemma get_public_post_eq (q : N) (db : DB) :
  get_public_post q db =
    (Ok (match posts db !! q with
         | Some p => if TravelPost.is_public p then Some p else None
         | None => None
         end), db).
Proof. done. Qed.

(** [like_post] on a post that is missing or not public answers 404 and
    writes nothing. *)
Lemma like_post_404 (request : Request.t) (me q : N) (db : DB) :
  Request.user request = Some me →
  (∀ p, posts db !! q = Some p → TravelPost.is_public p = false) →
  like_post request q db = (Ok (Error HTTP_404_NOT_FOUND "Post not found"), db).
Proof.
  intros Hme Hq. unfold like_post, IsAuthenticated. rewrite Hme.
  rewrite bind_eq, get_public_post_eq.
  destruct (posts db !! q) as [p |]; [| done].
  by rewrite (Hq p).
Qed.

(** A table with no matching row, after one insertion and the deletion of a
    matching row, is the table it was. *)
Lemma delete_the_inserted {R} (P : R → Prop) `{!∀ r, Decision (P r)}
    (m : gmap N R) (k pk : N) (new r : R) :
  m !! k = None → count P m = 0%nat →
  <[k := new]> m !! pk = Some r → P r →
  delete pk (<[k := new]> m) = m.
Proof.
  intros Hk Hn Hpk Hr. destruct (decide (k = pk)) as [<- | Hne].
  - rewrite delete_insert_eq. by apply delete_id.
  - rewrite lookup_insert_ne in Hpk by done.
    rewrite (count_delete P _ _ _ Hpk), decide_True in Hn by done. lia.
Qed.

Lemma DB_eta (db : DB) :
  {| users := users db; destinations := destinations db; posts := posts db;
     post_tags := post_tags db; tag_relations := tag_relations db;
     likes := likes db; shares := shares db; views := views db;
     follows := follows db; preferences := preferences db |} = db.
Proof. by destruct db. Qed.

(** Liking and then unliking restores the whole database. *)
Lemma like_post_twice (request : Request.t) (me q : N) (db : DB) :
  Request.user request = Some me →
  count (like_lookup me q) (likes db) = 0%nat →
  exec (like_post request q) (exec (like_post request q) db) = db.
Proof.
  intros Hme Hn.
  destruct (posts db !! q) as [p |] eqn:Hq; cycle 1.
  { unfold exec.
    rewrite (like_post_404 _ me q db) by (done || intros; congruence). cbn.
    by rewrite (like_post_404 _ me q db) by (done || intros; congruence). }
  destruct (TravelPost.is_public p) eqn:Hpub; cycle 1.
  { unfold exec.
    rewrite (like_post_404 _ me q db) by (done || intros; congruence). cbn.
    by rewrite (like_post_404 _ me q db) by (done || intros; congruence). }
  unfold exec. rewrite (like_post_like _ me q p db) by done. cbn [snd].
  set (db1 := with_rows Objects.TravelPost _ _).
  destruct (like_post_unlike request me q (incr Col.likes_count p) db1)
    as (pk & r & Hpk & Hr & ->); try done.
  - subst db1. cbn. apply lookup_insert_eq.
  - subst db1. cbn.
    rewrite (count_insert _ _ _ _ (fresh_key _)), Hn.
    by rewrite decide_True.
  - unfold incr. cbn. lia.
  - subst db1. cbn. cbn in Hpk.
    rewrite (delete_the_inserted (like_lookup me q) _ _ _ _ _
               (fresh_key _) Hn Hpk Hr).
    rewrite insert_insert_eq, decr_incr_post by set_solver.
    rewrite insert_id by done. apply DB_eta.
Qed.

(** [follow_user] when the caller does not follow the target: the row is
    created, then the two counters go up, the target's first. *)
Lemma follow_user_follow (request : Request.t) (me b : N) (ub : User.t)
    (db : DB) :
  Request.user request = Some me →
  users db !! b = Some ub → b ≠ me →
  count (follow_lookup me b) (follows db) = 0%nat →
  follow_user request b db =
    let db1 :=
      with_rows Objects.User (<[b := incr Col.followers_count ub]> (users db))
        (with_rows Objects.UserFollow
           (<[fresh (dom (follows db)) :=
                {| UserFollow.follower := me; UserFollow.following := b |}]>
              (follows db)) db) in
    match users db !! me with
    | Some ume =>
        (Ok (Following true),
         with_rows Objects.User
           (<[me := incr Col.following_count ume]> (users db1)) db1)
    | None => (Raise DatabaseError, db1)
    end.
Proof.
  intros Hme Hb Hne Hn. unfold follow_user, IsAuthenticated. rewrite Hme.
  unfold get_pk. rewrite bind_eq. cbn [rows Objects.User]. rewrite Hb.
  rewrite decide_False by done. rewrite bind_eq.
  destruct (get_or_create_cases Objects.UserFollow (follow_lookup me b)
              {| UserFollow.follower := me; UserFollow.following := b |} db)
    as [[_ ->] | [(pk & r & Hn' & _) | [Hn' _]]];
    [| cbn in Hn'; lia | cbn in Hn'; lia].
  rewrite bind_eq, (save_F_plus _ _ _ _ ub) by exact Hb.
  rewrite bind_eq. cbv zeta.
  destruct (users db !! me) as [ume |] eqn:Hu.
  - rewrite (save_F_plus _ _ _ _ ume); [done |].
    cbn. by rewrite lookup_insert_ne.
  - rewrite save_F_missing; [done |].
    cbn. by rewrite lookup_insert_ne.
Qed.

(** [follow_user] when the caller follows the target through exactly one
    row: the row is deleted, then the two counters go down. *)
Lemma follow_user_unfollow (request : Request.t) (me b : N) (ub : User.t)
    (db : DB) :
  Request.user request = Some me →
  users db !! b = Some ub → b ≠ me →
  count (follow_lookup me b) (follows db) = 1%nat →
  (1 ≤ User.followers_count ub)%N →
  ∃ pk r, follows db !! pk = Some r ∧ follow_lookup me b r ∧
    follow_user request b db =
      let db1 :=
        with_rows Objects.User (<[b := decr Col.followers_count ub]> (users db))
          (with_rows Objects.UserFollow (delete pk (follows db)) db) in
      match users db !! me with
      | Some ume =>
          if decide (1 ≤ User.following_count ume)%N then
            (Ok (Following false),
             with_rows Objects.User
               (<[me := decr Col.following_count ume]> (users db1)) db1)
          else (Raise IntegrityError, db1)
      | None => (Raise DatabaseError, db1)
      end.
Proof.
  intros Hme Hb Hne Hn Hc. unfold follow_user, IsAuthenticated. rewrite Hme.
  unfold get_pk. rewrite bind_eq. cbn [rows Objects.User]. rewrite Hb.
  rewrite decide_False by done. rewrite bind_eq.
  destruct (get_or_create_cases Objects.UserFollow (follow_lookup me b)
              {| UserFollow.follower := me; UserFollow.following := b |} db)
    as [[Hn' _] | [(pk & r & _ & Hpk & Hr & ->) | [Hn' _]]];
    [cbn in Hn'; lia | | cbn in Hn'; lia].
  exists pk, r. split; [done |]. split; [done |].
  rewrite bind_eq. unfold delete_row.
  rewrite bind_eq, (save_F_minus _ _ _ _ ub) by exact Hb.
  rewrite decide_True by done. rewrite bind_eq. cbv zeta.
  destruct (users db !! me) as [ume |] eqn:Hu.
  - rewrite (save_F_minus _ _ _ _ ume);
      [| cbn; by rewrite lookup_insert_ne].
    cbn [fget Col.following_count]. by case_decide.
  - rewrite save_F_missing; [done |].
    cbn. by rewrite lookup_insert_ne.
Qed.

(** [follow_user] answers without writing when the target is unknown or is
    the caller. *)
Lemma follow_user_rejected (request : Request.t) (me b : N) (db : DB) :
  Request.user request = Some me →
  users db !! b = None ∨ b = me →
  exec (follow_user request b) db = db.
Proof.
  intros Hme Hb. unfold exec, follow_user, IsAuthenticated. rewrite Hme.
  unfold get_pk. rewrite bind_eq. cbn [rows Objects.User].
  destruct (users db !! b) as [ub |]; [| done].
  destruct Hb as [? | ->]; [done |]. by rewrite decide_True.
Qed.

(** Following and then unfollowing restores the Follow table and every
    account. *)
Lemma follow_user_twice (request : Request.t) (me b : N) (db : DB) :
  Request.user request = Some me →
  count (follow_lookup me b) (follows db) = 0%nat →
  exec (follow_user request b) (exec (follow_user request b) db) = db.
Proof.
  intros Hme Hn.
  destruct (users db !! b) as [ub |] eqn:Hb; cycle 1.
  { by rewrite !(follow_user_rejected _ me b db) by auto. }
  destruct (decide (b = me)) as [Heq | Hne].
  { by rewrite !(follow_user_rejected _ me b db) by auto. }
  unfold exec.
  rewrite (follow_user_follow _ me b ub db) by done. cbv zeta.
  set (db1 := with_rows Objects.User _ _).
  assert (follows db1 = <[fresh (dom (follows db)) :=
            {| UserFollow.follower := me; UserFollow.following := b |}]>
            (follows db)) as Hf1 by done.
  assert (count (follow_lookup me b) (follows db1) = 1%nat) as Hn1.
  { rewrite Hf1, (count_insert _ _ _ _ (fresh_key _)), Hn.
    by rewrite decide_True. }
  destruct (users db !! me) as [ume |] eqn:Hu; cbn [snd].
  - set (db2 := with_rows Objects.User _ db1).
    destruct (follow_user_unfollow request me b
                (incr Col.followers_count ub) db2)
      as (pk & r & Hpk & Hr & ->); try done.
    { subst db2 db1. cbn. rewrite lookup_insert_ne by done.
      apply lookup_insert_eq. }
    { unfold incr. cbn. lia. }
    cbv zeta.
    assert (users db2 !! me = Some (incr Col.following_count ume)) as ->.
    { subst db2. cbn. apply lookup_insert_eq. }
    rewrite decide_True by (unfold incr; cbn; lia).
    cbn [snd]. subst db2 db1. cbn. cbn in Hpk.
    rewrite (delete_the_inserted (follow_lookup me b) _ _ _ _ _
               (fresh_key _) Hn Hpk Hr).
    rewrite !decr_incr_user by set_solver.
    etrans; [| apply DB_eta]. f_equal.
    apply map_eq. intros k. rewrite !lookup_insert.
    repeat case_decide; congruence.
  - destruct (follow_user_unfollow request me b
                (incr Col.followers_count ub) db1)
      as (pk & r & Hpk & Hr & ->); try done.
    { subst db1. cbn. apply lookup_insert_eq. }
    { unfold incr. cbn. lia. }
    cbv zeta.
    assert (users db1 !! me = None) as ->.
    { subst db1. cbn. by rewrite lookup_insert_ne. }
    cbn [snd]. subst db1. cbn. cbn in Hpk.
    rewrite (delete_the_inserted (follow_lookup me b) _ _ _ _ _
               (fresh_key _) Hn Hpk Hr).
    rewrite !decr_incr_user by set_solver.
    etrans; [| apply DB_eta]. f_equal.
    apply map_eq. intros k. rewrite !lookup_insert.
    repeat case_decide; congruence.
Qed.

(** ** C2: a toggle called twice *)

(** C2. For an actor [a] and a target [t] whose relation is absent, calling
    the toggle twice in a row leaves the relation absent and the affected
    counters at their value before the first call: the likes counter of the
    post for [like_post]; the followers counter of the target and the
    following counter of the actor for [follow_user]. *)
Theorem toggle_twice_restores (request : Request.t) (a t : N) (db : DB) :
  Request.user request = Some a →
  (like_state db a t = absent →
   let db' := exec (like_post request t) (exec (like_post request t) db) in
   like_state db' a t = absent ∧ likes_count_of db' t = likes_count_of db t)
  ∧ (follow_state db a t = absent →
     let db' := exec (follow_user request t) (exec (follow_user request t) db) in
     follow_state db' a t = absent
     ∧ followers_count_of db' t = followers_count_of db t
     ∧ following_count_of db' a = following_count_of db a).
Proof.
  intros Ha. split.
  - intros Habs db'. subst db'.
    assert (count (like_lookup a t) (likes db) = 0%nat) as Hn.
    { unfold like_state in Habs. by case_decide. }
    by rewrite (like_post_twice request a t db Ha Hn).
  - intros Habs db'. subst db'.
    assert (count (follow_lookup a t) (follows db) = 0%nat) as Hn.
    { unfold follow_state, follow_rows in Habs. by case_decide. }
    by rewrite (follow_user_twice request a t db Ha Hn).
Qed.

Lemma toggle_twice_restores_witness :
  Request.user (Sample.request_by 1) = Some 1%N
  ∧ like_state Sample.db 1 10 = absent
  ∧ follow_state Sample.db 1 2 = absent
  ∧ (let db' := exec (like_post (Sample.request_by 1) 10)
                  (exec (like_post (Sample.request_by 1) 10) Sample.db) in
     like_state db' 1 10 = absent
     ∧ likes_count_of db' 10 = likes_count_of Sample.db 10)
  ∧ (let db' := exec (follow_user (Sample.request_by 1) 2)
                  (exec (follow_user (Sample.request_by 1) 2) Sample.db) in
     follow_state db' 1 2 = absent
     ∧ followers_count_of db' 2 = followers_count_of Sample.db 2
     ∧ following_count_of db' 1 = following_count_of Sample.db 1).
Proof.
  split; [reflexivity |]. split; [vm_compute; reflexivity |].
  split; [vm_compute; reflexivity |].
  split.
  - destruct (toggle_twice_restores (Sample.request_by 1) 1 10 Sample.db
                eq_refl) as [H _].
    apply H. vm_compute; reflexivity.
  - destruct (toggle_twice_restores (Sample.request_by 1) 1 2 Sample.db
                eq_refl) as [_ H].
    apply H. vm_compute; reflexivity.
Defined.

(** ** C4: two follow calls in a row *)

(** C4 as stated fails: account 1 follows account 2 twice from a state where
    it does not follow it; no Follow row is left and the followers counter is
    back at its initial value. *)
Lemma follow_twice_not_once :
  follow_rows Sample.db 1 2 = 0%nat
  ∧ is_Some (users Sample.db !! 1%N) ∧ is_Some (users Sample.db !! 2%N)
  ∧ ¬ followed_exactly_once (Sample.request_by 1) 1 2 Sample.db.
Proof.
  split; [vm_compute; reflexivity |].
  split; [by eexists |]. split; [by eexists |].
  intros [Hrows _]. vm_compute in Hrows. discriminate.
Qed.

(** C4, amended.  For distinct accounts A and B where A does not follow B:
    the first call answers [following = true], creates the one Follow row
    for (A, B) and raises B's followers counter by one; the second call is
    the toggle back: it answers [following = false], deletes that row and
    returns B's followers counter to its initial value. *)
Theorem follow_twice_toggles (request : Request.t) (a b : N) (ua ub : User.t)
    (db : DB) :
  Request.user request = Some a → a ≠ b →
  users db !! a = Some ua → users db !! b = Some ub →
  follow_rows db a b = 0%nat →
  let db1 := exec (follow_user request b) db in
  let db2 := exec (follow_user request b) db1 in
  answer (follow_user request b) db = Ok (Following true)
  ∧ follow_rows db1 a b = 1%nat
  ∧ followers_count_of db1 b = Some (User.followers_count ub + 1)%N
  ∧ answer (follow_user request b) db1 = Ok (Following false)
  ∧ follow_rows db2 a b = 0%nat
  ∧ followers_count_of db2 b = Some (User.followers_count ub).
Proof.
  intros Hme Hne Ha Hb Hn db1 db2.
  assert (db2 = db) as Hdb2 by (by apply (follow_user_twice request a b db)).
  pose proof (follow_user_follow request a b ub db Hme Hb (not_eq_sym Hne) Hn)
    as H1.
  cbv zeta in H1. rewrite Ha in H1.
  assert (follow_rows db1 a b = 1%nat) as Hrows1.
  { subst db1. unfold exec. rewrite H1. unfold follow_rows. cbn.
    rewrite (count_insert _ _ _ _ (fresh_key _)).
    unfold follow_rows in Hn. rewrite Hn. by rewrite decide_True. }
  assert (users db1 !! b = Some (incr Col.followers_count ub)) as Hb1.
  { subst db1. unfold exec. rewrite H1. cbn.
    rewrite lookup_insert_ne by done. apply lookup_insert_eq. }
  assert (users db1 !! a = Some (incr Col.following_count ua)) as Ha1.
  { subst db1. unfold exec. rewrite H1. cbn. apply lookup_insert_eq. }
  destruct (follow_user_unfollow request a b (incr Col.followers_count ub) db1)
    as (pk & r & _ & _ & H2); try done.
  { unfold incr. cbn. lia. }
  cbv zeta in H2. rewrite Ha1 in H2.
  rewrite decide_True in H2 by (unfold incr; cbn; lia).
  repeat split.
  - unfold answer. by rewrite H1.
  - done.
  - unfold followers_count_of. by rewrite Hb1.
  - unfold answer. by rewrite H2.
  - by rewrite Hdb2.
  - rewrite Hdb2. unfold followers_count_of. by rewrite Hb.
Qed.

Lemma follow_twice_toggles_witness :
  Request.user (Sample.request_by 1) = Some 1%N ∧ 1%N ≠ 2%N
  ∧ users Sample.db !! 1%N = Some (Sample.account "alice")
  ∧ users Sample.db !! 2%N = Some (Sample.account "bob")
  ∧ follow_rows Sample.db 1 2 = 0%nat
  ∧ follow_rows
      (exec (follow_user (Sample.request_by 1) 2)
         (exec (follow_user (Sample.request_by 1) 2) Sample.db)) 1 2 = 0%nat.
Proof.
  assert (1%N ≠ 2%N) as Hne by discriminate.
  assert (follow_rows Sample.db 1 2 = 0%nat) as Hn by (vm_compute; reflexivity).
  split; [reflexivity |]. split; [exact Hne |]. split; [reflexivity |].
  split; [reflexivity |]. split; [exact Hn |].
  apply (follow_twice_toggles (Sample.request_by 1) 1 2
           (Sample.account "alice") (Sample.account "bob") Sample.db
           eq_refl Hne eq_refl eq_refl Hn).
Defined.

(** ** C6: following oneself *)

(** C6. Whatever the database holds, [follow_user] called by an account on
    itself answers the validation error 400 "Cannot follow yourself" and
    leaves the database, hence every Follow row and every counter, as it
    was. *)
Theorem self_follow_rejected (request : Request.t) (x : N) (ux : User.t)
    (db : DB) :
  Request.user request = Some x →
  users db !! x = Some ux →
  follow_user request x db =
    (Ok (Error HTTP_400_BAD_REQUEST "Cannot follow yourself"), db).
Proof.
  intros Hme Hx. unfold follow_user, IsAuthenticated. rewrite Hme.
  unfold get_pk. rewrite bind_eq. cbn [rows Objects.User]. rewrite Hx.
  by rewrite decide_True.
Qed.

Lemma self_follow_rejected_witness :
  Request.user (Sample.request_by 1) = Some 1%N
  ∧ users Sample.db !! 1%N = Some (Sample.account "alice")
  ∧ follow_user (Sample.request_by 1) 1 Sample.db =
      (Ok (Error HTTP_400_BAD_REQUEST "Cannot follow yourself"), Sample.db).
Proof.
  split; [reflexivity |]. split; [reflexivity |].
  apply (self_follow_rejected (Sample.request_by 1) 1
           (Sample.account "alice") Sample.db eq_refl eq_refl).
Defined.

(** ** C9: shares accumulate *)

Lemma share_post_step (request : Request.t) (me q : N) (p : TravelPost.t)
    (db : DB) :
  Request.user request = Some me →
  posts db !! q = Some p → TravelPost.is_public p = true →
  share_post request q db =
    (Ok Shared,
     with_rows Objects.TravelPost (<[q := incr Col.shares_count p]> (posts db))
       (with_rows Objects.PostShare
          (<[fresh (dom (shares db)) :=
               {| PostShare.user := me; PostShare.post := q;
                  PostShare.platform :=
                    default (py "native") (Request.platform request) |}]>
             (shares db)) db)).
Proof.
  intros Hme Hq Hpub. unfold share_post, IsAuthenticated. rewrite Hme.
  rewrite bind_eq, get_public_post_eq, Hq, Hpub.
  unfold create. rewrite !bind_eq.
  by rewrite (save_F_plus _ _ _ _ p) by exact Hq.
Qed.

Lemma share_post_counts (request : Request.t) (me q : N) (p : TravelPost.t)
    (db : DB) :
  Request.user request = Some me →
  posts db !! q = Some p → TravelPost.is_public p = true →
  let db' := exec (share_post request q) db in
  posts db' !! q = Some (incr Col.shares_count p)
  ∧ share_rows db' q = S (share_rows db q)
  ∧ share_rows_by db' me q = S (share_rows_by db me q).
Proof.
  intros Hme Hq Hpub db'. subst db'. unfold exec.
  rewrite (share_post_step request me q p db) by done. cbn [snd].
  unfold share_rows, share_rows_by. cbn.
  rewrite lookup_insert_eq, !(count_insert _ _ _ _ (fresh_key _)). cbn.
  by rewrite !decide_True.
Qed.

(** C9. Every [share_post] call by an authenticated user on a public post
    answers [shared], adds one Share row and raises the shares counter by
    one; there is no uniqueness on (user, post), so [n] calls by the same user
    on the same post add [n] rows of that user and [n] to the counter, for
    every [n]. *)
Theorem share_accumulates (request : Request.t) (me q : N) (p : TravelPost.t)
    (db : DB) (n : nat) :
  Request.user request = Some me →
  posts db !! q = Some p → TravelPost.is_public p = true →
  (let db1 := exec (share_post request q) db in
   answer (share_post request q) db = Ok Shared
   ∧ share_rows db1 q = S (share_rows db q)
   ∧ shares_count_of db1 q = Some (TravelPost.shares_count p + 1)%N)
  ∧ (let dbn := exec_all (replicate n (share_post request q)) db in
     share_rows_by dbn me q = (share_rows_by db me q + n)%nat
     ∧ share_rows dbn q = (share_rows db q + n)%nat
     ∧ shares_count_of dbn q = Some (TravelPost.shares_count p + N.of_nat n)%N).
Proof.
  intros Hme Hq Hpub. split.
  - destruct (share_post_counts request me q p db Hme Hq Hpub)
      as (Hp' & Hrows & _).
    repeat split; [| done |].
    + unfold answer. by rewrite (share_post_step request me q p db).
    + unfold shares_count_of. by rewrite Hp'.
  - revert p db Hq Hpub. induction n as [| n IH]; intros p db Hq Hpub dbn.
    + subst dbn. cbn. unfold shares_count_of. rewrite Hq. cbn.
      repeat split; [lia | lia | f_equal; lia].
    + subst dbn. cbn [replicate]. rewrite exec_all_cons.
      destruct (share_post_counts request me q p db Hme Hq Hpub)
        as (Hp' & Hrows & Hby).
      destruct (IH (incr Col.shares_count p)
                  (exec (share_post request q) db) Hp' Hpub)
        as (IH1 & IH2 & IH3).
      rewrite IH1, IH2, IH3, Hrows, Hby. unfold incr. cbn.
      repeat split; [lia | lia | f_equal; lia].
Qed.

Lemma share_accumulates_witness :
  Request.user (Sample.request_by 2) = Some 2%N
  ∧ posts Sample.db !! 10%N = Some (Sample.post 1 (-5) false)
  ∧ TravelPost.is_public (Sample.post 1 (-5) false) = true
  ∧ (let dbn := exec_all (replicate 3 (share_post (Sample.request_by 2) 10))
                  Sample.db in
     share_rows_by dbn 2 10 = (share_rows_by Sample.db 2 10 + 3)%nat
     ∧ share_rows dbn 10 = (share_rows Sample.db 10 + 3)%nat
     ∧ shares_count_of dbn 10 =
         Some (TravelPost.shares_count (Sample.post 1 (-5) false)
               + N.of_nat 3)%N).
Proof.
  split; [reflexivity |]. split; [reflexivity |]. split; [reflexivity |].
  apply (share_accumulates (Sample.request_by 2) 2 10
           (Sample.post 1 (-5) false) Sample.db 3 eq_refl eq_refl eq_refl).
Defined.

(** ** C10: the views counter and the View rows *)

(** One retrieval by an authenticated user: a View row is created only when
    the user has none for this post; the counter goes up either way. *)
Lemma get_object_authenticated (request : Request.t) (me pk : N)
    (p : TravelPost.t) (db : DB) :
  Request.user request = Some me →
  posts db !! pk = Some p → TravelPost.is_public p = true →
  (view_rows_by db me pk ≤ 1)%nat →
  get_object request pk db =
    (Ok (Some p),
     with_rows Objects.TravelPost (<[pk := incr Col.views_count p]> (posts db))
       (if decide (view_rows_by db me pk = 0%nat) then
          with_rows Objects.PostView
            (<[fresh (dom (views db)) :=
                 {| PostView.user := Some me; PostView.post := pk;
                    PostView.ip_address := Request.client_ip request |}]>
               (views db)) db
        else db)).
Proof.
  intros Hme Hq Hpub Hle. unfold get_object.
  rewrite bind_eq, get_public_post_eq, Hq, Hpub, Hme.
  rewrite !bind_eq.
  destruct (get_or_create_cases Objects.PostView (view_lookup me pk)
              {| PostView.user := Some me; PostView.post := pk;
                 PostView.ip_address := Request.client_ip request |} db)
    as [[Hn ->] | [(k & r & Hn & _ & _ & ->) | [Hn _]]];
    unfold view_rows_by in *; cbn [rows Objects.PostView] in Hn; [| | lia].
  - rewrite decide_True by done. unfold mret, ORM_ret.
    rewrite !bind_eq. by rewrite (save_F_plus _ _ _ _ p) by exact Hq.
  - rewrite decide_False by lia. unfold mret, ORM_ret.
    rewrite !bind_eq. by rewrite (save_F_plus _ _ _ _ p) by exact Hq.
Qed.

(** One retrieval by an anonymous client: a View row is always created. *)
Lemma get_object_anonymous (request : Request.t) (pk : N)
    (p : TravelPost.t) (db : DB) :
  Request.user request = None →
  posts db !! pk = Some p → TravelPost.is_public p = true →
  get_object request pk db =
    (Ok (Some p),
     with_rows Objects.TravelPost (<[pk := incr Col.views_count p]> (posts db))
       (with_rows Objects.PostView
          (<[fresh (dom (views db)) :=
               {| PostView.user := None; PostView.post := pk;
                  PostView.ip_address := Request.client_ip request |}]>
             (views db)) db)).
Proof.
  intros Hme Hq Hpub. unfold get_object.
  rewrite bind_eq, get_public_post_eq, Hq, Hpub, Hme.
  unfold create, mret, ORM_ret. rewrite !bind_eq.
  by rewrite (save_F_plus _ _ _ _ p) by exact Hq.
Qed.

Lemma get_object_counts (request : Request.t) (me pk : N)
    (p : TravelPost.t) (db : DB) :
  Request.user request = Some me →
  posts db !! pk = Some p → TravelPost.is_public p = true →
  (view_rows_by db me pk ≤ 1)%nat →
  let db' := exec (get_object request pk) db in
  posts db' !! pk = Some (incr Col.views_count p)
  ∧ view_rows_by db' me pk = 1%nat
  ∧ view_rows db' pk = (view_rows db pk + (1 - view_rows_by db me pk))%nat.
Proof.
  intros Hme Hq Hpub Hle db'. subst db'. unfold exec.
  rewrite (get_object_authenticated request me pk p db) by done. cbn [snd].
  case_decide as Hn.
  - unfold view_rows_by, view_rows in *. cbn.
    rewrite lookup_insert_eq, !(count_insert _ _ _ _ (fresh_key _)). cbn.
    rewrite !decide_True by done. rewrite Hn. repeat split; lia.
  - unfold view_rows_by, view_rows in *. cbn.
    rewrite lookup_insert_eq. repeat split; lia.
Qed.

Lemma get_object_repeated (request : Request.t) (me pk : N) (n : nat) :
  Request.user request = Some me →
  ∀ (p : TravelPost.t) (db : DB),
    posts db !! pk = Some p → TravelPost.is_public p = true →
    (view_rows_by db me pk ≤ 1)%nat →
    let dbn := exec_all (replicate n (get_object request pk)) db in
    views_count_of dbn pk = Some (TravelPost.views_count p + N.of_nat n)%N
    ∧ (view_rows_by dbn me pk ≤ 1)%nat
    ∧ (view_rows dbn pk ≤ view_rows db pk + 1)%nat
    ∧ (view_rows_by db me pk = 1%nat → view_rows dbn pk = view_rows db pk).
Proof.
  intros Hme. induction n as [| n IH]; intros p db Hq Hpub Hle dbn.
  - subst dbn. cbn. unfold views_count_of. rewrite Hq. cbn.
    repeat split; [f_equal; lia | lia | lia].
  - subst dbn. cbn [replicate]. rewrite exec_all_cons.
    destruct (get_object_counts request me pk p db Hme Hq Hpub Hle)
      as (Hp' & Hby & Hrows).
    destruct (IH (incr Col.views_count p) (exec (get_object request pk) db)
                Hp' Hpub ltac:(lia))
      as (IH1 & IH2 & IH3 & IH4).
    rewrite IH1. unfold incr. cbn.
    repeat split; [f_equal; lia | lia | lia |].
    intros H1. rewrite (IH4 Hby). lia.
Qed.

(** C10. A retrieval of a public post through [get_object] returns the post
    and raises its views counter by exactly one.  For an authenticated
    viewer a View row is created only if the viewer has none for this post,
    so the viewer never holds more than one; an anonymous retrieval always
    adds a row.  Hence, from a state where the counter equals the number of
    View rows of the post, two or more retrievals by the same authenticated
    user leave the counter strictly above the number of View rows. *)
Theorem views_count_outgrows_view_rows (request : Request.t) (pk : N)
    (p : TravelPost.t) (db : DB) :
  posts db !! pk = Some p → TravelPost.is_public p = true →
  (∀ me, Request.user request = Some me → (view_rows_by db me pk ≤ 1)%nat) →
  let db1 := exec (get_object request pk) db in
  answer (get_object request pk) db = Ok (Some p)
  ∧ views_count_of db1 pk = Some (TravelPost.views_count p + 1)%N
  ∧ (Request.user request = None → view_rows db1 pk = S (view_rows db pk))
  ∧ (∀ me, Request.user request = Some me →
       view_rows_by db1 me pk = 1%nat
       ∧ view_rows db1 pk = (view_rows db pk + (1 - view_rows_by db me pk))%nat
       ∧ ∀ n, let dbn := exec_all (replicate n (get_object request pk)) db in
           views_count_of dbn pk = Some (TravelPost.views_count p + N.of_nat n)%N
           ∧ (view_rows_by dbn me pk ≤ 1)%nat
           ∧ (view_rows dbn pk ≤ view_rows db pk + 1)%nat
           ∧ (TravelPost.views_count p = N.of_nat (view_rows db pk) →
              (2 ≤ n)%nat →
              ∃ c, views_count_of dbn pk = Some c
                   ∧ (N.of_nat (view_rows dbn pk) < c)%N)).
Proof.
  intros Hq Hpub Hle db1.
  destruct (Request.user request) as [me |] eqn:Hme.
  - specialize (Hle me eq_refl).
    destruct (get_object_counts request me pk p db Hme Hq Hpub Hle)
      as (Hp' & Hby & Hrows).
    split; [| split; [| split; [done |]]].
    + unfold answer.
      by rewrite (get_object_authenticated request me pk p db).
    + subst db1. unfold views_count_of. by rewrite Hp'.
    + intros ? [= <-]. split; [done |]. split; [done |]. intros n dbn.
      destruct (get_object_repeated request me pk n Hme p db Hq Hpub Hle)
        as (Hn1 & Hn2 & Hn3 & _).
      fold dbn in Hn1, Hn2, Hn3.
      repeat split; [done | done | done |].
      intros Heq Hn. eexists. split; [exact Hn1 |]. lia.
  - split; [| split; [| split; [| done]]].
    + unfold answer. by rewrite (get_object_anonymous request pk p db).
    + subst db1. unfold exec, views_count_of.
      rewrite (get_object_anonymous request pk p db) by done. cbn.
      by rewrite lookup_insert_eq.
    + intros _. subst db1. unfold exec, view_rows.
      rewrite (get_object_anonymous request pk p db) by done. cbn.
      rewrite (count_insert _ _ _ _ (fresh_key _)). cbn.
      by rewrite decide_True.
Qed.

Lemma views_count_outgrows_view_rows_witness :
  posts Sample.db !! 10%N = Some (Sample.post 1 (-5) false)
  ∧ TravelPost.is_public (Sample.post 1 (-5) false) = true
  ∧ (∀ me, Request.user (Sample.request_by 2) = Some me →
       (view_rows_by Sample.db me 10 ≤ 1)%nat)
  ∧ views_count_of (exec (get_object (Sample.request_by 2) 10) Sample.db) 10
    = Some (TravelPost.views_count (Sample.post 1 (-5) false) + 1)%N.
Proof.
  assert (∀ me, Request.user (Sample.request_by 2) = Some me →
            (view_rows_by Sample.db me 10 ≤ 1)%nat) as Hle.
  { intros me _. unfold view_rows_by. cbn. rewrite count_empty. lia. }
  split; [reflexivity |]. split; [reflexivity |]. split; [exact Hle |].
  apply (views_count_outgrows_view_rows (Sample.request_by 2) 10
           (Sample.post 1 (-5) false) Sample.db eq_refl eq_refl Hle).
Defined.

(** ** The feed page *)

Lemma evaluate_length (qs : QuerySet) :
  length (evaluate qs) = length (qs_rows qs).
Proof. unfold evaluate. by rewrite merge_sort_Permutation. Qed.

Lemma evaluate_elem_of (qs : QuerySet) (r : PostRow) :
  r ∈ evaluate qs ↔ r ∈ qs_rows qs.
Proof. unfold evaluate. by rewrite merge_sort_Permutation. Qed.

Ltac feed_steps :=
  unfold int_param, public_posts, tables;
  repeat (rewrite bind_eq; unfold mret at 1, ORM_ret at 1).

(** The query [feed_view] slices: the public posts, without the 3D ones for a
    viewer who switched them off, newest first. *)
Lemma feed_view_queryset (request : Request.t) (db : DB) :
  ∃ qs,
    qs_ordering qs = created_at_desc
    ∧ qs_rows qs = filter (in_feed request db) (map_to_list (posts db))
    ∧ feed_view request db =
        (n ← int_param (GET.page_size (Request.GET request)) 10;
         offset ← int_param (GET.offset (Request.GET request)) 0;
         posts ← slice qs offset (offset + Z.min n 20);
         mret (FeedPage posts
                 (bool_decide (Z.of_nat (length posts) = Z.min n 20)))) db.
Proof.
  set (public := λ r : PostRow, TravelPost.is_public r.2 = true).
  set (base := {| qs_rows := map_to_list (posts db);
                  qs_ordering := created_at_desc |}).
  destruct (decide (hides_3d request db)) as [Hh | Hh].
  - exists (qs_filter (λ r, TravelPost.featured_3d r.2 = false)
              (qs_filter public base)).
    split; [done |]. split.
    + cbn. rewrite list_filter_filter. apply list_filter_iff.
      intros r. unfold in_feed, public. split; intros [? ?]; auto.
    + destruct Hh as (me & prefs & Hme & Hp & Hs).
      unfold feed_view.
      destruct (GET.page_size (Request.GET request)) as [| | n];
        destruct (GET.offset (Request.GET request)) as [| | o];
        try done; feed_steps; by rewrite Hme, Hp, Hs.
  - exists (qs_filter public base).
    split; [done |]. split.
    + cbn. apply list_filter_iff. intros r. unfold in_feed, public.
      split; [by intros ? | by intros [? _]].
    + assert (match Request.user request with
              | Some me =>
                  match preferences db !! me with
                  | Some prefs =>
                      if negb (UserPreference.show_3d_content prefs)
                      then qs_filter
                             (λ r, TravelPost.featured_3d r.2 = false)
                             (qs_filter public base)
                      else qs_filter public base
                  | None => qs_filter public base
                  end
              | None => qs_filter public base
              end = qs_filter public base) as Hsame.
      { destruct (Request.user request) as [me |] eqn:Hme; [| done].
        destruct (preferences db !! me) as [prefs |] eqn:Hp; [| done].
        destruct (UserPreference.show_3d_content prefs) eqn:Hs; [done |].
        exfalso. apply Hh. by exists me, prefs. }
      unfold feed_view.
      destruct (GET.page_size (Request.GET request)) as [| | n];
        destruct (GET.offset (Request.GET request)) as [| | o];
        try done; feed_steps; subst public base; cbv beta in Hsame;
        by rewrite Hsame.
Qed.

Lemma slice_eq (qs : QuerySet) (start stop : Z) (db : DB) :
  slice qs start stop db =
    if (start <? 0) || (stop <? 0) then (Raise ValueError, db)
    else if (start <? stop)
            && ((max_bigint <? start) || (max_bigint <? stop - start))
    then (Raise IntegrityError, db)
    else (Ok (take (Z.to_nat (stop - Z.min stop start))
                (drop (Z.to_nat (Z.min stop start)) (evaluate qs))), db).
Proof.
  unfold slice. destruct ((start <? 0) || (stop <? 0)); [done |].
  by destruct ((start <? stop) && _).
Qed.

(** A slice within the range of the database, or empty. *)
Lemma slice_in_range (start stop : Z) :
  (start < stop → start ≤ max_bigint ∧ stop - start ≤ max_bigint) →
  (start <? stop) && ((max_bigint <? start) || (max_bigint <? stop - start))
  = false.
Proof.
  intros H. destruct (Z.ltb_spec start stop) as [Hlt | Hge]; [| done].
  destruct (H Hlt) as [H1 H2]. cbn.
  destruct (Z.ltb_spec max_bigint start); [lia |].
  destruct (Z.ltb_spec max_bigint (stop - start)); [lia | done].
Qed.

Lemma int_param_eq (p : IntParam) (default : Z) (db : DB) :
  int_param p default db =
    (match p with
     | IntAbsent => Ok default
     | IntInvalid => Raise ValueError
     | IntOf z => Ok z
     end, db).
Proof. by destruct p. Qed.

(** What [feed_view] answers when both parameters are readable, the slice
    bounds are not negative and the offset of a query that runs is in the
    range of the database. *)
Lemma feed_view_page (request : Request.t) (db : DB) (n o : Z) :
  (GET.page_size (Request.GET request) = IntAbsent ∧ n = 10
   ∨ GET.page_size (Request.GET request) = IntOf n) →
  (GET.offset (Request.GET request) = IntAbsent ∧ o = 0
   ∨ GET.offset (Request.GET request) = IntOf o) →
  0 ≤ o → 0 ≤ o + Z.min n 20 →
  (0 < Z.min n 20 → o ≤ max_bigint) →
  let page :=
    take (Z.to_nat (Z.min n 20))
      (drop (Z.to_nat o)
         (merge_sort (before created_at_desc)
            (filter (in_feed request db) (map_to_list (posts db))))) in
  feed_view request db =
    (Ok (FeedPage page (bool_decide (Z.of_nat (length page) = Z.min n 20))),
     db).
Proof.
  intros Hn Ho Ho0 Hstop Hmax page.
  destruct (feed_view_queryset request db) as (qs & Hord & Hrows & ->).
  rewrite bind_eq, int_param_eq.
  assert (match GET.page_size (Request.GET request) with
          | IntAbsent => Ok 10
          | IntInvalid => Raise ValueError
          | IntOf z => Ok z
          end = Ok n) as ->.
  { by destruct Hn as [[-> ->] | ->]. }
  rewrite bind_eq, int_param_eq.
  assert (match GET.offset (Request.GET request) with
          | IntAbsent => Ok 0
          | IntInvalid => Raise ValueError
          | IntOf z => Ok z
          end = Ok o) as ->.
  { by destruct Ho as [[-> ->] | ->]. }
  rewrite bind_eq, slice_eq.
  destruct (Z.ltb_spec o 0); [lia |].
  destruct (Z.ltb_spec (o + Z.min n 20) 0); [lia |]. cbn [orb].
  rewrite slice_in_range by (unfold max_bigint in *; lia).
  unfold evaluate. rewrite Hord, Hrows. fold page.
  destruct (decide (0 ≤ Z.min n 20)) as [Hs | Hs].
  - replace (Z.min (o + Z.min n 20) o) with o by lia.
    replace (o + Z.min n 20 - o) with (Z.min n 20) by lia. done.
  - assert (page = []) as Hnil.
    { subst page. replace (Z.to_nat (Z.min n 20)) with 0%nat by lia. done. }
    replace (Z.to_nat (o + Z.min n 20 - Z.min (o + Z.min n 20) o))
      with 0%nat by lia.
    by rewrite Hnil.
Qed.

(** Whatever [feed_view] answers with, it is a stretch of the viewer's
    feed. *)
Lemma feed_view_inv (request : Request.t) (db : DB) (results : list PostRow)
    (has_next : bool) :
  answer (feed_view request) db = Ok (FeedPage results has_next) →
  ∀ r, r ∈ results → r ∈ map_to_list (posts db) ∧ in_feed request db r.
Proof.
  intros Hans r Hr. unfold answer in Hans.
  destruct (feed_view_queryset request db) as (qs & Hord & Hrows & Heq).
  rewrite Heq in Hans. clear Heq.
  rewrite bind_eq, int_param_eq in Hans.
  destruct (GET.page_size (Request.GET request)) as [| | n]; [| done |];
    rewrite bind_eq, int_param_eq in Hans;
    (destruct (GET.offset (Request.GET request)) as [| | o]; [| done |]);
    rewrite bind_eq, slice_eq in Hans;
    (destruct (_ || _); [done |]);
    (destruct (_ && _); [done |]);
    cbn in Hans; injection Hans as <- _;
    apply subseteq_take, subseteq_drop, evaluate_elem_of in Hr;
    rewrite Hrows in Hr; apply list_elem_of_filter in Hr; tauto.
Qed.

(** ** C3: the page size of the feed *)

(** C3 as stated fails on 45 public posts: a request for 100 posts gets 20 of
    them with [has_next] true, and a request without [page_size] gets 10. *)
Lemma feed_page_size_not_100 :
  ¬ feed_returns_all (Sample.request_with None Sample.page_size_100)
      Sample.db45
  ∧ ¬ feed_default_is_20 (Sample.request_with None Sample.no_params)
        Sample.db45.
Proof.
  split.
  - intros (results & Hans & _). vm_compute in Hans. congruence.
  - intros (results & has_next & Hans & Hlen). vm_compute in Hans.
    injection Hans as <- _. vm_compute in Hlen. discriminate.
Qed.

(** C3, amended.  [feed_view] reads [page_size] with default 10 and clamps it
    to at most 20; with a readable [offset] from 0 to [max_bigint] and a
    non-negative end of the slice it answers with that stretch of the
    viewer's feed, newest first, and [has_next] is true exactly when the
    number of returned posts equals the clamped page size.  So a request for
    100 posts at offset 0, when 45 posts are available, gets 20 posts and
    [has_next] true. *)
Theorem feed_page_size_clamped (request : Request.t) (db : DB) (n o : Z) :
  (GET.page_size (Request.GET request) = IntAbsent ∧ n = 10
   ∨ GET.page_size (Request.GET request) = IntOf n) →
  (GET.offset (Request.GET request) = IntAbsent ∧ o = 0
   ∨ GET.offset (Request.GET request) = IntOf o) →
  0 ≤ o ≤ max_bigint → 0 ≤ o + Z.min n 20 →
  let page_size := Z.min n 20 in
  let available :=
    filter (in_feed request db) (map_to_list (posts db)) in
  ∃ results has_next,
    answer (feed_view request) db = Ok (FeedPage results has_next)
    ∧ results =
        take (Z.to_nat page_size)
          (drop (Z.to_nat o) (merge_sort (before created_at_desc) available))
    ∧ length results =
        Z.to_nat (Z.min page_size (Z.of_nat (length available) - o))
    ∧ (has_next = true ↔ Z.of_nat (length results) = page_size)
    ∧ (n = 100 → o = 0 → length available = 45%nat →
       length results = 20%nat ∧ has_next = true).
Proof.
  intros Hn Ho [Ho0 Hmax] Hstop page_size available.
  pose proof (feed_view_page request db n o Hn Ho Ho0 Hstop (λ _, Hmax))
    as Hpage.
  cbv zeta in Hpage. fold available page_size in Hpage.
  set (results := take _ _) in Hpage.
  assert (length results =
          Z.to_nat (Z.min page_size (Z.of_nat (length available) - o)))
    as Hlen.
  { subst results. rewrite length_take, length_drop.
    rewrite merge_sort_Permutation. lia. }
  exists results, (bool_decide (Z.of_nat (length results) = page_size)).
  split; [unfold answer; by rewrite Hpage |].
  split; [done |]. split; [done |].
  split; [by rewrite bool_decide_eq_true |].
  intros -> -> Hav. rewrite bool_decide_eq_true.
  rewrite Hlen, Hav. subst page_size. lia.
Qed.

Lemma feed_page_size_clamped_witness :
  GET.page_size
    (Request.GET (Sample.request_with None Sample.page_size_100)) = IntOf 100
  ∧ GET.offset
      (Request.GET (Sample.request_with None Sample.page_size_100)) = IntAbsent
  ∧ 0 ≤ 0 ≤ max_bigint ∧ 0 ≤ 0 + Z.min 100 20
  ∧ ∃ results,
      answer (feed_view (Sample.request_with None Sample.page_size_100))
        Sample.db45 = Ok (FeedPage results true)
      ∧ length results = 20%nat.
Proof.
  split; [reflexivity |]. split; [reflexivity |].
  split; [unfold max_bigint; lia |]. split; [lia |].
  destruct (feed_page_size_clamped
              (Sample.request_with None Sample.page_size_100) Sample.db45
              100 0 (or_intror eq_refl) (or_introl (conj eq_refl eq_refl))
              ltac:(unfold max_bigint; lia) ltac:(lia))
    as (results & has_next & Hans & _ & _ & _ & Hcase).
  destruct (Hcase eq_refl eq_refl ltac:(vm_compute; reflexivity))
    as [Hlen ->].
  by exists results.
Defined.

(** ** C7: viewers who switched 3D content off *)

(** C7 as stated fails on the listing that has the feed modes: account 2 has
    [show_3d_content] off and still gets the 3D post 11 in [latest] mode. *)
Lemma latest_listing_shows_3d :
  hides_3d (Sample.request_with (Some 2%N) (Sample.feed_mode "latest"))
    Sample.db_no_3d
  ∧ ¬ listing_has_no_3d
        (Sample.request_with (Some 2%N) (Sample.feed_mode "latest"))
        Sample.db_no_3d.
Proof.
  split.
  - eexists 2%N, _. repeat split; reflexivity.
  - intros (qs & Hans & Hno).
    assert ((11%N, Sample.post 1 (-3) true) ∈ evaluate qs) as Hin.
    { vm_compute in Hans. injection Hans as <-.
      vm_compute. apply list_elem_of_In. cbn. tauto. }
    apply Hno in Hin. discriminate.
Qed.

(** C7, amended.  For an authenticated viewer whose preferences have
    [show_3d_content] off, no page [feed_view] answers with holds a post with
    [featured_3d] set ([feed_view] has no modes); the listing that has the
    modes, [get_queryset], selects the same posts whatever the preferences
    table holds. *)
Theorem feed_view_hides_3d (request : Request.t) (db : DB) (me : N)
    (prefs : UserPreference.t) :
  Request.user request = Some me →
  preferences db !! me = Some prefs →
  UserPreference.show_3d_content prefs = false →
  (∀ results has_next,
     answer (feed_view request) db = Ok (FeedPage results has_next) →
     ∀ r, r ∈ results → TravelPost.featured_3d r.2 = false)
  ∧ (∀ table,
       answer (get_queryset request)
         (with_rows Objects.UserPreference table db)
       = answer (get_queryset request) db).
Proof.
  intros Hme Hp Hs. split.
  - intros results has_next Hans r Hr.
    destruct (feed_view_inv request db results has_next Hans r Hr)
      as [_ [_ Hno]].
    apply Hno. by exists me, prefs.
  - intros table.
    unfold answer, get_queryset, public_posts, tables, mbind, ORM_bind, mret,
      ORM_ret, raise. cbn.
    destruct (GET.destination (Request.GET request)); cbn; [| reflexivity |];
      repeat case_decide; try reflexivity;
      destruct (Request.user request); reflexivity.
Qed.

Lemma feed_view_hides_3d_witness :
  Request.user (Sample.request_by 2) = Some 2%N
  ∧ (∃ prefs, preferences Sample.db_no_3d !! 2%N = Some prefs
              ∧ UserPreference.show_3d_content prefs = false)
  ∧ ∀ results has_next,
      answer (feed_view (Sample.request_by 2)) Sample.db_no_3d
        = Ok (FeedPage results has_next) →
      ∀ r, r ∈ results → TravelPost.featured_3d r.2 = false.
Proof.
  split; [reflexivity |]. split; [eexists; split; reflexivity |].
  eapply (feed_view_hides_3d (Sample.request_by 2) Sample.db_no_3d 2);
    reflexivity.
Defined.

(** ** C5: the trending mode *)

#[export] Instance before_trans o : Transitive (before o).
Proof. intros x y z. destruct o; unfold before; lia. Qed.

#[export] Instance before_total o : Total (before o).
Proof. intros x y. destruct o; unfold before; lia. Qed.

Lemma evaluate_sorted (qs : QuerySet) :
  StronglySorted (before (qs_ordering qs)) (evaluate qs).
Proof. unfold evaluate. apply StronglySorted_merge_sort; apply _. Qed.

Lemma evaluate_NoDup (qs : QuerySet) : NoDup (qs_rows qs) → NoDup (evaluate qs).
Proof. unfold evaluate. by rewrite merge_sort_Permutation. Qed.

(** In trending mode the query is the public posts, narrowed by the [user],
    [destination] and [tags] parameters when they are given, then to the last
    24 hours, ordered by engagement. *)
Lemma get_queryset_trending (request : Request.t) (db : DB) :
  GET.feed (Request.GET request) = Some (py "trending") →
  GET.destination (Request.GET request) ≠ UuidInvalid →
  ∃ base : QuerySet,
    answer (get_queryset request) db =
      Ok (order_by engagement_desc
            (qs_filter
               (λ r, Request.now request - timedelta_hours 24
                     ≤ TravelPost.created_at r.2) base))
    ∧ qs_rows base `sublist_of`
        filter (λ r : PostRow, TravelPost.is_public r.2 = true)
          (map_to_list (posts db))
    ∧ ((GET.user (Request.GET request) = None
        ∨ GET.user (Request.GET request) = Some []) →
       GET.destination (Request.GET request) = UuidAbsent →
       (GET.tags (Request.GET request) = None
        ∨ GET.tags (Request.GET request) = Some []) →
       qs_rows base =
         filter (λ r : PostRow, TravelPost.is_public r.2 = true)
           (map_to_list (posts db))).
Proof.
  intros Hfeed Hdest.
  unfold answer, get_queryset, public_posts, tables, mbind, ORM_bind, mret,
    ORM_ret, raise.
  cbv zeta. rewrite Hfeed. cbn [default].
  set (public := qs_filter _ _).
  set (by_user := match GET.user _ with Some (_ :: _ as u) => _ | _ => _ end).
  assert (qs_rows by_user `sublist_of` qs_rows public
          ∧ ((GET.user (Request.GET request) = None
              ∨ GET.user (Request.GET request) = Some []) →
             by_user = public)) as [Hsub1 Heq1].
  { subst by_user. destruct (GET.user _) as [[| c u] |].
    - done.
    - split; [apply sublist_filter | by intros [? | ?]].
    - done. }
  destruct (GET.destination (Request.GET request)) as [| | d] eqn:Hd;
    [| done |]; rewrite decide_True by done; cbn [fst].
  - set (by_tags := match GET.tags _ with Some (_ :: _ as t) => _ | _ => _ end).
    exists by_tags. split; [done |].
    assert (qs_rows by_tags `sublist_of` qs_rows by_user
            ∧ ((GET.tags (Request.GET request) = None
                ∨ GET.tags (Request.GET request) = Some []) →
               by_tags = by_user)) as [Hsub2 Heq2].
    { subst by_tags. destruct (GET.tags _) as [[| c t] |].
      - done.
      - split; [apply sublist_filter | by intros [? | ?]].
      - done. }
    split; [by etrans |].
    intros Hu _ Ht. by rewrite (Heq2 Ht), (Heq1 Hu).
  - set (by_tags := match GET.tags _ with Some (_ :: _ as t) => _ | _ => _ end).
    exists by_tags. split; [done |].
    assert (qs_rows by_tags `sublist_of`
              qs_rows (qs_filter (λ r : PostRow, TravelPost.destination r.2 = d)
                         by_user)) as Hsub2.
    { subst by_tags. destruct (GET.tags _) as [[| c t] |];
        [done | apply sublist_filter | done]. }
    split; [| done].
    etrans; [exact Hsub2 |]. etrans; [apply sublist_filter | done].
Qed.

(** The query [get_queryset] builds in trending mode: public posts created
    within the last 24 hours, each once, ordered by the engagement score
    descending with ties broken by creation time descending; all of them
    when the request narrows the listing by no [user], [destination] or
    [tags] parameter. *)
Lemma get_queryset_trending_order (request : Request.t) (db : DB) :
  GET.feed (Request.GET request) = Some (py "trending") →
  GET.destination (Request.GET request) ≠ UuidInvalid →
  let last_24h := Request.now request - timedelta_hours 24 in
  ∃ qs,
    answer (get_queryset request) db = Ok qs
    ∧ StronglySorted
        (λ x y,
           (engagement_score y.2 < engagement_score x.2)%N
           ∨ (engagement_score y.2 = engagement_score x.2
              ∧ TravelPost.created_at y.2 ≤ TravelPost.created_at x.2))
        (evaluate qs)
    ∧ NoDup (evaluate qs)
    ∧ (∀ r, r ∈ evaluate qs →
         posts db !! r.1 = Some r.2
         ∧ TravelPost.is_public r.2 = true
         ∧ last_24h ≤ TravelPost.created_at r.2)
    ∧ ((GET.user (Request.GET request) = None
        ∨ GET.user (Request.GET request) = Some []) →
       GET.destination (Request.GET request) = UuidAbsent →
       (GET.tags (Request.GET request) = None
        ∨ GET.tags (Request.GET request) = Some []) →
       ∀ r, posts db !! r.1 = Some r.2 →
            TravelPost.is_public r.2 = true →
            last_24h ≤ TravelPost.created_at r.2 →
            r ∈ evaluate qs).
Proof.
  intros Hfeed Hdest last_24h.
  destruct (get_queryset_trending request db Hfeed Hdest)
    as (base & Hans & Hsub & Hall).
  eexists. split; [exact Hans |].
  set (qs := order_by _ _).
  split; [exact (evaluate_sorted qs) |].
  split.
  { apply evaluate_NoDup. cbn. apply NoDup_filter.
    eapply sublist_NoDup; [| exact Hsub].
    apply NoDup_filter, NoDup_map_to_list. }
  split.
  - intros r Hr. apply evaluate_elem_of in Hr. cbn in Hr.
    apply list_elem_of_filter in Hr as [Hrecent Hr].
    eapply elem_of_sublist in Hr; [| exact Hsub].
    apply list_elem_of_filter in Hr as [Hpub Hr].
    destruct r as [k p]. by apply elem_of_map_to_list in Hr.
  - intros Hu Hd Ht r Hr Hpub Hrecent.
    apply evaluate_elem_of. cbn. rewrite (Hall Hu Hd Ht).
    apply list_elem_of_filter. split; [done |].
    apply list_elem_of_filter. split; [done |].
    destruct r as [k p]. by apply elem_of_map_to_list.
Qed.

Lemma StronglySorted_take_drop {A} (R : relation A) (l : list A)
    (i j : nat) :
  StronglySorted R l → StronglySorted R (take i (drop j l)).
Proof.
  intros H. rewrite <- (take_drop j l) in H.
  apply StronglySorted_app_1_r in H.
  rewrite <- (take_drop i (drop j l)) in H.
  by apply StronglySorted_app_1_l in H.
Qed.

(** [OrderingFilter] replaces the order of the query: whatever the mode,
    the listing comes newest first. *)
Lemma list_is_newest_first (request : Request.t) (db : DB)
    (results : list PostRow) :
  answer (TravelPostListView.list request) db = Ok results →
  StronglySorted (before created_at_desc) results.
Proof.
  unfold answer, TravelPostListView.list. rewrite bind_eq.
  destruct (get_queryset request db) as [[qs | e] db'] eqn:Hqs; [| done].
  unfold StandardResultsSetPagination.paginate_queryset. cbv zeta.
  rewrite slice_eq.
  destruct (_ || _); [done |]. destruct (_ && _); [done |].
  intros [= <-]. apply StronglySorted_take_drop.
  apply (evaluate_sorted (TravelPostListView.filter_queryset qs)).
Qed.

(** C5.  The listing does not come by engagement score in trending mode.
    On [Trending.db], at instant 0, [get_queryset] selects the public posts
    of the last 24 hours (post 1, exactly 24 hours old, is one of them; post
    5, older, and the private post 6 are not) and orders them by
    [likes_count * 1 + comments_count * 2 + shares_count * 3] descending,
    ties by creation time descending: 1, 2, 7, 3, 4.  The listing returns
    the same posts newest first: 4, 3, 2, 7, 1, which is not ordered by
    score. *)
Theorem trending_listing_is_newest_first :
  (∃ qs,
     answer (get_queryset Trending.request) Trending.db = Ok qs
     ∧ (evaluate qs).*1 = [1; 2; 7; 3; 4]%N
     ∧ StronglySorted by_score (evaluate qs))
  ∧ (∃ results,
       answer (TravelPostListView.list Trending.request) Trending.db
         = Ok results
       ∧ results.*1 = [4; 3; 2; 7; 1]%N
       ∧ weighted_engagement <$> results.*2 = [0; 1; 2; 2; 3]%N
       ∧ ¬ StronglySorted by_score results).
Proof.
  split.
  - eexists. split; [vm_compute; reflexivity |].
    split; [vm_compute; reflexivity |].
    apply (bool_decide_unpack _). vm_compute. exact I.
  - eexists. split; [vm_compute; reflexivity |].
    split; [reflexivity |]. split; [reflexivity |].
    apply (bool_decide_unpack _). vm_compute. exact I.
Qed.

(** ** C8: the search query *)

Lemma lstrip_nil (s : str) : lstrip s = [] ↔ Forall (λ c, isspace c = true) s.
Proof.
  induction s as [| c s IH]; cbn.
  - split; [constructor | done].
  - destruct (isspace c) eqn:Hc.
    + rewrite IH. split; [by constructor | by inversion 1].
    + split; [done |]. intros H. apply Forall_cons in H as [H _]. congruence.
Qed.

Lemma lstrip_head (s : str) :
  lstrip s = [] ∨ ∃ c t, lstrip s = c :: t ∧ isspace c = false.
Proof.
  induction s as [| c s IH]; cbn; [by left |].
  destruct (isspace c) eqn:Hc; [done |]. right. eauto.
Qed.

(** [s.strip()] is empty exactly when [s] is empty or all whitespace. *)
Lemma strip_nil (s : str) : strip s = [] ↔ Forall (λ c, isspace c = true) s.
Proof.
  unfold strip, rstrip. split.
  - intros H. apply (f_equal reverse) in H.
    rewrite reverse_involutive, reverse_nil in H.
    apply lstrip_nil in H. rewrite Forall_reverse in H.
    destruct (lstrip_head s) as [Hs | (c & t & Hs & Hc)].
    + by apply lstrip_nil.
    + rewrite Hs in H. apply Forall_cons in H as [H _]. congruence.
  - intros H. apply lstrip_nil in H. by rewrite H.
Qed.

(** C8. A query that is missing, empty or all whitespace gets the validation
    error 400 "Query parameter required", whatever the database holds and
    without touching it; every other query gets the four result lists
    (users, destinations, posts, tags), each of at most 10 entries. *)
Theorem search_requires_query (request : Request.t) (db : DB) :
  let q := default [] (GET.q (Request.GET request)) in
  (Forall (λ c, isspace c = true) q →
   search_view request db =
     (Ok (Error HTTP_400_BAD_REQUEST "Query parameter required"), db))
  ∧ (¬ Forall (λ c, isspace c = true) q →
     ∃ users destinations posts tags,
       search_view request db =
         (Ok (SearchResults users destinations posts tags), db)
       ∧ (length users ≤ 10)%nat ∧ (length destinations ≤ 10)%nat
       ∧ (length posts ≤ 10)%nat ∧ (length tags ≤ 10)%nat).
Proof.
  intros q. split; intros Hq.
  - unfold search_view. fold q. apply strip_nil in Hq.
    by rewrite decide_True.
  - unfold search_view. fold q.
    rewrite decide_False by (by rewrite strip_nil).
    unfold tables, public_posts. rewrite !bind_eq.
    rewrite slice_eq. cbn [orb Z.ltb].
    do 4 eexists. split; [reflexivity |].
    rewrite !length_take. repeat split; lia.
Qed.

Lemma search_requires_query_witness :
  search_view
    (Sample.request_with None
       {| GET.user := None; GET.destination := UuidAbsent; GET.tags := None;
          GET.feed := None; GET.q := Some (py "  "); GET.page_size := IntAbsent;
          GET.offset := IntAbsent |}) Sample.db
  = (Ok (Error HTTP_400_BAD_REQUEST "Query parameter required"), Sample.db).
Proof.
  apply (search_requires_query _ Sample.db).
  vm_compute. repeat constructor.
Defined.

(** * Further properties *)

(** ** Engagement on a missing target *)

Lemma share_post_404 (request : Request.t) (me q : N) (db : DB) :
  Request.user request = Some me →
  (∀ p, posts db !! q = Some p → TravelPost.is_public p = false) →
  share_post request q db = (Ok (Error HTTP_404_NOT_FOUND "Post not found"), db).
Proof.
  intros Hme Hq. unfold share_post, IsAuthenticated. rewrite Hme.
  rewrite bind_eq, get_public_post_eq.
  destruct (posts db !! q) as [p |]; [| done].
  by rewrite (Hq p).
Qed.

(** X1. A post that does not exist or is not public can be neither liked nor
    shared, and an account that does not exist cannot be followed: the
    answer is 404 and the database is left as it was. *)
Theorem missing_target_is_404 (request : Request.t) (me id : N) (db : DB) :
  Request.user request = Some me →
  ((∀ p, posts db !! id = Some p → TravelPost.is_public p = false) →
   like_post request id db
     = (Ok (Error HTTP_404_NOT_FOUND "Post not found"), db)
   ∧ share_post request id db
     = (Ok (Error HTTP_404_NOT_FOUND "Post not found"), db))
  ∧ (users db !! id = None →
     follow_user request id db
       = (Ok (Error HTTP_404_NOT_FOUND "User not found"), db)).
Proof.
  intros Hme. split.
  - intros Hq. split.
    + by apply (like_post_404 request me).
    + by apply (share_post_404 request me).
  - intros Hu. unfold follow_user, IsAuthenticated. rewrite Hme.
    unfold get_pk. rewrite bind_eq. cbn [rows Objects.User]. by rewrite Hu.
Qed.

Lemma missing_target_is_404_witness :
  Request.user (Sample.request_by 1) = Some 1%N
  ∧ (∀ p, posts Sample.db !! 99%N = Some p → TravelPost.is_public p = false)
  ∧ users Sample.db !! 99%N = None
  ∧ like_post (Sample.request_by 1) 99 Sample.db
    = (Ok (Error HTTP_404_NOT_FOUND "Post not found"), Sample.db)
  ∧ follow_user (Sample.request_by 1) 99 Sample.db
    = (Ok (Error HTTP_404_NOT_FOUND "User not found"), Sample.db).
Proof.
  assert (∀ p, posts Sample.db !! 99%N = Some p
               → TravelPost.is_public p = false) as Hq.
  { intros p Hp. vm_compute in Hp. discriminate. }
  split; [reflexivity |]. split; [exact Hq |]. split; [reflexivity |].
  destruct (missing_target_is_404 (Sample.request_by 1) 1 99 Sample.db
              eq_refl) as [Hpost Huser].
  split; [apply (Hpost Hq) | apply (Huser eq_refl)].
Defined.

(** ** The flags of the toggles and the serializer fields *)

Lemma exists_row_eq {R} (objects : Manager R) (P : R → Prop)
    `{!∀ r, Decision (P r)} (db : DB) :
  exists_row objects P db
    = (Ok (bool_decide (count P (rows objects db) ≠ 0%nat)), db).
Proof. done. Qed.

(** X2. [like_post] answers with a [liked] flag only for a like: the flag
    is true, [get_is_liked] reported false for the caller before the call
    and reports true after it.  The unlike never answers: it raises
    [TypeError] after its writes, [get_is_liked] reported true before the
    call and reports false after it. *)
Theorem liked_flag_is_is_liked (request : Request.t) (me q : N) (db : DB) :
  Request.user request = Some me →
  (∀ b, answer (like_post request q) db = Ok (Liked b) →
     b = true
     ∧ answer (TravelPostListSerializer.get_is_liked (Some request) q) db
       = Ok false
     ∧ answer (TravelPostListSerializer.get_is_liked (Some request) q)
         (exec (like_post request q) db) = Ok true)
  ∧ (answer (like_post request q) db = Raise TypeError →
     answer (TravelPostListSerializer.get_is_liked (Some request) q) db
       = Ok true
     ∧ answer (TravelPostListSerializer.get_is_liked (Some request) q)
         (exec (like_post request q) db) = Ok false).
Proof.
  intros Hme. unfold answer, exec, TravelPostListSerializer.get_is_liked.
  rewrite Hme, !exists_row_eq. cbn [fst rows Objects.PostLike].
  unfold like_post, IsAuthenticated. rewrite Hme.
  rewrite bind_eq, get_public_post_eq.
  destruct (posts db !! q) as [p |] eqn:Hq; [| done].
  destruct (TravelPost.is_public p) eqn:Hpub; [| done].
  rewrite bind_eq.
  destruct (get_or_create_cases Objects.PostLike (like_lookup me q)
              {| PostLike.user := me; PostLike.post := q |} db)
    as [[Hn ->] | [(pk & r & Hn & Hpk & Hr & ->) | [Hn ->]]]; [| | done];
    cbn [rows Objects.PostLike] in *.
  - rewrite bind_eq, (save_F_plus _ _ _ _ p) by exact Hq.
    split; [| done]. intros b [= <-]. cbn.
    rewrite (count_insert _ _ _ _ (fresh_key _)), Hn.
    rewrite decide_True by done.
    done.
  - rewrite bind_eq. unfold delete_row.
    rewrite bind_eq, (save_F_minus _ _ _ _ p) by exact Hq.
    case_decide; [| done]. split; [done |]. intros _. cbn.
    rewrite (count_delete _ _ _ _ Hpk), decide_True in Hn by done.
    split; f_equal.
    + apply bool_decide_eq_true_2.
      rewrite (count_delete _ _ _ _ Hpk), decide_True by done. lia.
    + apply bool_decide_eq_false_2. lia.
Qed.

Lemma liked_flag_is_is_liked_witness :
  (Request.user (Sample.request_by 1) = Some 1%N
   ∧ answer (like_post (Sample.request_by 1) 10) Demo.db = Raise TypeError)
  ∧ answer (TravelPostListSerializer.get_is_liked
              (Some (Sample.request_by 1)) 10) Demo.db = Ok true
  ∧ answer (TravelPostListSerializer.get_is_liked
              (Some (Sample.request_by 1)) 10)
      (exec (like_post (Sample.request_by 1) 10) Demo.db) = Ok false.
Proof.
  assert (answer (like_post (Sample.request_by 1) 10) Demo.db
          = Raise TypeError) as Hans by (vm_compute; reflexivity).
  split; [split; [reflexivity | exact Hans] |].
  apply (liked_flag_is_is_liked (Sample.request_by 1) 1 10 Demo.db eq_refl).
  exact Hans.
Defined.

(** X3. When [follow_user] answers with a [following] flag, the flag is the
    opposite of what [get_is_following] reported for the caller before the
    call, and is what [get_is_following] reports after it. *)
Theorem following_flag_is_is_following (request : Request.t) (me b : N)
    (f : bool) (db : DB) :
  Request.user request = Some me →
  answer (follow_user request b) db = Ok (Following f) →
  answer (UserProfileSerializer.get_is_following (Some request) b) db
    = Ok (negb f)
  ∧ answer (UserProfileSerializer.get_is_following (Some request) b)
      (exec (follow_user request b) db) = Ok f.
Proof.
  intros Hme. unfold answer, exec, UserProfileSerializer.get_is_following.
  rewrite Hme, !exists_row_eq. cbn [fst rows Objects.UserFollow].
  unfold follow_user, IsAuthenticated. rewrite Hme.
  unfold get_pk. rewrite bind_eq. cbn [rows Objects.User].
  destruct (users db !! b) as [ub |] eqn:Hb; [| done].
  case_decide as Hne; [done |]. rewrite bind_eq.
  destruct (get_or_create_cases Objects.UserFollow (follow_lookup me b)
              {| UserFollow.follower := me; UserFollow.following := b |} db)
    as [[Hn ->] | [(pk & r & Hn & Hpk & Hr & ->) | [Hn ->]]]; [| | done];
    cbn [rows Objects.UserFollow] in *.
  - rewrite bind_eq, (save_F_plus _ _ _ _ ub) by exact Hb.
    rewrite bind_eq.
    destruct (users db !! me) as [ume |] eqn:Hu.
    + rewrite (save_F_plus _ _ _ _ ume)
        by (cbn; by rewrite lookup_insert_ne).
      intros [= <-]. cbn.
      rewrite (count_insert _ _ _ _ (fresh_key _)), Hn.
      by rewrite decide_True.
    + rewrite save_F_missing by (cbn; by rewrite lookup_insert_ne). done.
  - rewrite bind_eq. unfold delete_row.
    rewrite bind_eq, (save_F_minus _ _ _ _ ub) by exact Hb.
    case_decide; [| done]. rewrite bind_eq.
    destruct (users db !! me) as [ume |] eqn:Hu.
    + rewrite (save_F_minus _ _ _ _ ume)
        by (cbn; by rewrite lookup_insert_ne).
      case_decide; [| done]. intros [= <-]. cbn.
      rewrite (count_delete _ _ _ _ Hpk), decide_True in Hn by done.
      split; f_equal.
      * apply bool_decide_eq_true_2.
        rewrite (count_delete _ _ _ _ Hpk), decide_True by done. lia.
      * apply bool_decide_eq_false_2. lia.
    + rewrite save_F_missing by (cbn; by rewrite lookup_insert_ne). done.
Qed.

Lemma following_flag_is_is_following_witness :
  Request.user (Sample.request_by 1) = Some 1%N
  ∧ answer (follow_user (Sample.request_by 1) 2) Demo.db
    = Ok (Following false)
  ∧ answer (UserProfileSerializer.get_is_following
              (Some (Sample.request_by 1)) 2) Demo.db = Ok (negb false)
  ∧ answer (UserProfileSerializer.get_is_following
              (Some (Sample.request_by 1)) 2)
      (exec (follow_user (Sample.request_by 1) 2) Demo.db) = Ok false.
Proof.
  assert (answer (follow_user (Sample.request_by 1) 2) Demo.db
          = Ok (Following false)) as Hans by (vm_compute; reflexivity).
  split; [reflexivity |]. split; [exact Hans |].
  apply (following_flag_is_is_following (Sample.request_by 1) 1 2 false
           Demo.db eq_refl Hans).
Defined.

(** ** The shares counter *)

Lemma share_post_consistent (request : Request.t) (q post_id : N) (db : DB) :
  shares_consistent db post_id →
  shares_consistent (exec (share_post request q) db) post_id.
Proof.
  intros (p & Hp & Hc). unfold exec.
  destruct (Request.user request) as [me |] eqn:Hme; cycle 1.
  { unfold share_post, IsAuthenticated. rewrite Hme. by exists p. }
  destruct (posts db !! q) as [pq |] eqn:Hq; cycle 1.
  { rewrite (share_post_404 request me q db) by (done || intros; congruence).
    by exists p. }
  destruct (TravelPost.is_public pq) eqn:Hpub; cycle 1.
  { rewrite (share_post_404 request me q db) by (done || intros; congruence).
    by exists p. }
  rewrite (share_post_step request me q pq db) by done.
  unfold shares_consistent, share_rows in *. cbn.
  rewrite (count_insert _ _ _ _ (fresh_key _)). cbn.
  destruct (decide (q = post_id)) as [-> | Hne].
  - rewrite lookup_insert_eq. eexists; split; [done |].
    rewrite Hq in Hp. injection Hp as ->. unfold incr. cbn. lia.
  - rewrite lookup_insert_ne by done. exists p. split; [done | lia].
Qed.

(** X4. From a state where the shares counter of a post equals the number of
    Share rows referencing it, any sequence of [share_post] calls, by any
    callers on any posts, ends in a state where it still does. *)
Theorem shares_count_equals_share_rows
    (calls : list (Request.t * N)) (db : DB) (post_id : N) :
  shares_consistent db post_id →
  shares_consistent
    (exec_all ((λ c, share_post c.1 c.2) <$> calls) db) post_id.
Proof.
  revert db. induction calls as [| [request q] calls IH]; intros db H.
  - done.
  - rewrite fmap_cons, exec_all_cons. apply IH. cbn.
    by apply share_post_consistent.
Qed.

Lemma shares_count_equals_share_rows_witness :
  shares_consistent Sample.db 10
  ∧ shares_consistent
      (exec_all ((λ c, share_post c.1 c.2) <$>
                   [(Sample.request_by 1, 10%N); (Sample.request_by 1, 10%N);
                    (Sample.request_by 2, 11%N); (Sample.request_by 2, 10%N)])
         Sample.db) 10.
Proof.
  assert (shares_consistent Sample.db 10) as H.
  { eexists. split; vm_compute; reflexivity. }
  split; [exact H |].
  apply (shares_count_equals_share_rows _ Sample.db 10 H).
Defined.

(** ** The follow counters *)

Lemma follow_user_consistent (request : Request.t) (b : N) (db : DB) :
  follows_consistent db →
  follows_consistent (exec (follow_user request b) db).
Proof.
  intros Hc. unfold exec, follow_user, IsAuthenticated.
  destruct (Request.user request) as [me |]; [| done].
  unfold get_pk. rewrite bind_eq. cbn [rows Objects.User].
  destruct (users db !! b) as [ub |] eqn:Hb; [| done].
  case_decide as Hne; [done |]. rewrite bind_eq.
  destruct (Hc b ub Hb) as [Hb1 Hb2].
  destruct (get_or_create_cases Objects.UserFollow (follow_lookup me b)
              {| UserFollow.follower := me; UserFollow.following := b |} db)
    as [[Hn ->] | [(pk & r & Hn & Hpk & [Hr1 Hr2] & ->) | [Hn ->]]];
    [| | done]; cbn [rows Objects.UserFollow] in *.
  - (* the row is created *)
    rewrite bind_eq, (save_F_plus _ _ _ _ ub) by exact Hb.
    rewrite bind_eq.
    destruct (users db !! me) as [ume |] eqn:Hu.
    + rewrite (save_F_plus _ _ _ _ ume)
        by (cbn; by rewrite lookup_insert_ne).
      destruct (Hc me ume Hu) as [Hm1 Hm2].
      intros x u Hx. cbn in Hx |- *.
      rewrite !(count_insert _ _ _ _ (fresh_key _)).
      cbn [UserFollow.following UserFollow.follower].
      rewrite lookup_insert in Hx. case_decide as Hxm.
      * subst x. injection Hx as <-. cbn.
        repeat case_decide; try congruence; split; lia.
      * rewrite lookup_insert in Hx. case_decide as Hxb.
        -- subst x. injection Hx as <-. cbn.
           repeat case_decide; try congruence; split; lia.
        -- destruct (Hc x u Hx) as [H1 H2].
           repeat case_decide; try congruence; split; lia.
    + rewrite save_F_missing by (cbn; by rewrite lookup_insert_ne).
      intros x u Hx. cbn in Hx |- *.
      rewrite !(count_insert _ _ _ _ (fresh_key _)).
      cbn [UserFollow.following UserFollow.follower].
      rewrite lookup_insert in Hx. case_decide as Hxb.
      * subst x. injection Hx as <-. cbn.
        repeat case_decide; try congruence; split; lia.
      * destruct (Hc x u Hx) as [H1 H2].
        assert (me ≠ x) by congruence.
        repeat case_decide; try congruence; split; lia.
  - (* the row is deleted *)
    pose proof (count_delete (λ r, UserFollow.following r = b) _ _ _ Hpk)
      as Hdb.
    rewrite decide_True in Hdb by done.
    rewrite bind_eq. unfold delete_row.
    rewrite bind_eq, (save_F_minus _ _ _ _ ub) by exact Hb.
    rewrite decide_True by (cbn; lia). rewrite bind_eq.
    assert (∀ x, count (λ r, UserFollow.following r = x) (follows db)
                 = ((if decide (b = x) then 1 else 0)
                    + count (λ r, UserFollow.following r = x)
                        (delete pk (follows db)))%nat) as Hfollowing.
    { intros x. rewrite (count_delete _ _ _ _ Hpk), Hr2. done. }
    assert (∀ x, count (λ r, UserFollow.follower r = x) (follows db)
                 = ((if decide (me = x) then 1 else 0)
                    + count (λ r, UserFollow.follower r = x)
                        (delete pk (follows db)))%nat) as Hfollower.
    { intros x. rewrite (count_delete _ _ _ _ Hpk), Hr1. done. }
    destruct (users db !! me) as [ume |] eqn:Hu.
    + rewrite (save_F_minus _ _ _ _ ume)
        by (cbn; by rewrite lookup_insert_ne).
      destruct (Hc me ume Hu) as [Hm1 Hm2].
      pose proof (Hfollower me) as Hme1. rewrite decide_True in Hme1 by done.
      rewrite decide_True by (cbn; lia).
      intros x u Hx. cbn in Hx |- *.
      specialize (Hfollowing x). specialize (Hfollower x).
      rewrite lookup_insert in Hx. case_decide as Hxm.
      * subst x. injection Hx as <-. cbn.
        repeat case_decide; try congruence; split; lia.
      * rewrite lookup_insert in Hx. case_decide as Hxb.
        -- subst x. injection Hx as <-. cbn.
           repeat case_decide; try congruence; split; lia.
        -- destruct (Hc x u Hx) as [H1 H2].
           repeat case_decide; try congruence; split; lia.
    + rewrite save_F_missing by (cbn; by rewrite lookup_insert_ne).
      intros x u Hx. cbn in Hx |- *.
      specialize (Hfollowing x). specialize (Hfollower x).
      rewrite lookup_insert in Hx. case_decide as Hxb.
      * subst x. injection Hx as <-. cbn.
        repeat case_decide; try congruence; split; lia.
      * destruct (Hc x u Hx) as [H1 H2].
        assert (me ≠ x) by congruence.
        repeat case_decide; try congruence; split; lia.
Qed.

(** X5. From a state where, for every account, [followers_count] equals the
    number of Follow rows that point to it and [following_count] the number
    of Follow rows that start from it, any sequence of [follow_user] calls
    ends in a state where this still holds for every account. *)
Theorem follow_counts_equal_follow_rows
    (calls : list (Request.t * N)) (db : DB) :
  follows_consistent db →
  follows_consistent (exec_all ((λ c, follow_user c.1 c.2) <$> calls) db).
Proof.
  revert db. induction calls as [| [request b] calls IH]; intros db H.
  - done.
  - rewrite fmap_cons, exec_all_cons. apply IH. cbn.
    by apply follow_user_consistent.
Qed.

Lemma follow_counts_equal_follow_rows_witness :
  follows_consistent Sample.db
  ∧ follows_consistent
      (exec_all ((λ c, follow_user c.1 c.2) <$>
                   [(Sample.request_by 1, 2%N); (Sample.request_by 2, 1%N);
                    (Sample.request_by 1, 2%N)]) Sample.db).
Proof.
  assert (follows_consistent Sample.db) as H.
  { intros x u Hx. cbn. rewrite !count_empty.
    unfold Sample.db in Hx. cbn [users] in Hx.
    apply lookup_insert_Some in Hx as [[<- <-] | [_ Hx]]; [done |].
    by apply lookup_singleton_Some in Hx as [<- <-]. }
  split; [exact H |].
  apply (follow_counts_equal_follow_rows _ Sample.db H).
Defined.

(** ** The views counter *)

Lemma get_object_step (request : Request.t) (pk : N) (db : DB) :
  exec (get_object request pk) db = db
  ∨ ∃ p, posts db !! pk = Some p
         ∧ ∃ created : bool,
             (created = false → is_Some (Request.user request))
             ∧ exec (get_object request pk) db =
                 with_rows Objects.TravelPost
                   (<[pk := incr Col.views_count p]> (posts db))
                   (if created then
                      with_rows Objects.PostView
                        (<[fresh (dom (views db)) :=
                             {| PostView.user := Request.user request;
                                PostView.post := pk;
                                PostView.ip_address :=
                                  Request.client_ip request |}]>
                           (views db)) db
                    else db).
Proof.
  unfold exec, get_object. rewrite bind_eq, get_public_post_eq.
  destruct (posts db !! pk) as [p |] eqn:Hq; [| by left].
  destruct (TravelPost.is_public p) eqn:Hpub; [| by left].
  destruct (Request.user request) as [me |] eqn:Hme.
  - rewrite !bind_eq.
    destruct (get_or_create_cases Objects.PostView (view_lookup me pk)
                {| PostView.user := Some me; PostView.post := pk;
                   PostView.ip_address := Request.client_ip request |} db)
      as [[Hn ->] | [(k & r & Hn & _ & _ & ->) | [Hn ->]]]; [| | by left].
    + right. exists p. split; [done |]. exists true. split; [done |].
      unfold mret, ORM_ret. rewrite !bind_eq.
      by rewrite (save_F_plus _ _ _ _ p) by exact Hq.
    + right. exists p. split; [done |]. exists false. split; [by eexists |].
      unfold mret, ORM_ret. rewrite !bind_eq.
      by rewrite (save_F_plus _ _ _ _ p) by exact Hq.
  - right. exists p. split; [done |]. exists true. split; [done |].
    unfold create, mret, ORM_ret. rewrite !bind_eq.
    by rewrite (save_F_plus _ _ _ _ p) by exact Hq.
Qed.

Lemma get_object_covers (request : Request.t) (pk post_id : N) (db : DB) :
  views_cover_rows db post_id →
  views_cover_rows (exec (get_object request pk) db) post_id.
Proof.
  intros (p & Hp & Hc).
  destruct (get_object_step request pk db)
    as [-> | (pq & Hq & created & _ & ->)]; [by exists p |].
  assert (view_rows
            (if created then
               with_rows Objects.PostView
                 (<[fresh (dom (views db)) :=
                      {| PostView.user := Request.user request;
                         PostView.post := pk;
                         PostView.ip_address := Request.client_ip request |}]>
                    (views db)) db
             else db) post_id
          = ((if created then if decide (pk = post_id) then 1 else 0 else 0)
             + view_rows db post_id)%nat) as Hrows.
  { destruct created; [| done]. unfold view_rows. cbn.
    by rewrite (count_insert _ _ _ _ (fresh_key _)). }
  unfold views_cover_rows.
  replace (view_rows (with_rows Objects.TravelPost _ _) post_id)
    with ((if created then if decide (pk = post_id) then 1 else 0 else 0)
          + view_rows db post_id)%nat
    by (rewrite <- Hrows; by destruct created).
  replace (posts (with_rows Objects.TravelPost
                    (<[pk := incr Col.views_count pq]> (posts db)) _))
    with (<[pk := incr Col.views_count pq]> (posts db))
    by (by destruct created).
  destruct (decide (pk = post_id)) as [-> | Hne].
  - rewrite lookup_insert_eq. eexists; split; [done |].
    rewrite Hq in Hp. injection Hp as ->. unfold incr. cbn.
    destruct created; lia.
  - rewrite lookup_insert_ne by done. exists p. split; [done |].
    destruct created; lia.
Qed.

(** X6. From a state where the views counter of a post is at least the
    number of View rows referencing it, any sequence of retrievals through
    [get_object], by any viewers of any posts, ends in a state where it
    still is: the counter never falls behind the View rows. *)
Theorem views_count_covers_view_rows
    (calls : list (Request.t * N)) (db : DB) (post_id : N) :
  views_cover_rows db post_id →
  views_cover_rows
    (exec_all ((λ c, get_object c.1 c.2) <$> calls) db) post_id.
Proof.
  revert db. induction calls as [| [request q] calls IH]; intros db H.
  - done.
  - rewrite fmap_cons, exec_all_cons. apply IH. cbn.
    by apply get_object_covers.
Qed.

Lemma views_count_covers_view_rows_witness :
  views_cover_rows Sample.db 10
  ∧ views_cover_rows
      (exec_all ((λ c, get_object c.1 c.2) <$>
                   [(Sample.request_by 1, 10%N); (Sample.request_by 1, 10%N);
                    (Sample.request_with None Sample.no_params, 10%N)])
         Sample.db) 10.
Proof.
  assert (views_cover_rows Sample.db 10) as H.
  { eexists. split; [reflexivity |]. vm_compute. discriminate. }
  split; [exact H |].
  apply (views_count_covers_view_rows _ Sample.db 10 H).
Defined.

Lemma get_object_anonymous_consistent (request : Request.t) (pk post_id : N)
    (db : DB) :
  Request.user request = None →
  views_consistent db post_id →
  views_consistent (exec (get_object request pk) db) post_id.
Proof.
  intros Hanon (p & Hp & Hc).
  destruct (get_object_step request pk db)
    as [-> | (pq & Hq & created & Hcr & ->)]; [by exists p |].
  destruct created; cycle 1.
  { destruct (Hcr eq_refl) as [me Hme]. congruence. }
  unfold views_consistent, view_rows. cbn.
  rewrite (count_insert _ _ _ _ (fresh_key _)). cbn.
  destruct (decide (pk = post_id)) as [-> | Hne].
  - rewrite lookup_insert_eq. eexists; split; [done |].
    rewrite Hq in Hp. injection Hp as ->. unfold incr. cbn.
    fold (view_rows db post_id). lia.
  - rewrite lookup_insert_ne by done. exists p. by split.
Qed.

(** X7. From a state where the views counter of a post equals the number of
    View rows referencing it, any sequence of anonymous retrievals through
    [get_object] ends in a state where it still does: anonymous views are
    logged one row per count. *)
Theorem anonymous_views_are_logged
    (calls : list (Request.t * N)) (db : DB) (post_id : N) :
  Forall (λ c, Request.user c.1 = None) calls →
  views_consistent db post_id →
  views_consistent
    (exec_all ((λ c, get_object c.1 c.2) <$> calls) db) post_id.
Proof.
  intros Hanon. revert db.
  induction Hanon as [| [request q] calls Hr _ IH]; intros db H.
  - done.
  - rewrite fmap_cons, exec_all_cons. apply IH. cbn.
    by apply get_object_anonymous_consistent.
Qed.

Lemma anonymous_views_are_logged_witness :
  Forall (λ c : Request.t * N, Request.user c.1 = None)
    [(Sample.request_with None Sample.no_params, 10%N);
     (Sample.request_with None Sample.no_params, 10%N)]
  ∧ views_consistent Sample.db 10
  ∧ views_consistent
      (exec_all ((λ c, get_object c.1 c.2) <$>
                   [(Sample.request_with None Sample.no_params, 10%N);
                    (Sample.request_with None Sample.no_params, 10%N)])
         Sample.db) 10.
Proof.
  assert (Forall (λ c : Request.t * N, Request.user c.1 = None)
            [(Sample.request_with None Sample.no_params, 10%N);
             (Sample.request_with None Sample.no_params, 10%N)]) as Hanon
    by (repeat constructor).
  assert (views_consistent Sample.db 10) as H.
  { eexists. split; vm_compute; reflexivity. }
  split; [exact Hanon |]. split; [exact H |].
  apply (anonymous_views_are_logged _ Sample.db 10 Hanon H).
Defined.

(** ** The listing of posts and its modes *)

(** The query [get_queryset] builds: a selection [base] of the public posts,
    made by the [user], [destination] and [tags] parameters, then the step
    of the feed mode. *)
Lemma get_queryset_shape (request : Request.t) (db : DB) :
  GET.destination (Request.GET request) ≠ UuidInvalid →
  ∃ base : QuerySet,
    qs_ordering base = created_at_desc
    ∧ qs_rows base `sublist_of`
        filter (λ r : PostRow, TravelPost.is_public r.2 = true)
          (map_to_list (posts db))
    ∧ (unfiltered request →
       qs_rows base =
         filter (λ r : PostRow, TravelPost.is_public r.2 = true)
           (map_to_list (posts db)))
    ∧ get_queryset request db =
        (Ok (let feed_type :=
               default (py "latest") (GET.feed (Request.GET request)) in
             if decide (feed_type = py "trending") then
               order_by engagement_desc
                 (qs_filter
                    (λ r, Request.now request - timedelta_hours 24
                          ≤ TravelPost.created_at r.2) base)
             else
               match Request.user request with
               | Some me =>
                   if decide (feed_type = py "following") then
                     qs_filter (followed_by db me) base
                   else if decide (feed_type = py "3d") then
                     qs_filter (λ r, TravelPost.featured_3d r.2 = true) base
                   else base
               | None =>
                   if decide (feed_type = py "3d") then
                     qs_filter (λ r, TravelPost.featured_3d r.2 = true) base
                   else base
               end), db).
Proof.
  intros Hdest.
  unfold get_queryset, public_posts, tables, mbind, ORM_bind, mret,
    ORM_ret, raise.
  cbv zeta.
  set (feed_type := default (py "latest") (GET.feed (Request.GET request))).
  set (public := qs_filter _ _).
  set (by_user := match GET.user _ with Some (_ :: _ as u) => _ | _ => _ end).
  assert (qs_ordering by_user = created_at_desc
          ∧ qs_rows by_user `sublist_of` qs_rows public
          ∧ ((GET.user (Request.GET request) = None
              ∨ GET.user (Request.GET request) = Some []) →
             by_user = public)) as (Hord1 & Hsub1 & Heq1).
  { subst by_user. destruct (GET.user _) as [[| c u] |].
    - done.
    - split; [done |]. split; [apply sublist_filter | by intros [? | ?]].
    - done. }
  assert (∀ (by_dest : QuerySet),
    qs_ordering by_dest = created_at_desc →
    qs_rows by_dest `sublist_of` qs_rows by_user →
    ∃ by_tags,
      by_tags = match GET.tags (Request.GET request) with
                | Some ((_ :: _) as tags) =>
                    qs_filter
                      (tagged_with db
                         ((λ tag, remove_char 35 (strip tag)) <$> split 44 tags))
                      by_dest
                | _ => by_dest
                end
      ∧ qs_ordering by_tags = created_at_desc
      ∧ qs_rows by_tags `sublist_of` qs_rows by_user
      ∧ ((GET.tags (Request.GET request) = None
          ∨ GET.tags (Request.GET request) = Some []) →
         by_tags = by_dest)) as Htags.
  { intros by_dest Hord Hsub. eexists. split; [reflexivity |].
    destruct (GET.tags _) as [[| c t] |].
    - done.
    - split; [done |]. split; [| by intros [? | ?]].
      etrans; [apply sublist_filter | done].
    - done. }
  assert (∀ base : QuerySet,
    (if decide (feed_type = py "trending")
     then λ db0 : DB,
       (Ok (order_by engagement_desc
              (qs_filter
                 (λ r, Request.now request - timedelta_hours 24
                       ≤ TravelPost.created_at r.2) base)), db0)
     else
       if decide (feed_type = py "following" ∧ is_Some (Request.user request))
       then match Request.user request with
            | Some me => λ db0 : DB, (Ok (qs_filter (followed_by db me) base), db0)
            | None => λ db0 : DB, (Ok base, db0)
            end
       else
         if decide (feed_type = py "3d")
         then λ db0 : DB,
           (Ok (qs_filter (λ r, TravelPost.featured_3d r.2 = true) base), db0)
         else λ db0 : DB, (Ok base, db0)) db
    = (Ok (if decide (feed_type = py "trending") then
             order_by engagement_desc
               (qs_filter
                  (λ r, Request.now request - timedelta_hours 24
                        ≤ TravelPost.created_at r.2) base)
           else
             match Request.user request with
             | Some me =>
                 if decide (feed_type = py "following") then
                   qs_filter (followed_by db me) base
                 else if decide (feed_type = py "3d") then
                   qs_filter (λ r, TravelPost.featured_3d r.2 = true) base
                 else base
             | None =>
                 if decide (feed_type = py "3d") then
                   qs_filter (λ r, TravelPost.featured_3d r.2 = true) base
                 else base
             end), db)) as Hmode.
  { intros base. destruct (decide (feed_type = py "trending")); [done |].
    destruct (Request.user request) as [me |].
    - destruct (decide (feed_type = py "following")) as [Hf | Hf].
      + by rewrite decide_True by (split; [done | by eexists]).
      + rewrite decide_False by (by intros [? _]).
        by destruct (decide (feed_type = py "3d")).
    - rewrite decide_False by (intros [_ [? ?]]; done).
      by destruct (decide (feed_type = py "3d")). }
  destruct (GET.destination (Request.GET request)) as [| | d] eqn:Hd;
    [| done |].
  - destruct (Htags by_user Hord1 (reflexivity _))
      as (by_tags & Hdef & Hord2 & Hsub2 & Heq2).
    exists by_tags. split; [done |]. split; [by etrans |].
    split.
    { intros (Hu & _ & Ht). by rewrite (Heq2 Ht), (Heq1 Hu). }
    rewrite Hdef. apply Hmode.
  - destruct (Htags (qs_filter (λ r : PostRow, TravelPost.destination r.2 = d)
                       by_user) Hord1 (sublist_filter _ _))
      as (by_tags & Hdef & Hord2 & Hsub2 & Heq2).
    exists by_tags. split; [done |]. split; [by etrans |].
    split.
    { intros (_ & ? & _). congruence. }
    rewrite Hdef. apply Hmode.
Qed.

Lemma get_queryset_invalid_destination (request : Request.t) (db : DB) :
  GET.destination (Request.GET request) = UuidInvalid →
  get_queryset request db = (Raise ValidationError, db).
Proof.
  intros Hd.
  unfold get_queryset, public_posts, tables, mbind, ORM_bind, mret,
    ORM_ret, raise.
  cbv zeta. by rewrite Hd.
Qed.

(** Whatever the mode and the parameters, the rows of the query are public
    posts of the table, each once. *)
Lemma get_queryset_rows (request : Request.t) (db : DB) (qs : QuerySet) :
  answer (get_queryset request) db = Ok qs →
  qs_rows qs `sublist_of`
    filter (λ r : PostRow, TravelPost.is_public r.2 = true)
      (map_to_list (posts db)).
Proof.
  unfold answer.
  assert (GET.destination (Request.GET request) = UuidInvalid
          ∨ GET.destination (Request.GET request) ≠ UuidInvalid) as [Hd | Hd]
    by (destruct (GET.destination _); auto).
  { by rewrite get_queryset_invalid_destination. }
  destruct (get_queryset_shape request db Hd)
    as (base & _ & Hsub & _ & ->).
  cbv zeta. cbn [fst]. intros [= <-].
  repeat case_match; cbn; try done;
    (etrans; [apply sublist_filter | done]).
Qed.

(** X8. No private post is ever listed: every post selected by
    [get_queryset] (in any mode, under any parameters), every post on a page
    of [feed_view] and every post among the results of [search_view] is a
    post of the table with [is_public] set. *)
Theorem only_public_posts_are_listed (request : Request.t) (db : DB) :
  (∀ qs, answer (get_queryset request) db = Ok qs →
     ∀ r, r ∈ evaluate qs →
       posts db !! r.1 = Some r.2 ∧ TravelPost.is_public r.2 = true)
  ∧ (∀ results has_next,
       answer (feed_view request) db = Ok (FeedPage results has_next) →
       ∀ r, r ∈ results →
         posts db !! r.1 = Some r.2 ∧ TravelPost.is_public r.2 = true)
  ∧ (∀ users destinations results tags,
       answer (search_view request) db
         = Ok (SearchResults users destinations results tags) →
       ∀ r, r ∈ results →
         posts db !! r.1 = Some r.2 ∧ TravelPost.is_public r.2 = true).
Proof.
  split; [| split].
  - intros qs Hans r Hr. apply evaluate_elem_of in Hr.
    eapply elem_of_sublist in Hr; [| by apply (get_queryset_rows request db)].
    apply list_elem_of_filter in Hr as [Hpub Hr].
    destruct r as [k p]. by apply elem_of_map_to_list in Hr.
  - intros results has_next Hans r Hr.
    destruct (feed_view_inv request db results has_next Hans r Hr)
      as [Hin [Hpub _]].
    destruct r as [k p]. by apply elem_of_map_to_list in Hin.
  - intros us ds results ts. unfold answer, search_view.
    case_decide; [done |].
    unfold tables, public_posts. rewrite !bind_eq, slice_eq. cbn [orb Z.ltb].
    intros [= _ _ <- _] r Hr.
    apply subseteq_take, subseteq_drop, evaluate_elem_of in Hr. cbn in Hr.
    apply list_elem_of_filter in Hr as [_ Hr].
    apply list_elem_of_filter in Hr as [Hpub Hr].
    destruct r as [k p]. by apply elem_of_map_to_list in Hr.
Qed.

(** X9. In [3d] mode [get_queryset] selects only public posts with
    [featured_3d] set, newest first, each once; when no [user],
    [destination] or [tags] parameter narrows the listing it selects every
    one of them. *)
Theorem mode_3d_lists_3d_posts (request : Request.t) (db : DB) :
  GET.feed (Request.GET request) = Some (py "3d") →
  GET.destination (Request.GET request) ≠ UuidInvalid →
  ∃ qs,
    answer (get_queryset request) db = Ok qs
    ∧ StronglySorted
        (λ x y, TravelPost.created_at y.2 ≤ TravelPost.created_at x.2)
        (evaluate qs)
    ∧ NoDup (evaluate qs)
    ∧ (∀ r, r ∈ evaluate qs →
         posts db !! r.1 = Some r.2
         ∧ TravelPost.is_public r.2 = true
         ∧ TravelPost.featured_3d r.2 = true)
    ∧ (unfiltered request →
       ∀ r, posts db !! r.1 = Some r.2 →
            TravelPost.is_public r.2 = true →
            TravelPost.featured_3d r.2 = true →
            r ∈ evaluate qs).
Proof.
  intros Hfeed Hdest.
  destruct (get_queryset_shape request db Hdest)
    as (base & Hord & Hsub & Hall & Heq).
  rewrite Hfeed in Heq. cbv zeta in Heq. cbn [default] in Heq.
  rewrite decide_False in Heq by (vm_compute; discriminate).
  assert (get_queryset request db
          = (Ok (qs_filter (λ r, TravelPost.featured_3d r.2 = true) base), db))
    as Heq'.
  { rewrite Heq. destruct (Request.user request).
    - rewrite decide_False by (vm_compute; discriminate).
      by rewrite decide_True.
    - by rewrite decide_True. }
  clear Heq. eexists. split; [unfold answer; by rewrite Heq' |].
  set (qs := qs_filter _ base).
  split.
  { unfold evaluate. subst qs. cbn [qs_ordering qs_rows qs_filter].
    rewrite Hord.
    exact (StronglySorted_merge_sort (before created_at_desc) _). }
  split.
  { apply evaluate_NoDup. cbn. apply NoDup_filter.
    eapply sublist_NoDup; [| exact Hsub].
    apply NoDup_filter, NoDup_map_to_list. }
  split.
  - intros r Hr. apply evaluate_elem_of in Hr. cbn in Hr.
    apply list_elem_of_filter in Hr as [H3d Hr].
    eapply elem_of_sublist in Hr; [| exact Hsub].
    apply list_elem_of_filter in Hr as [Hpub Hr].
    destruct r as [k p]. by apply elem_of_map_to_list in Hr.
  - intros Hun r Hr Hpub H3d.
    apply evaluate_elem_of. cbn. rewrite (Hall Hun).
    apply list_elem_of_filter. split; [done |].
    apply list_elem_of_filter. split; [done |].
    destruct r as [k p]. by apply elem_of_map_to_list.
Qed.

Lemma mode_3d_lists_3d_posts_witness :
  GET.feed (Request.GET (Sample.request_with None (Sample.feed_mode "3d")))
    = Some (py "3d")
  ∧ GET.destination
      (Request.GET (Sample.request_with None (Sample.feed_mode "3d")))
      ≠ UuidInvalid
  ∧ ∃ qs,
      answer (get_queryset (Sample.request_with None (Sample.feed_mode "3d")))
        Sample.db = Ok qs
      ∧ (11%N, Sample.post 1 (-3) true) ∈ evaluate qs.
Proof.
  assert (GET.destination
            (Request.GET (Sample.request_with None (Sample.feed_mode "3d")))
          ≠ UuidInvalid) as Hd by done.
  split; [reflexivity |]. split; [exact Hd |].
  destruct (mode_3d_lists_3d_posts
              (Sample.request_with None (Sample.feed_mode "3d"))
              Sample.db eq_refl Hd)
    as (qs & Hans & _ & _ & _ & Hall).
  exists qs. split; [exact Hans |].
  apply (Hall (conj (or_introl eq_refl) (conj eq_refl (or_introl eq_refl)))
           (11%N, Sample.post 1 (-3) true)); reflexivity.
Defined.

Lemma count_ne_0 {R} (P : R → Prop) `{!∀ r, Decision (P r)} (m : gmap N R) :
  count P m ≠ 0%nat ↔ ∃ k r, m !! k = Some r ∧ P r.
Proof.
  unfold count, matching. rewrite map_size_ne_0_lookup. split.
  - intros (k & [r Hr]). apply map_lookup_filter_Some in Hr. eauto.
  - intros (k & r & Hk & Hr). exists k, r.
    by apply map_lookup_filter_Some.
Qed.

(** The subquery of the following mode and [get_is_following] agree. *)
Lemma followed_by_is_following (request : Request.t) (me : N) (db : DB)
    (r : PostRow) :
  Request.user request = Some me →
  followed_by db me r ↔
    answer (UserProfileSerializer.get_is_following (Some request)
              (TravelPost.user r.2)) db = Ok true.
Proof.
  intros Hme. unfold answer, UserProfileSerializer.get_is_following.
  rewrite Hme, exists_row_eq. cbn [fst rows Objects.UserFollow].
  unfold followed_by. split.
  - intros (f & Hf & H1 & H2). f_equal. apply bool_decide_eq_true_2.
    apply count_ne_0.
    apply list_elem_of_fmap in Hf as ([k f'] & -> & Hf).
    apply elem_of_map_to_list in Hf. by exists k, f'.
  - intros [= H]. apply bool_decide_eq_true_1, count_ne_0 in H.
    destruct H as (k & f & Hk & H1 & H2). exists f.
    split; [| done].
    apply list_elem_of_fmap. exists (k, f). split; [done |].
    by apply elem_of_map_to_list.
Qed.

(** X10. For an authenticated viewer, [following] mode selects only public
    posts whose author the viewer follows (those for which
    [get_is_following] answers true), newest first; when no [user],
    [destination] or [tags] parameter narrows the listing it selects every
    one of them. *)
Theorem mode_following_lists_followed_authors (request : Request.t) (me : N)
    (db : DB) :
  Request.user request = Some me →
  GET.feed (Request.GET request) = Some (py "following") →
  GET.destination (Request.GET request) ≠ UuidInvalid →
  let is_following (r : PostRow) :=
    answer (UserProfileSerializer.get_is_following (Some request)
              (TravelPost.user r.2)) db = Ok true in
  ∃ qs,
    answer (get_queryset request) db = Ok qs
    ∧ StronglySorted
        (λ x y, TravelPost.created_at y.2 ≤ TravelPost.created_at x.2)
        (evaluate qs)
    ∧ (∀ r, r ∈ evaluate qs →
         posts db !! r.1 = Some r.2
         ∧ TravelPost.is_public r.2 = true
         ∧ is_following r)
    ∧ (unfiltered request →
       ∀ r, posts db !! r.1 = Some r.2 →
            TravelPost.is_public r.2 = true →
            is_following r →
            r ∈ evaluate qs).
Proof.
  intros Hme Hfeed Hdest is_following.
  destruct (get_queryset_shape request db Hdest)
    as (base & Hord & Hsub & Hall & Heq).
  rewrite Hfeed, Hme in Heq. cbv zeta in Heq. cbn [default] in Heq.
  rewrite decide_False in Heq by (vm_compute; discriminate).
  rewrite decide_True in Heq by done.
  eexists. split; [unfold answer; by rewrite Heq |].
  split.
  { unfold evaluate. cbn [qs_ordering qs_rows qs_filter]. rewrite Hord.
    exact (StronglySorted_merge_sort (before created_at_desc) _). }
  split.
  - intros r Hr. apply evaluate_elem_of in Hr. cbn in Hr.
    apply list_elem_of_filter in Hr as [Hfol Hr].
    eapply elem_of_sublist in Hr; [| exact Hsub].
    apply list_elem_of_filter in Hr as [Hpub Hr].
    split; [destruct r as [k p]; by apply elem_of_map_to_list in Hr |].
    split; [done |]. by apply (followed_by_is_following request me).
  - intros Hun r Hr Hpub Hfol.
    apply evaluate_elem_of. cbn. rewrite (Hall Hun).
    apply list_elem_of_filter.
    split; [by apply (followed_by_is_following request me) |].
    apply list_elem_of_filter. split; [done |].
    destruct r as [k p]. by apply elem_of_map_to_list.
Qed.

Lemma mode_following_lists_followed_authors_witness :
  Request.user (Sample.request_with (Some 2%N) (Sample.feed_mode "following"))
    = Some 2%N
  ∧ ∃ qs,
      answer (get_queryset
                (Sample.request_with (Some 2%N) (Sample.feed_mode "following")))
        (exec (follow_user (Sample.request_by 2) 1) Sample.db) = Ok qs
      ∧ (10%N, Sample.post 1 (-5) false) ∈ evaluate qs.
Proof.
  assert (GET.destination
            (Request.GET (Sample.request_with (Some 2%N)
                            (Sample.feed_mode "following")))
          ≠ UuidInvalid) as Hd by done.
  split; [reflexivity |].
  destruct (mode_following_lists_followed_authors
              (Sample.request_with (Some 2%N) (Sample.feed_mode "following"))
              2 (exec (follow_user (Sample.request_by 2) 1) Sample.db)
              eq_refl eq_refl Hd)
    as (qs & Hans & _ & _ & Hall).
  exists qs. split; [exact Hans |].
  apply (Hall (conj (or_introl eq_refl) (conj eq_refl (or_introl eq_refl)))
           (10%N, Sample.post 1 (-5) false));
    vm_compute; reflexivity.
Defined.

(** X11. A [feed] value that is none of [trending], [3d] and, for an
    authenticated viewer, [following] changes nothing: [get_queryset]
    answers as it does without the parameter.  In particular an anonymous
    viewer asking for [following] gets the plain listing. *)
Theorem other_modes_are_latest (request : Request.t) (feed : str) (db : DB) :
  feed ≠ py "trending" → feed ≠ py "3d" →
  (feed = py "following" → Request.user request = None) →
  get_queryset (with_feed (Some feed) request) db
    = get_queryset (with_feed None request) db.
Proof.
  intros Htr H3d Hfol.
  unfold get_queryset, public_posts, tables, mbind, ORM_bind, mret,
    ORM_ret, raise.
  cbv zeta. cbn [with_feed Request.GET Request.user Request.now GET.user
    GET.destination GET.tags GET.feed default].
  destruct (GET.destination (Request.GET request)) as [| | d]; [| done |];
    rewrite (decide_False (P := id feed = py "trending")) by done;
    rewrite (decide_False (P := id feed = py "3d")) by done;
    rewrite (decide_False (P := py "latest" = py "trending"))
      by (vm_compute; discriminate);
    rewrite (decide_False (P := py "latest" = py "3d"))
      by (vm_compute; discriminate);
    rewrite (decide_False
               (P := py "latest" = py "following"
                     ∧ is_Some (Request.user request)))
      by (intros [? _]; vm_compute in *; discriminate);
    rewrite (decide_False
               (P := id feed = py "following"
                     ∧ is_Some (Request.user request)))
      by (intros [Hf [me Hme]]; rewrite (Hfol Hf) in Hme; discriminate);
    done.
Qed.

Lemma other_modes_are_latest_witness :
  py "following" ≠ py "trending" ∧ py "following" ≠ py "3d"
  ∧ (py "following" = py "following" →
     Request.user (Sample.request_with None Sample.no_params) = None)
  ∧ get_queryset
      (with_feed (Some (py "following"))
         (Sample.request_with None Sample.no_params)) Sample.db
    = get_queryset
        (with_feed None (Sample.request_with None Sample.no_params)) Sample.db.
Proof.
  assert (py "following" ≠ py "trending") as H1 by (vm_compute; discriminate).
  assert (py "following" ≠ py "3d") as H2 by (vm_compute; discriminate).
  split; [exact H1 |]. split; [exact H2 |]. split; [reflexivity |].
  apply (other_modes_are_latest (Sample.request_with None Sample.no_params)
           (py "following") Sample.db H1 H2 (λ _, eq_refl)).
Defined.

(** ** Pages of the feed *)

(** X12. [feed_view] raises, and writes nothing, when [page_size] or
    [offset] is not an integer, when [offset] is negative, and when
    [offset] plus the clamped page size is negative. *)
Theorem feed_view_refuses (request : Request.t) (db : DB) :
  (GET.page_size (Request.GET request) = IntInvalid
   ∨ GET.offset (Request.GET request) = IntInvalid
   ∨ ∃ n o,
       (GET.page_size (Request.GET request) = IntAbsent ∧ n = 10
        ∨ GET.page_size (Request.GET request) = IntOf n)
       ∧ (GET.offset (Request.GET request) = IntAbsent ∧ o = 0
          ∨ GET.offset (Request.GET request) = IntOf o)
       ∧ (o < 0 ∨ o + Z.min n 20 < 0)) →
  ∃ e, feed_view request db = (Raise e, db).
Proof.
  intros Hbad.
  destruct (feed_view_queryset request db) as (qs & _ & _ & ->).
  rewrite bind_eq, int_param_eq.
  destruct (GET.page_size (Request.GET request)) as [| | n] eqn:Hn;
    [| by eexists |];
    rewrite bind_eq, int_param_eq;
    (destruct (GET.offset (Request.GET request)) as [| | o] eqn:Ho;
       [| by eexists |]);
    rewrite bind_eq, slice_eq;
    destruct Hbad as [? | [? | (n' & o' & Hn' & Ho' & Hneg)]]; try done;
    (destruct Hn' as [[? ->] | ?]; try done);
    (destruct Ho' as [[? ->] | ?]; try done);
    simplify_eq;
    (destruct (_ || _) eqn:Hor; [by eexists |]);
    apply orb_false_iff in Hor as [H1 H2];
    apply Z.ltb_ge in H1, H2; lia.
Qed.

Lemma feed_view_refuses_witness :
  ∃ e,
    feed_view
      (with_offset (IntOf (-1)) (Sample.request_with None Sample.no_params))
      Sample.db = (Raise e, Sample.db).
Proof.
  apply (feed_view_refuses
           (with_offset (IntOf (-1))
              (Sample.request_with None Sample.no_params)) Sample.db).
  right. right. exists 10, (-1).
  split; [by left |]. split; [by right |]. lia.
Defined.

(** A listing with strictly falling dates has one arrangement, newest
    first. *)
Lemma newest_first_unique (l1 l2 : list PostRow) :
  StronglySorted
    (λ x y, TravelPost.created_at y.2 < TravelPost.created_at x.2) l1 →
  StronglySorted (before created_at_desc) l2 →
  l1 ≡ₚ l2 → l1 = l2.
Proof.
  intros H1. revert l2.
  induction H1 as [| x l1 H1 IH Hx]; intros l2 H2 Hp.
  - symmetry. by apply Permutation_nil.
  - destruct H2 as [| y l2 H2 Hy].
    { symmetry in Hp. by apply Permutation_nil in Hp. }
    assert (x = y) as <-.
    { assert (y ∈ x :: l1) as Hyin by (rewrite Hp; left).
      apply elem_of_cons in Hyin as [-> | Hyin]; [done |].
      assert (x ∈ y :: l2) as Hxin by (rewrite <- Hp; left).
      apply elem_of_cons in Hxin as [-> | Hxin]; [done |].
      rewrite Forall_forall in Hx, Hy.
      specialize (Hx y Hyin). specialize (Hy x Hxin). cbn in Hx, Hy. lia. }
    f_equal. apply IH; [done |]. by apply Permutation_cons_inv in Hp.
Qed.

(** X13. When the posts of the viewer's feed have pairwise different dates,
    so that [feed] is their one arrangement newest first, two consecutive
    pages, the second asked for at the offset of the first plus the clamped
    page size, both within [max_bigint], are adjacent stretches of [feed]:
    together they are the stretch of twice the page size, with no post
    skipped or repeated.  When the first page comes with [has_next] false,
    the second page is empty. *)
Theorem feed_pages_are_adjacent (request : Request.t) (db : DB) (n o : Z)
    (feed : list PostRow) :
  (GET.page_size (Request.GET request) = IntAbsent ∧ n = 10
   ∨ GET.page_size (Request.GET request) = IntOf n) →
  0 ≤ o → 0 ≤ Z.min n 20 → o + Z.min n 20 ≤ max_bigint →
  feed ≡ₚ filter (in_feed request db) (map_to_list (posts db)) →
  StronglySorted
    (λ x y, TravelPost.created_at y.2 < TravelPost.created_at x.2) feed →
  let page_size := Z.min n 20 in
  ∃ first has_next second has_more,
    answer (feed_view (with_offset (IntOf o) request)) db
      = Ok (FeedPage first has_next)
    ∧ answer (feed_view (with_offset (IntOf (o + page_size)) request)) db
      = Ok (FeedPage second has_more)
    ∧ first ++ second
      = take (Z.to_nat (2 * page_size)) (drop (Z.to_nat o) feed)
    ∧ (has_next = false → second = []).
Proof.
  intros Hn Ho Hs Hmax Hperm Hstrict page_size.
  assert (whole_feed request db = feed) as Hfeed.
  { symmetry. apply newest_first_unique; [done | |].
    - exact (StronglySorted_merge_sort (before created_at_desc) _).
    - unfold whole_feed. by rewrite merge_sort_Permutation. }
  pose proof (feed_view_page (with_offset (IntOf o) request) db n o
                Hn (or_intror eq_refl) Ho ltac:(lia) ltac:(lia)) as H1.
  pose proof (feed_view_page (with_offset (IntOf (o + page_size)) request)
                db n (o + page_size)
                Hn (or_intror eq_refl) ltac:(lia) ltac:(lia)
                ltac:(subst page_size; lia)) as H2.
  cbv zeta in H1, H2. fold page_size in H1, H2.
  change (merge_sort _ (filter (in_feed (with_offset _ request) db) _))
    with (whole_feed request db) in H1, H2.
  rewrite Hfeed in H1, H2.
  do 4 eexists.
  split; [unfold answer; by rewrite H1 |].
  split; [unfold answer; by rewrite H2 |].
  assert (Z.to_nat (o + page_size) = (Z.to_nat o + Z.to_nat page_size)%nat)
    as -> by lia.
  assert (Z.to_nat (2 * page_size)
          = (Z.to_nat page_size + Z.to_nat page_size)%nat) as -> by lia.
  rewrite <- drop_drop. split.
  - apply take_take_drop.
  - intros Hfalse. apply bool_decide_eq_false in Hfalse.
    rewrite length_take, length_drop in Hfalse.
    apply nil_length_inv.
    rewrite length_take, !length_drop. lia.
Qed.

Lemma feed_pages_are_adjacent_witness :
  (GET.page_size
     (Request.GET (Sample.request_with None Sample.page_size_100)) = IntOf 100
   ∧ 0 ≤ 40 ∧ 0 ≤ Z.min 100 20 ∧ 40 + Z.min 100 20 ≤ max_bigint
   ∧ whole_feed (Sample.request_with None Sample.page_size_100) Sample.db45
     ≡ₚ filter (in_feed (Sample.request_with None Sample.page_size_100)
                  Sample.db45) (map_to_list (posts Sample.db45))
   ∧ StronglySorted
       (λ x y, TravelPost.created_at y.2 < TravelPost.created_at x.2)
       (whole_feed (Sample.request_with None Sample.page_size_100)
          Sample.db45))
  ∧ ∃ first second has_more,
      answer (feed_view (with_offset (IntOf 40)
                           (Sample.request_with None Sample.page_size_100)))
        Sample.db45 = Ok (FeedPage first false)
      ∧ answer (feed_view (with_offset (IntOf (40 + Z.min 100 20))
                             (Sample.request_with None Sample.page_size_100)))
          Sample.db45 = Ok (FeedPage second has_more)
      ∧ first ++ second
        = drop 40 (whole_feed
                     (Sample.request_with None Sample.page_size_100)
                     Sample.db45)
      ∧ second = [].
Proof.
  assert (whole_feed (Sample.request_with None Sample.page_size_100)
            Sample.db45
          ≡ₚ filter (in_feed (Sample.request_with None Sample.page_size_100)
                       Sample.db45) (map_to_list (posts Sample.db45)))
    as Hperm by apply merge_sort_Permutation.
  assert (StronglySorted
            (λ x y, TravelPost.created_at y.2 < TravelPost.created_at x.2)
            (whole_feed (Sample.request_with None Sample.page_size_100)
               Sample.db45)) as Hstrict.
  { apply (bool_decide_unpack _). vm_compute. exact I. }
  assert (40 + Z.min 100 20 ≤ max_bigint) as Hmax
    by (unfold max_bigint; lia).
  split; [repeat split; (reflexivity || lia || done) |].
  destruct (feed_pages_are_adjacent
              (Sample.request_with None Sample.page_size_100) Sample.db45
              100 40 _ (or_intror eq_refl) ltac:(lia) ltac:(lia) Hmax
              Hperm Hstrict)
    as (first & has_next & second & has_more & H1 & H2 & Happ & Hlast).
  assert (has_next = false) as ->.
  { vm_compute in H1. by injection H1 as _ <-. }
  exists first, second, has_more.
  split; [done |]. split; [done |]. split; [| auto].
  rewrite Happ. apply take_ge. rewrite length_drop.
  unfold whole_feed. rewrite merge_sort_Permutation.
  vm_compute. lia.
Defined.

(** X14. [has_next] can be true with nothing left: when the viewer's feed
    holds exactly [offset] plus the clamped page size posts, a number within
    [max_bigint], the page at [offset] comes with [has_next] true and the
    page after it is empty.  With a page size of 0 this is so at the end of
    the feed. *)
Theorem has_next_on_the_last_full_page (request : Request.t) (db : DB)
    (n o : Z) :
  (GET.page_size (Request.GET request) = IntAbsent ∧ n = 10
   ∨ GET.page_size (Request.GET request) = IntOf n) →
  0 ≤ o → 0 ≤ Z.min n 20 →
  Z.of_nat (length (whole_feed request db)) = o + Z.min n 20 →
  o + Z.min n 20 ≤ max_bigint →
  ∃ first has_more,
    answer (feed_view (with_offset (IntOf o) request)) db
      = Ok (FeedPage first true)
    ∧ answer (feed_view (with_offset (IntOf (o + Z.min n 20)) request)) db
      = Ok (FeedPage [] has_more).
Proof.
  intros Hn Ho Hs Hlen Hmax.
  pose proof (feed_view_page (with_offset (IntOf o) request) db n o
                Hn (or_intror eq_refl) Ho ltac:(lia) ltac:(lia)) as H1.
  pose proof (feed_view_page (with_offset (IntOf (o + Z.min n 20)) request)
                db n (o + Z.min n 20)
                Hn (or_intror eq_refl) ltac:(lia) ltac:(lia) ltac:(lia))
    as H2.
  cbv zeta in H1, H2.
  change (merge_sort _ (filter (in_feed (with_offset _ request) db) _))
    with (whole_feed request db) in H1, H2.
  set (feed := whole_feed request db) in *.
  do 2 eexists. split.
  - unfold answer. rewrite H1. cbn [fst]. do 2 f_equal.
    apply bool_decide_eq_true_2.
    rewrite length_take, length_drop. lia.
  - unfold answer. rewrite H2. cbn [fst].
    rewrite drop_ge by lia. by rewrite take_nil.
Qed.

Lemma has_next_on_the_last_full_page_witness :
  GET.page_size
    (Request.GET (Sample.request_with None Sample.page_size_100)) = IntOf 100
  ∧ 0 ≤ 25 ∧ 0 ≤ Z.min 100 20
  ∧ Z.of_nat (length (whole_feed
                        (Sample.request_with None Sample.page_size_100)
                        Sample.db45)) = 25 + Z.min 100 20
  ∧ 25 + Z.min 100 20 ≤ max_bigint
  ∧ ∃ first has_more,
      answer (feed_view (with_offset (IntOf 25)
                           (Sample.request_with None Sample.page_size_100)))
        Sample.db45 = Ok (FeedPage first true)
      ∧ answer (feed_view (with_offset (IntOf (25 + Z.min 100 20))
                             (Sample.request_with None Sample.page_size_100)))
          Sample.db45 = Ok (FeedPage [] has_more).
Proof.
  assert (Z.of_nat (length (whole_feed
                              (Sample.request_with None Sample.page_size_100)
                              Sample.db45)) = 25 + Z.min 100 20) as Hlen
    by (vm_compute; reflexivity).
  assert (25 + Z.min 100 20 ≤ max_bigint) as Hmax
    by (unfold max_bigint; lia).
  split; [reflexivity |]. split; [lia |]. split; [lia |].
  split; [exact Hlen |]. split; [exact Hmax |].
  apply (has_next_on_the_last_full_page
           (Sample.request_with None Sample.page_size_100) Sample.db45
           100 25 (or_intror eq_refl) ltac:(lia) ltac:(lia) Hlen Hmax).
Defined.

(** ** Views that only read *)

(** X15. [feed_view], [search_view] and [get_queryset] never write: whatever
    the request and whatever they answer, the database is as it was. *)
Theorem listings_do_not_write (request : Request.t) (db : DB) :
  exec (feed_view request) db = db
  ∧ exec (search_view request) db = db
  ∧ exec (get_queryset request) db = db.
Proof.
  unfold exec. split; [| split].
  - destruct (feed_view_queryset request db) as (qs & _ & _ & ->).
    rewrite bind_eq, int_param_eq.
    destruct (GET.page_size (Request.GET request)); [| done |];
      rewrite bind_eq, int_param_eq;
      (destruct (GET.offset (Request.GET request)); [| done |]);
      rewrite bind_eq, slice_eq; (destruct (_ || _); [done |]);
      by destruct (_ && _).
  - unfold search_view. case_decide; [done |].
    unfold tables, public_posts. by rewrite !bind_eq, slice_eq.
  - assert (GET.destination (Request.GET request) = UuidInvalid
            ∨ GET.destination (Request.GET request) ≠ UuidInvalid)
      as [Hd | Hd] by (destruct (GET.destination _); auto).
    + by rewrite get_queryset_invalid_destination.
    + by destruct (get_queryset_shape request db Hd) as (? & _ & _ & _ & ->).
Qed.

(** ** The age shown with a post *)

Lemma timedelta_bounds (diff : Z) :
  0 ≤ TravelPostListSerializer.seconds diff ≤ 86399.
Proof.
  unfold TravelPostListSerializer.seconds.
  pose proof (Z.mod_pos_bound diff (86400 * 1000000) ltac:(lia)).
  split.
  - apply Z.div_pos; lia.
  - apply Z.lt_succ_r, Z.div_lt_upper_bound; lia.
Qed.

(** The age [get_time_ago] shows for a post this many microseconds old,
    when that is less than a day. *)
Lemma time_ago_within_a_day (now created_at : Z) :
  TravelPostListSerializer.days (now - created_at) ≤ 0 →
  TravelPostListSerializer.get_time_ago now created_at =
    let s := TravelPostListSerializer.seconds (now - created_at) in
    if 3600 <? s then format_int (s / 3600) ++ py "h ago"
    else if 60 <? s then format_int (s / 60) ++ py "m ago"
    else py "Just now".
Proof.
  intros Hd. unfold TravelPostListSerializer.get_time_ago. cbv zeta.
  by destruct (Z.ltb_spec 0 (TravelPostListSerializer.days (now - created_at)));
    [lia |].
Qed.

(** The seconds of an age of less than a day. *)
Lemma seconds_within_a_day (age : Z) :
  0 ≤ age < one_day →
  TravelPostListSerializer.days age = 0
  ∧ TravelPostListSerializer.seconds age = age / 1000000.
Proof.
  intros Hage. unfold TravelPostListSerializer.days,
    TravelPostListSerializer.seconds, one_day in *.
  rewrite Z.div_small, Z.mod_small by lia. done.
Qed.

(** X16. [get_time_ago] shows one of four forms, with these ranges: a
    number of days that is at least 1, a number of hours from 1 to 23, a
    number of minutes from 1 to 60, or "Just now"; so it never shows 0 of a
    unit.  For a post of the past the form follows from the age, in whole
    units rounded down: days from one day on, hours from 3601 seconds on,
    minutes from 61 seconds on, "Just now" below that.  So an age of exactly
    one hour reads "60m ago", not "1h ago", and an age of exactly one minute
    reads "Just now". *)
Theorem time_ago_forms (now created_at : Z) :
  let age := now - created_at in
  let second := 1000000 in
  let shown := TravelPostListSerializer.get_time_ago now created_at in
  ((∃ d, 1 ≤ d ∧ shown = format_int d ++ py "d ago")
   ∨ (∃ h, 1 ≤ h ≤ 23 ∧ shown = format_int h ++ py "h ago")
   ∨ (∃ m, 1 ≤ m ≤ 60 ∧ shown = format_int m ++ py "m ago")
   ∨ shown = py "Just now")
  ∧ (one_day ≤ age → shown = format_int (age / one_day) ++ py "d ago")
  ∧ (3601 * second ≤ age < one_day →
     shown = format_int (age / (3600 * second)) ++ py "h ago")
  ∧ (61 * second ≤ age < 3601 * second →
     shown = format_int (age / (60 * second)) ++ py "m ago")
  ∧ (0 ≤ age < 61 * second → shown = py "Just now")
  ∧ (3600 * second ≤ age < 3601 * second → shown = py "60m ago")
  ∧ (60 * second ≤ age < 61 * second → shown = py "Just now").
Proof.
  intros age second shown.
  assert (∀ lo, 0 ≤ lo → lo * second ≤ age < one_day →
            TravelPostListSerializer.days age ≤ 0
            ∧ lo ≤ TravelPostListSerializer.seconds age
            ∧ TravelPostListSerializer.seconds age = age / second) as Hday.
  { intros lo Hlo Hage.
    destruct (seconds_within_a_day age) as [-> ->]; [subst second; lia |].
    split; [done |]. split; [| done].
    apply Z.div_le_lower_bound; subst second; lia. }
  split; [| split; [| split; [| split; [| split; [| split]]]]].
  - subst shown. unfold TravelPostListSerializer.get_time_ago.
    cbv zeta. fold age.
    pose proof (timedelta_bounds age) as Hs.
    destruct (Z.ltb_spec 0 (TravelPostListSerializer.days age)) as [Hd | Hd].
    { left. eexists. split; [| done]. lia. }
    destruct (Z.ltb_spec 3600 (TravelPostListSerializer.seconds age))
      as [Hh | Hh].
    { right. left. eexists. split; [| done].
      split.
      - apply Z.div_le_lower_bound; lia.
      - apply Z.lt_succ_r, Z.div_lt_upper_bound; lia. }
    destruct (Z.ltb_spec 60 (TravelPostListSerializer.seconds age))
      as [Hm | Hm].
    { right. right. left. eexists. split; [| done].
      split.
      - apply Z.div_le_lower_bound; lia.
      - apply Z.div_le_upper_bound; lia. }
    by repeat right.
  - intros Hage. subst shown.
    unfold TravelPostListSerializer.get_time_ago. cbv zeta. fold age.
    assert (1 ≤ TravelPostListSerializer.days age) as Hd.
    { unfold TravelPostListSerializer.days.
      apply Z.div_le_lower_bound; unfold one_day in *; lia. }
    destruct (Z.ltb_spec 0 (TravelPostListSerializer.days age)); [| lia].
    done.
  - intros Hage. subst shown.
    destruct (Hday 3601 ltac:(lia) Hage) as (Hd & Hlo & Hs).
    rewrite time_ago_within_a_day by done. cbv zeta. fold age.
    destruct (Z.ltb_spec 3600 (TravelPostListSerializer.seconds age));
      [| lia].
    rewrite Hs. subst second. by rewrite Z.div_div by lia.
  - intros Hage. subst shown.
    destruct (Hday 61 ltac:(lia) ltac:(unfold one_day; subst second; lia))
      as (Hd & Hlo & Hs).
    rewrite time_ago_within_a_day by done. cbv zeta. fold age.
    assert (TravelPostListSerializer.seconds age ≤ 3600) as Hhi.
    { rewrite Hs. apply Z.lt_succ_r, Z.div_lt_upper_bound; subst second; lia. }
    destruct (Z.ltb_spec 3600 (TravelPostListSerializer.seconds age));
      [lia |].
    destruct (Z.ltb_spec 60 (TravelPostListSerializer.seconds age)); [| lia].
    rewrite Hs. subst second. by rewrite Z.div_div by lia.
  - intros Hage. subst shown.
    destruct (Hday 0 ltac:(lia) ltac:(unfold one_day; subst second; lia))
      as (Hd & Hlo & Hs).
    rewrite time_ago_within_a_day by done. cbv zeta. fold age.
    assert (TravelPostListSerializer.seconds age ≤ 60) as Hhi.
    { rewrite Hs. apply Z.lt_succ_r, Z.div_lt_upper_bound; subst second; lia. }
    destruct (Z.ltb_spec 3600 (TravelPostListSerializer.seconds age));
      [lia |].
    by destruct (Z.ltb_spec 60 (TravelPostListSerializer.seconds age));
      [lia |].
  - intros Hage. subst shown.
    destruct (Hday 3600 ltac:(lia) ltac:(unfold one_day; subst second; lia))
      as (Hd & Hlo & Hs).
    rewrite time_ago_within_a_day by done. cbv zeta. fold age.
    assert (TravelPostListSerializer.seconds age = 3600) as ->.
    { rewrite Hs. apply Z.le_antisymm.
      - apply Z.lt_succ_r, Z.div_lt_upper_bound; subst second; lia.
      - apply Z.div_le_lower_bound; subst second; lia. }
    vm_compute. reflexivity.
  - intros Hage. subst shown.
    destruct (Hday 60 ltac:(lia) ltac:(unfold one_day; subst second; lia))
      as (Hd & Hlo & Hs).
    rewrite time_ago_within_a_day by done. cbv zeta. fold age.
    assert (TravelPostListSerializer.seconds age = 60) as ->.
    { rewrite Hs. apply Z.le_antisymm.
      - apply Z.lt_succ_r, Z.div_lt_upper_bound; subst second; lia.
      - apply Z.div_le_lower_bound; subst second; lia. }
    vm_compute. reflexivity.
Qed.

(** X17. A post dated after [now] is never shown in days: its age is shown
    as the time elapsed since the same time of day, 24 hours or less before
    [now] (a post dated one second ahead reads "23h ago"). *)
Theorem time_ago_of_a_future_post (now created_at : Z) :
  now < created_at →
  TravelPostListSerializer.get_time_ago now created_at
    = TravelPostListSerializer.get_time_ago
        (created_at + (now - created_at) `mod` one_day) created_at
  ∧ (created_at - now = 1000000 →
     TravelPostListSerializer.get_time_ago now created_at
       = format_int 23 ++ py "h ago").
Proof.
  intros Hfuture.
  assert (TravelPostListSerializer.days (now - created_at) ≤ 0) as Hd1.
  { unfold TravelPostListSerializer.days.
    apply Z.lt_succ_r, Z.div_lt_upper_bound; lia. }
  pose proof (Z.mod_pos_bound (now - created_at) one_day ltac:(done)) as Hm.
  assert (TravelPostListSerializer.days
            (created_at + (now - created_at) `mod` one_day - created_at) ≤ 0)
    as Hd2.
  { unfold TravelPostListSerializer.days.
    apply Z.lt_succ_r, Z.div_lt_upper_bound; [lia |].
    unfold one_day in *. lia. }
  rewrite !time_ago_within_a_day by done. cbv zeta.
  assert (TravelPostListSerializer.seconds
            (created_at + (now - created_at) `mod` one_day - created_at)
          = TravelPostListSerializer.seconds (now - created_at)) as ->.
  { unfold TravelPostListSerializer.seconds.
    replace (created_at + (now - created_at) `mod` one_day - created_at)
      with ((now - created_at) `mod` one_day) by lia.
    unfold one_day. by rewrite Z.mod_mod by lia. }
  split; [done |].
  intros H1. replace (now - created_at) with (-1000000) by lia.
  vm_compute. reflexivity.
Qed.

Lemma time_ago_of_a_future_post_witness :
  0 < 1000000
  ∧ TravelPostListSerializer.get_time_ago 0 1000000
    = format_int 23 ++ py "h ago".
Proof.
  split; [lia |].
  by apply (time_ago_of_a_future_post 0 1000000).
Defined.

(** ** Tags shown and tags searched *)

Lemma lstrip_no_space (s : str) :
  Forall (λ c, isspace c = false) s → lstrip s = s.
Proof. intros [| c s' Hc _]; cbn; [done |]. by rewrite Hc. Qed.

Lemma strip_no_space (s : str) :
  Forall (λ c, isspace c = false) s → strip s = s.
Proof.
  intros Hs. unfold strip, rstrip.
  rewrite (lstrip_no_space s Hs).
  rewrite lstrip_no_space by (by apply Forall_reverse).
  apply reverse_involutive.
Qed.

Lemma split_no_separator (c : N) (s : str) :
  Forall (λ x, x ≠ c) s → split c s = [s].
Proof.
  induction 1 as [| x s Hx _ IH]; cbn; [done |].
  rewrite decide_False by done. by rewrite IH.
Qed.

Lemma remove_char_absent (c : N) (s : str) :
  Forall (λ x, x ≠ c) s → remove_char c s = s.
Proof.
  unfold remove_char, str. induction 1 as [| x s Hx _ IH]; [done |].
  rewrite filter_cons_True by done. by rewrite IH.
Qed.

(** The listing without [feed] and [destination] parameters. *)
Lemma get_queryset_latest (request : Request.t) (db : DB) :
  GET.feed (Request.GET request) = None →
  GET.destination (Request.GET request) = UuidAbsent →
  answer (get_queryset request) db =
    Ok (let public :=
          qs_filter (λ r : PostRow, TravelPost.is_public r.2 = true)
            {| qs_rows := map_to_list (posts db);
               qs_ordering := created_at_desc |} in
        let by_user :=
          match GET.user (Request.GET request) with
          | Some ((_ :: _) as username) =>
              qs_filter (λ r, User.username <$> users db !! TravelPost.user r.2
                              = Some username) public
          | _ => public
          end in
        match GET.tags (Request.GET request) with
        | Some ((_ :: _) as tags) =>
            qs_filter
              (tagged_with db
                 ((λ tag, remove_char 35 (strip tag)) <$> split 44 tags))
              by_user
        | _ => by_user
        end).
Proof.
  intros Hfeed Hdest.
  unfold answer, get_queryset, public_posts, tables, mbind, ORM_bind, mret,
    ORM_ret, raise.
  cbv zeta. rewrite Hfeed, Hdest. cbn [default].
  rewrite decide_False by (vm_compute; discriminate).
  rewrite decide_False by (intros [? _]; vm_compute in *; discriminate).
  by rewrite decide_False by (vm_compute; discriminate).
Qed.

(** X18. A tag that [get_tags] shows on a public post finds the post again:
    when the tag name holds no whitespace, no [#] and no comma, the listing
    asked for with the shown text as its [tags] parameter (and no other
    parameter) selects the post. *)
Theorem shown_tag_finds_the_post (request : Request.t) (db : DB) (i : N)
    (p : TravelPost.t) (name : str) (shown : list str) :
  posts db !! i = Some p → TravelPost.is_public p = true →
  answer (TravelPostListSerializer.get_tags i) db = Ok shown →
  (35%N :: name) ∈ shown →
  Forall (λ c, isspace c = false ∧ c ≠ 35%N ∧ c ≠ 44%N) name →
  GET.tags (Request.GET request) = Some (35%N :: name) →
  GET.user (Request.GET request) = None →
  GET.destination (Request.GET request) = UuidAbsent →
  GET.feed (Request.GET request) = None →
  ∃ qs, answer (get_queryset request) db = Ok qs ∧ (i, p) ∈ evaluate qs.
Proof.
  intros Hp Hpub Hshown Hin Hname Htags Huser Hdest Hfeed.
  rewrite (get_queryset_latest request db Hfeed Hdest).
  cbv zeta. rewrite Htags, Huser.
  eexists. split; [done |].
  apply evaluate_elem_of. cbn [qs_rows qs_filter].
  assert (split 44 (35%N :: name) = [35%N :: name]) as ->.
  { apply split_no_separator. constructor; [done |].
    eapply Forall_impl; [exact Hname |]. by intros c (_ & _ & ?). }
  cbn [fmap list_fmap].
  assert (strip (35%N :: name) = 35%N :: name) as ->.
  { apply strip_no_space. constructor; [done |].
    eapply Forall_impl; [exact Hname |]. by intros c (? & _ & _). }
  assert (remove_char 35 (35%N :: name) = name) as ->.
  { unfold remove_char, str. rewrite filter_cons_False by (by intros ?).
    apply remove_char_absent.
    eapply Forall_impl; [exact Hname |]. by intros c (_ & ? & _). }
  apply list_elem_of_filter. split.
  - unfold answer, TravelPostListSerializer.get_tags in Hshown.
    cbn [fst] in Hshown. injection Hshown as <-.
    apply list_elem_of_omap in Hin as (rel & Hrel & Hsome).
    case_decide as Hpost; [| done].
    apply fmap_Some in Hsome as (tag & Htag & [= Hnm]).
    exists rel. split; [done |]. split; [done |].
    exists name. split; [| by left].
    by rewrite Htag, Hnm.
  - apply list_elem_of_filter. split; [done |].
    by apply elem_of_map_to_list.
Qed.

Lemma shown_tag_finds_the_post_witness :
  ∃ qs,
    answer (get_queryset
              (Sample.request_with None
                 (Demo.params None (Some (35%N :: py "sunset")))))
      Demo.db_tagged = Ok qs
    ∧ (10%N, Sample.post 1 (-5) false) ∈ evaluate qs.
Proof.
  apply (shown_tag_finds_the_post
           (Sample.request_with None
              (Demo.params None (Some (35%N :: py "sunset"))))
           Demo.db_tagged 10 (Sample.post 1 (-5) false) (py "sunset")
           [35%N :: py "sunset"]);
    try reflexivity.
  - by left.
  - vm_compute. repeat constructor; discriminate.
Defined.

(** ** The post count of a profile *)

(** X19. The [posts_count] a profile shows is the number of posts the
    listing returns for that profile's username, when no other account has
    the same username. *)
Theorem profile_posts_count_is_the_listing (request : Request.t) (db : DB)
    (u : N) (account : User.t) :
  users db !! u = Some account →
  User.username account ≠ [] →
  (∀ u' account', users db !! u' = Some account' →
     User.username account' = User.username account → u' = u) →
  GET.user (Request.GET request) = Some (User.username account) →
  GET.tags (Request.GET request) = None →
  GET.destination (Request.GET request) = UuidAbsent →
  GET.feed (Request.GET request) = None →
  ∃ qs,
    answer (get_queryset request) db = Ok qs
    ∧ answer (UserProfileSerializer.get_posts_count u) db
      = Ok (length (evaluate qs)).
Proof.
  intros Hu Hname Huniq Huser Htags Hdest Hfeed.
  rewrite (get_queryset_latest request db Hfeed Hdest).
  cbv zeta. rewrite Htags, Huser.
  destruct (User.username account) as [| c name] eqn:Hn; [done |].
  eexists. split; [done |].
  unfold answer, UserProfileSerializer.get_posts_count. cbn [fst]. f_equal.
  rewrite evaluate_length. cbn [qs_rows qs_filter].
  rewrite list_filter_filter. f_equal. apply list_filter_iff.
  intros [k p]. cbn [snd]. split.
  - intros [-> Hpub]. split; [| done]. by rewrite Hu, <- Hn.
  - intros [Hauthor Hpub]. split; [| done].
    apply fmap_Some in Hauthor as (account' & Hu' & Heq).
    apply (Huniq _ account' Hu'). congruence.
Qed.

Lemma profile_posts_count_is_the_listing_witness :
  ∃ qs,
    answer (get_queryset
              (Sample.request_with None
                 (Demo.params (Some (py "alice")) None))) Sample.db = Ok qs
    ∧ answer (UserProfileSerializer.get_posts_count 1) Sample.db
      = Ok (length (evaluate qs)).
Proof.
  apply (profile_posts_count_is_the_listing
           (Sample.request_with None (Demo.params (Some (py "alice")) None))
           Sample.db 1 (Sample.account "alice")); try reflexivity.
  - vm_compute. discriminate.
  - intros u' account' Hu' Heq. unfold Sample.db in Hu'. cbn [users] in Hu'.
    apply lookup_insert_Some in Hu' as [[<- _] | [_ Hu']]; [done |].
    apply lookup_singleton_Some in Hu' as [<- <-].
    vm_compute in Heq. discriminate.
Defined.

(** ** Popular tags *)

(** X20. [PopularTagsView.get_queryset] lists exactly the tags with a
    positive [posts_count], each once, in descending order of that count. *)
Theorem popular_tags_are_used_tags (db : DB) :
  ∃ tags,
    PopularTagsView.get_queryset db = (Ok tags, db)
    ∧ StronglySorted
        (λ x y, (PostTag.posts_count y.2 ≤ PostTag.posts_count x.2)%N) tags
    ∧ NoDup tags
    ∧ ∀ r, r ∈ tags ↔
        post_tags db !! r.1 = Some r.2 ∧ (0 < PostTag.posts_count r.2)%N.
Proof.
  eexists. split; [reflexivity |]. split; [| split].
  - assert (Transitive PopularTagsView.posts_count_desc) as Htrans
      by (intros x y z; unfold PopularTagsView.posts_count_desc; lia).
    assert (Total PopularTagsView.posts_count_desc) as Htotal
      by (intros x y; unfold PopularTagsView.posts_count_desc; lia).
    exact (StronglySorted_merge_sort PopularTagsView.posts_count_desc _).
  - rewrite merge_sort_Permutation.
    apply NoDup_filter, NoDup_map_to_list.
  - intros [k t]. rewrite merge_sort_Permutation, list_elem_of_filter.
    rewrite elem_of_map_to_list. cbn. tauto.
Qed.

(** ** Preferences *)

(** What [feed_view] answers depends on the database through the posts and
    through whether the viewer switched 3D content off. *)
Lemma feed_view_answer_ext (viewer : Request.t) (db1 db2 : DB) :
  posts db1 = posts db2 →
  (hides_3d viewer db1 ↔ hides_3d viewer db2) →
  answer (feed_view viewer) db1 = answer (feed_view viewer) db2.
Proof.
  intros Hposts Hhides. unfold answer.
  destruct (feed_view_queryset viewer db1) as (qs1 & Hord1 & Hrows1 & ->).
  destruct (feed_view_queryset viewer db2) as (qs2 & Hord2 & Hrows2 & ->).
  assert (qs1 = qs2) as ->.
  { destruct qs1, qs2. cbn in *. subst. f_equal. rewrite Hposts.
    apply list_filter_iff. intros r. unfold in_feed. tauto. }
  rewrite !bind_eq, !int_param_eq.
  destruct (GET.page_size (Request.GET viewer)); [| done |];
    rewrite !bind_eq, !int_param_eq;
    (destruct (GET.offset (Request.GET viewer)); [| done |]);
    rewrite !bind_eq, !slice_eq; (destruct (_ || _); [done |]);
    by destruct (_ && _).
Qed.

(** X21. [UserPreferenceView.get_object] creates the preferences of the
    caller with every flag on when there are none, and otherwise leaves the
    table alone: a second call returns the same preferences and writes
    nothing, existing preferences are never overwritten, and the first call
    changes the page [feed_view] answers with for no viewer. *)
Theorem opening_preferences_keeps_the_feed (request : Request.t) (db : DB) :
  let db' := exec (UserPreferenceView.get_object request) db in
  exec (UserPreferenceView.get_object request) db' = db'
  ∧ answer (UserPreferenceView.get_object request) db'
    = answer (UserPreferenceView.get_object request) db
  ∧ (∀ me prefs, preferences db !! me = Some prefs →
       preferences db' !! me = Some prefs)
  ∧ (∀ viewer, answer (feed_view viewer) db' = answer (feed_view viewer) db).
Proof.
  intros db'. subst db'.
  unfold exec, answer, UserPreferenceView.get_object.
  destruct (Request.user request) as [me |] eqn:Hme; [| done].
  destruct (preferences db !! me) as [mine |] eqn:Hmine.
  { cbn. rewrite Hmine. done. }
  cbn. rewrite lookup_insert_eq. cbn.
  split; [done |]. split; [done |]. split.
  - intros x prefs Hx. rewrite lookup_insert_ne; [done | congruence].
  - intros viewer. apply feed_view_answer_ext; [done |].
    unfold hides_3d. cbn. split.
    + intros (x & prefs & Hx & Hp & Hs). exists x, prefs.
      split; [done |]. split; [| done].
      rewrite lookup_insert in Hp. case_decide; [| done].
      injection Hp as <-. done.
    + intros (x & prefs & Hx & Hp & Hs). exists x, prefs.
      split; [done |]. split; [| done].
      rewrite lookup_insert_ne; [done | congruence].
Qed.

(** ** The client address *)

Lemma split_head (c : N) (s : str) :
  ∃ w ws, split c s = w :: ws
          ∧ (c ∉ w)
          ∧ (s = w ∨ ∃ rest, s = w ++ (c :: rest)).
Proof.
  induction s as [| x s (w & ws & Hsplit & Hw & Hs)]; cbn.
  - exists [], []. split; [done |]. split; [apply not_elem_of_nil | by left].
  - destruct (decide (x = c)) as [-> | Hx].
    + exists [], (split c s). split; [done |].
      split; [apply not_elem_of_nil |]. right. by exists s.
    + rewrite Hsplit. exists (x :: w), ws. split; [done |]. split.
      * apply not_elem_of_cons. split; [congruence | done].
      * destruct Hs as [-> | (rest & ->)]; [by left |].
        right. by exists rest.
Qed.

(** X22. With a non-empty [X-Forwarded-For] header, [get_client_ip] ignores
    [REMOTE_ADDR] and gives the text of the header before its first comma,
    as it stands: the whole header when it has no comma.  With the header
    missing or empty it gives [REMOTE_ADDR]. *)
Theorem client_ip_is_first_forwarded (x_forwarded_for : str)
    (remote_addr : option str) :
  (x_forwarded_for ≠ [] →
   ∃ ip, TravelPostDetailView.get_client_ip (Some x_forwarded_for) remote_addr
           = Some ip
         ∧ (44%N ∉ ip)
         ∧ (x_forwarded_for = ip
            ∨ ∃ rest, x_forwarded_for = ip ++ (44%N :: rest)))
  ∧ TravelPostDetailView.get_client_ip (Some []) remote_addr = remote_addr
  ∧ TravelPostDetailView.get_client_ip None remote_addr = remote_addr.
Proof.
  split; [| done].
  intros Hne. unfold TravelPostDetailView.get_client_ip.
  destruct x_forwarded_for as [| c s]; [done |].
  destruct (split_head 44 (c :: s)) as (w & ws & -> & Hw & Hs).
  by exists w.
Qed.

(** ** Creating a post *)

Lemma create_unique_cases {R} (objects : Manager R) (same : R → Prop)
    `{!∀ r, Decision (same r)} (new : R) (db : DB) :
  (count same (rows objects db) = 0%nat
   ∧ create_unique objects same new db =
       (Ok (fresh (dom (rows objects db))),
        with_rows objects
          (<[fresh (dom (rows objects db)) := new]> (rows objects db)) db))
  ∨ (count same (rows objects db) ≠ 0%nat
     ∧ create_unique objects same new db = (Raise IntegrityError, db)).
Proof. unfold create_unique. case_decide; [by left | by right]. Qed.

Lemma attach_tag_frame (post : N) (tag_name : str) (db : DB) :
  same_but_tags db (exec (TravelPostSerializer.attach_tag post tag_name) db).
Proof.
  unfold exec, TravelPostSerializer.attach_tag. rewrite bind_eq.
  destruct (get_or_create_cases MoreObjects.PostTag
              (λ t, PostTag.name t = tag_name)
              {| PostTag.name := tag_name; PostTag.posts_count := 0 |} db)
    as [[_ ->] | [(pk & r & _ & _ & _ & ->) | [_ ->]]];
    [| | by repeat split]; rewrite bind_eq;
    match goal with
    | |- context [create_unique ?o ?s ?n ?d] =>
        destruct (create_unique_cases o s n d) as [[_ ->] | [_ ->]]
    end; by repeat split.
Qed.

Lemma same_but_tags_trans (db1 db2 db3 : DB) :
  same_but_tags db1 db2 → same_but_tags db2 db3 → same_but_tags db1 db3.
Proof.
  unfold same_but_tags.
  intros (? & ? & ? & ? & ? & ? & ? & ?) (? & ? & ? & ? & ? & ? & ? & ?).
  repeat split; congruence.
Qed.

Lemma for_each_cons {A} (x : A) (l : list A) (body : A → ORM unit) (db : DB) :
  for_each (x :: l) body db =
    match body x db with
    | (Ok _, db') => for_each l body db'
    | (Raise e, db') => (Raise e, db')
    end.
Proof. done. Qed.

(** What every step of a loop preserves, the loop preserves, whether it
    runs to its end or stops at an exception. *)
Lemma for_each_preserves {A} (I : DB → Prop) (body : A → ORM unit)
    (l : list A) (db : DB) :
  (∀ x db, I db → I (exec (body x) db)) →
  I db → I (exec (for_each l body) db).
Proof.
  intros Hstep. revert db. induction l as [| x l IH]; intros db HI; [done |].
  unfold exec. rewrite for_each_cons.
  pose proof (Hstep x db HI) as H1. unfold exec in H1.
  destruct (body x db) as [[[] | e] db1]; [| done]. by apply IH.
Qed.

Lemma create_then_tags (request : Request.t) (validated_data : PostData.t)
    (me : N) (db : DB) :
  is_Some (destinations db !! PostData.destination_id validated_data) →
  Request.user request = Some me →
  same_but_tags
    (with_rows Objects.TravelPost
       (<[fresh (dom (posts db)) :=
            TravelPostSerializer.new_post request me validated_data]>
          (posts db)) db)
    (exec (TravelPostSerializer.create request validated_data) db).
Proof.
  intros [d Hd] Hme.
  unfold exec, TravelPostSerializer.create, get_pk. cbv zeta.
  rewrite bind_eq. cbn [rows MoreObjects.Destination]. rewrite Hd, Hme.
  unfold create at 1. rewrite bind_eq. cbn [rows Objects.TravelPost].
  set (db1 := with_rows Objects.TravelPost _ db). rewrite bind_eq.
  destruct (default [] (PostData.tags_input validated_data)) as [| c tags].
  { by repeat split. }
  pose proof (for_each_preserves (same_but_tags db1)
                (TravelPostSerializer.attach_tag (fresh (dom (posts db))))
                (TravelPostSerializer.tag_names (c :: tags)) db1) as Hloop.
  unfold exec in Hloop.
  destruct (for_each _ _ db1) as [[[] | e] db2]; cbn [snd] in *;
    apply Hloop; try (by repeat split);
    intros x db3 H3; (eapply same_but_tags_trans; [exact H3 |]);
    apply attach_tag_frame.
Qed.

(** X23. [TravelPostSerializer.create] refuses an unknown destination with a
    validation error and writes nothing.  With a known destination and an
    authenticated caller it stores exactly one new post, owned by the
    caller, with all four counters at zero, whether or not the tags that
    follow raise; it changes no table but the posts and the two tag tables,
    so the [posts_count] of the destination stays as it was. *)
Theorem create_stores_one_post (request : Request.t)
    (validated_data : PostData.t) (db : DB) :
  (destinations db !! PostData.destination_id validated_data = None →
   TravelPostSerializer.create request validated_data db
     = (Raise ValidationError, db))
  ∧ (∀ me,
       is_Some (destinations db !! PostData.destination_id validated_data) →
       Request.user request = Some me →
       let db' := exec (TravelPostSerializer.create request validated_data) db in
       let post := TravelPostSerializer.new_post request me validated_data in
       posts db' = <[fresh (dom (posts db)) := post]> (posts db)
       ∧ posts db !! fresh (dom (posts db)) = None
       ∧ TravelPost.user post = me
       ∧ TravelPost.likes_count post = 0%N
       ∧ TravelPost.comments_count post = 0%N
       ∧ TravelPost.shares_count post = 0%N
       ∧ TravelPost.views_count post = 0%N
       ∧ users db' = users db ∧ destinations db' = destinations db
       ∧ likes db' = likes db ∧ shares db' = shares db
       ∧ views db' = views db ∧ follows db' = follows db
       ∧ preferences db' = preferences db).
Proof.
  split.
  - intros Hd. unfold TravelPostSerializer.create, get_pk. cbv zeta.
    rewrite bind_eq. cbn [rows MoreObjects.Destination]. by rewrite Hd.
  - intros me Hd Hme db' post.
    destruct (create_then_tags request validated_data me db Hd Hme)
      as (H1 & H2 & H3 & H4 & H5 & H6 & H7 & H8).
    fold db' in H1, H2, H3, H4, H5, H6, H7, H8. cbn in *.
    split; [done |]. split; [apply fresh_key |]. by repeat split.
Qed.

Lemma create_stores_one_post_witness :
  posts (exec (TravelPostSerializer.create (Sample.request_by 1)
                 {| PostData.description := py "dawn";
                    PostData.featured_3d := None;
                    PostData.is_featured := None;
                    PostData.is_public := None;
                    PostData.destination_id := 1;
                    PostData.tags_input := Some (py "#a #a") |})
           (with_rows MoreObjects.Destination
              {[ 1%N := {| Destination.name := py "Tokyo";
                           Destination.country := py "Japan";
                           Destination.city := py "Tokyo";
                           Destination.has_3d_model := true;
                           Destination.posts_count := 0 |} ]} Sample.db))
  !! fresh (dom (posts Sample.db))
  = Some (TravelPostSerializer.new_post (Sample.request_by 1) 1
            {| PostData.description := py "dawn";
               PostData.featured_3d := None;
               PostData.is_featured := None;
               PostData.is_public := None;
               PostData.destination_id := 1;
               PostData.tags_input := Some (py "#a #a") |}).
Proof.
  destruct (create_stores_one_post (Sample.request_by 1)
              {| PostData.description := py "dawn";
                 PostData.featured_3d := None;
                 PostData.is_featured := None;
                 PostData.is_public := None;
                 PostData.destination_id := 1;
                 PostData.tags_input := Some (py "#a #a") |}
              (with_rows MoreObjects.Destination
                 {[ 1%N := {| Destination.name := py "Tokyo";
                              Destination.country := py "Japan";
                              Destination.city := py "Tokyo";
                              Destination.has_3d_model := true;
                              Destination.posts_count := 0 |} ]} Sample.db))
    as [_ H].
  destruct (H 1%N ltac:(by eexists) eq_refl) as [Hposts _].
  rewrite Hposts. apply lookup_insert_eq.
Defined.

(** ** The post count of a tag *)

Lemma count_none {R} (P : R → Prop) `{!∀ r, Decision (P r)} (m : gmap N R) :
  (∀ k r, m !! k = Some r → ¬ P r) → count P m = 0%nat.
Proof.
  intros Hnone. destruct (decide (count P m = 0%nat)) as [| Hne]; [done |].
  apply count_ne_0 in Hne as (k & r & Hk & Hr). by destruct (Hnone k r).
Qed.

Lemma attach_tag_consistent (post : N) (tag_name : str) (db : DB) :
  tags_consistent db →
  tags_consistent (exec (TravelPostSerializer.attach_tag post tag_name) db).
Proof.
  intros [Hfk Hcount].
  unfold exec, TravelPostSerializer.attach_tag. rewrite bind_eq.
  destruct (get_or_create_cases MoreObjects.PostTag
              (λ t, PostTag.name t = tag_name)
              {| PostTag.name := tag_name; PostTag.posts_count := 0 |} db)
    as [[_ ->] | [(tpk & tag & _ & Htag & _ & ->) | [_ ->]]];
    [| | done]; rewrite bind_eq; cbn [rows MoreObjects.PostTag] in *.
  - (* a new tag *)
    set (t' := fresh (dom (post_tags db))).
    assert (post_tags db !! t' = None) as Ht' by apply fresh_key.
    assert (count (λ rel, PostTagRelation.tag rel = t') (tag_relations db)
            = 0%nat) as Hunused.
    { apply count_none. intros k rel Hk Heq.
      destruct (Hfk k rel Hk) as [tag Htag]. congruence. }
    match goal with
    | |- context [create_unique ?o ?s ?n ?d] =>
        destruct (create_unique_cases o s n d) as [[_ ->] | [_ ->]]
    end; cbn.
    + split; cbn [tag_relations post_tags].
      * intros k rel Hk.
        apply lookup_insert_Some in Hk as [[_ <-] | [_ Hk]]; cbn.
        -- rewrite lookup_insert_eq. by eexists.
        -- destruct (Hfk k rel Hk) as [tag Htag].
           rewrite !lookup_insert_ne by congruence. by eexists.
      * intros t tag Ht.
        rewrite (count_insert _ _ _ _ (fresh_key _)). cbn.
        rewrite insert_insert_eq in Ht.
        apply lookup_insert_Some in Ht as [[<- <-] | [Hne Ht]]; cbn.
        -- rewrite decide_True by done. rewrite Hunused. lia.
        -- rewrite decide_False by done. by apply Hcount.
    + split; cbn [tag_relations post_tags].
      * intros k rel Hk. destruct (Hfk k rel Hk) as [tag Htag].
        rewrite lookup_insert_ne by congruence. by eexists.
      * intros t tag Ht.
        apply lookup_insert_Some in Ht as [[<- <-] | [Hne Ht]]; cbn.
        -- rewrite Hunused. lia.
        -- by apply Hcount.
  - (* a known tag *)
    match goal with
    | |- context [create_unique ?o ?s ?n ?d] =>
        destruct (create_unique_cases o s n d) as [[_ ->] | [_ ->]]
    end; cbn; [| done].
    split; cbn [tag_relations post_tags].
    + intros k rel Hk.
      apply lookup_insert_Some in Hk as [[_ <-] | [_ Hk]]; cbn.
      * rewrite lookup_insert_eq. by eexists.
      * destruct (Hfk k rel Hk) as [tag' Htag'].
        destruct (decide (tpk = PostTagRelation.tag rel)) as [<- | Hne].
        -- rewrite lookup_insert_eq. by eexists.
        -- rewrite lookup_insert_ne by done. by eexists.
    + intros t tag' Ht.
      rewrite (count_insert _ _ _ _ (fresh_key _)). cbn.
      apply lookup_insert_Some in Ht as [[<- <-] | [Hne Ht]]; cbn.
      * rewrite decide_True by done. rewrite (Hcount tpk tag Htag). lia.
      * rewrite decide_False by done. by apply Hcount.
Qed.

Lemma create_consistent (request : Request.t) (validated_data : PostData.t)
    (db : DB) :
  tags_consistent db →
  tags_consistent (exec (TravelPostSerializer.create request validated_data) db).
Proof.
  intros Hc.
  unfold exec, TravelPostSerializer.create, get_pk. cbv zeta.
  rewrite bind_eq. cbn [rows MoreObjects.Destination].
  destruct (destinations db !! _) as [d |]; [| done].
  destruct (Request.user request) as [me |]; [| done].
  unfold create at 1. rewrite bind_eq. cbn [rows Objects.TravelPost].
  set (db1 := with_rows Objects.TravelPost _ db). rewrite bind_eq.
  assert (tags_consistent db1) as Hc1 by done.
  destruct (default [] (PostData.tags_input validated_data)) as [| c tags].
  { done. }
  pose proof (for_each_preserves tags_consistent
                (TravelPostSerializer.attach_tag (fresh (dom (posts db))))
                (TravelPostSerializer.tag_names (c :: tags)) db1
                (attach_tag_consistent _) Hc1) as Hloop.
  unfold exec in Hloop.
  by destruct (for_each _ _ db1) as [[[] | e] db2].
Qed.

(** X24. From a state where every tag relation points to a tag and the
    [posts_count] of every tag equals the number of relations that point to
    it, any sequence of [TravelPostSerializer.create] calls, whatever each
    one answers or raises, ends in a state where this still holds. *)
Theorem tag_posts_count_equals_relations
    (calls : list (Request.t * PostData.t)) (db : DB) :
  tags_consistent db →
  tags_consistent
    (exec_all ((λ c, TravelPostSerializer.create c.1 c.2) <$> calls) db).
Proof.
  revert db. induction calls as [| [request data] calls IH]; intros db H.
  - done.
  - rewrite fmap_cons, exec_all_cons. apply IH. cbn.
    by apply create_consistent.
Qed.

Lemma tag_posts_count_equals_relations_witness :
  tags_consistent Demo.db_with_destination
  ∧ tags_consistent
      (exec_all ((λ c, TravelPostSerializer.create c.1 c.2) <$>
                   [(Sample.request_by 1, Demo.post_data "#sunset #dawn");
                    (Sample.request_by 2, Demo.post_data "#dawn #dawn")])
         Demo.db_with_destination).
Proof.
  assert (tags_consistent Demo.db_with_destination) as H.
  { split.
    - intros k rel Hk. cbn in Hk.
      apply lookup_singleton_Some in Hk as [<- <-]. by eexists.
    - intros t tag Ht. cbn in Ht.
      apply lookup_insert_Some in Ht as [[<- <-] | [_ Ht]];
        [vm_compute; reflexivity |].
      apply lookup_singleton_Some in Ht as [<- <-]. vm_compute; reflexivity. }
  split; [exact H |].
  apply (tag_posts_count_equals_relations _ Demo.db_with_destination H).
Defined.

(** ** A hashtag given twice *)

Lemma count_two {R} (P : R → Prop) `{!∀ r, Decision (P r)} (m : gmap N R) :
  (2 ≤ count P m)%nat →
  ∃ k1 k2 r1 r2, k1 ≠ k2 ∧ m !! k1 = Some r1 ∧ m !! k2 = Some r2
                 ∧ P r1 ∧ P r2.
Proof.
  intros H2.
  assert (count P m ≠ 0%nat) as Hne by lia.
  apply count_ne_0 in Hne as (k1 & r1 & Hk1 & Hr1).
  rewrite (count_delete P _ _ _ Hk1), decide_True in H2 by done.
  assert (count P (delete k1 m) ≠ 0%nat) as Hne by lia.
  apply count_ne_0 in Hne as (k2 & r2 & Hk2 & Hr2).
  apply lookup_delete_Some in Hk2 as [Hne Hk2].
  by exists k1, k2, r1, r2.
Qed.

(** One turn of the loop: a name not seen before is attached, a name seen
    before collides with the relation made for it. *)
Lemma attach_step (post : N) (n : str) (seen : list str) (db : DB) :
  attached post seen db →
  (n ∉ seen →
   ∃ db', TravelPostSerializer.attach_tag post n db = (Ok tt, db')
          ∧ attached post (n :: seen) db')
  ∧ (n ∈ seen →
     ∃ db', TravelPostSerializer.attach_tag post n db
              = (Raise IntegrityError, db')).
Proof.
  intros (HU & HR & HD).
  unfold TravelPostSerializer.attach_tag. rewrite bind_eq.
  destruct (get_or_create_cases MoreObjects.PostTag
              (λ t, PostTag.name t = n)
              {| PostTag.name := n; PostTag.posts_count := 0 |} db)
    as [[Hn0 ->] | [(tpk & tag & _ & Htag & Hname & ->) | [Hn2 _]]];
    cbn [rows MoreObjects.PostTag] in *.
  - (* no tag of this name *)
    assert (n ∉ seen) as Hnew.
    { intros Hin. destruct (HD n Hin) as (t & tag & Ht & Hnm & _).
      assert (count (λ t, PostTag.name t = n) (post_tags db) ≠ 0%nat)
        by (apply count_ne_0; eauto).
      done. }
    split; [intros _ | done].
    set (t' := fresh (dom (post_tags db))).
    assert (post_tags db !! t' = None) as Ht' by apply fresh_key.
    rewrite bind_eq.
    match goal with
    | |- context [create_unique ?o ?s ?n ?d] =>
        destruct (create_unique_cases o s n d) as [[_ ->] | [Hdup _]]
    end; cycle 1.
    { exfalso. apply Hdup. apply count_none. intros k rel Hk [Hp Ht].
      destruct (HR k rel Hk Hp) as (tag & Htag & _). congruence. }
    rewrite ?bind_eq. eexists. split; [reflexivity |].
    cbn. rewrite insert_insert_eq.
    split; [| split].
    + intros t1 t2 tag1 tag2 H1 H2 Heq. cbn in H1, H2.
      apply lookup_insert_Some in H1 as [[<- <-] | [Hne1 H1]];
        apply lookup_insert_Some in H2 as [[<- <-] | [Hne2 H2]]; cbn in Heq.
      * done.
      * exfalso.
        assert (count (λ t, PostTag.name t = n) (post_tags db) ≠ 0%nat)
          by (apply count_ne_0; eauto).
        done.
      * exfalso.
        assert (count (λ t, PostTag.name t = n) (post_tags db) ≠ 0%nat)
          by (apply count_ne_0; eauto).
        done.
      * by apply (HU t1 t2 tag1 tag2).
    + intros k rel Hk Hp. cbn in Hk |- *.
      apply lookup_insert_Some in Hk as [[_ <-] | [_ Hk]]; cbn.
      * rewrite lookup_insert_eq. eexists. split; [done |]. by left.
      * destruct (HR k rel Hk Hp) as (tag & Htag & Hin).
        exists tag. split; [| by right].
        rewrite lookup_insert_ne; [done | congruence].
    + intros n' Hin. cbn.
      apply elem_of_cons in Hin as [-> | Hin].
      * eexists t', _. rewrite lookup_insert_eq.
        split; [done |]. split; [done |].
        rewrite (count_insert _ _ _ _ (fresh_key _)).
        rewrite decide_True by done. lia.
      * destruct (HD n' Hin) as (t & tag & Ht & Hnm & Hcount).
        exists t, tag. rewrite lookup_insert_ne by congruence.
        split; [done |]. split; [done |].
        rewrite (count_insert _ _ _ _ (fresh_key _)). lia.
  - (* the tag of this name *)
    rewrite bind_eq.
    match goal with
    | |- context [create_unique ?o ?s ?n ?d] =>
        destruct (create_unique_cases o s n d) as [[Hfree ->] | [Hdup ->]]
    end; cbn [rows MoreObjects.PostTagRelation] in *.
    + assert (n ∉ seen) as Hnew.
      { intros Hin. destruct (HD n Hin) as (t & tag' & Ht & Hnm & Hcount).
        assert (t = tpk) as -> by (apply (HU t tpk tag' tag); congruence).
        done. }
      split; [intros _ | done].
      rewrite ?bind_eq. eexists. split; [reflexivity |]. cbn.
      split; [| split].
      * intros t1 t2 tag1 tag2 H1 H2 Heq. cbn in H1, H2.
        apply lookup_insert_Some in H1 as [[<- <-] | [Hne1 H1]];
          apply lookup_insert_Some in H2 as [[<- <-] | [Hne2 H2]];
          cbn in Heq.
        -- done.
        -- by apply (HU tpk t2 tag tag2).
        -- by apply (HU t1 tpk tag1 tag).
        -- by apply (HU t1 t2 tag1 tag2).
      * intros k rel Hk Hp. cbn in Hk |- *.
        apply lookup_insert_Some in Hk as [[_ <-] | [_ Hk]]; cbn.
        -- rewrite lookup_insert_eq. eexists. split; [done |].
           cbn. rewrite Hname. by left.
        -- destruct (HR k rel Hk Hp) as (tag' & Htag' & Hin).
           destruct (decide (tpk = PostTagRelation.tag rel)) as [Heq | Hne].
           ++ rewrite <- Heq, lookup_insert_eq. eexists. split; [done |].
              cbn. right. rewrite <- Heq in Htag'. congruence.
           ++ rewrite lookup_insert_ne by done. exists tag'.
              split; [done | by right].
      * intros n' Hin. cbn.
        apply elem_of_cons in Hin as [-> | Hin].
        -- eexists tpk, _. rewrite lookup_insert_eq.
           split; [done |]. split; [done |].
           rewrite (count_insert _ _ _ _ (fresh_key _)).
           rewrite decide_True by done. lia.
        -- destruct (HD n' Hin) as (t & tag' & Ht & Hnm & Hcount).
           destruct (decide (tpk = t)) as [<- | Hne].
           ++ eexists tpk, _. rewrite lookup_insert_eq.
              split; [done |]. split; [cbn; congruence |].
              rewrite (count_insert _ _ _ _ (fresh_key _)). lia.
           ++ exists t, tag'. rewrite lookup_insert_ne by done.
              split; [done |]. split; [done |].
              rewrite (count_insert _ _ _ _ (fresh_key _)). lia.
    + split; [| by eexists].
      intros Hnew. exfalso.
      apply count_ne_0 in Hdup as (k & rel & Hk & Hp & Ht).
      destruct (HR k rel Hk Hp) as (tag' & Htag' & Hin).
      rewrite Ht, Htag in Htag'. injection Htag' as <-.
      by rewrite Hname in Hin.
  - (* two tags of this name *)
    exfalso. apply count_two in Hn2
      as (k1 & k2 & r1 & r2 & Hne & H1 & H2 & Hr1 & Hr2).
    apply Hne, (HU k1 k2 r1 r2); congruence.
Qed.

Lemma attach_loop (post : N) (names : list str) :
  ∀ (seen : list str) (db : DB),
    attached post seen db →
    (NoDup names ∧ (∀ n, n ∈ names → n ∉ seen) →
     ∃ db', for_each names (TravelPostSerializer.attach_tag post) db
              = (Ok tt, db'))
    ∧ (¬ (NoDup names ∧ (∀ n, n ∈ names → n ∉ seen)) →
       ∃ db', for_each names (TravelPostSerializer.attach_tag post) db
                = (Raise IntegrityError, db')).
Proof.
  induction names as [| n names IH]; intros seen db Hat.
  - split; [by eexists |]. intros Hno. exfalso. apply Hno.
    split; [constructor |]. intros n Hn. by apply elem_of_nil in Hn.
  - destruct (attach_step post n seen db Hat) as [Hfresh Hseen].
    rewrite for_each_cons.
    destruct (decide (n ∈ seen)) as [Hin | Hout].
    + destruct (Hseen Hin) as (db' & ->). split; [| by eexists].
      intros [_ Hdisj]. exfalso. apply (Hdisj n); [by left | done].
    + destruct (Hfresh Hout) as (db' & -> & Hat').
      destruct (IH (n :: seen) db' Hat') as [IH1 IH2]. split.
      * intros [Hnd Hdisj]. apply NoDup_cons in Hnd as [Hn Hnd].
        apply IH1. split; [done |]. intros m Hm Hm'.
        apply elem_of_cons in Hm' as [-> | Hm']; [done |].
        apply (Hdisj m); [by right | done].
      * intros Hno. apply IH2. intros [Hnd Hdisj]. apply Hno. split.
        -- apply NoDup_cons. split; [| done].
           intros Hn. apply (Hdisj n Hn). by left.
        -- intros m Hm. apply elem_of_cons in Hm as [-> | Hm]; [done |].
           intros Hm'. apply (Hdisj m Hm). by right.
Qed.

(** X25. With unique tag names and tag relations that point to existing
    posts, [TravelPostSerializer.create] for a known destination and an
    authenticated caller returns the new post exactly when the hashtags of
    [tags_input], with every [#] removed, are pairwise different.  When one
    of them occurs twice it raises [IntegrityError] at the second relation
    for the same (post, tag), and the post stays stored. *)
Theorem repeated_hashtag_fails (request : Request.t)
    (validated_data : PostData.t) (me : N) (db : DB) :
  is_Some (destinations db !! PostData.destination_id validated_data) →
  Request.user request = Some me →
  tag_names_unique db → relations_point_to_posts db →
  let names :=
    TravelPostSerializer.tag_names
      (default [] (PostData.tags_input validated_data)) in
  let post := TravelPostSerializer.new_post request me validated_data in
  (NoDup names →
   answer (TravelPostSerializer.create request validated_data) db
     = Ok (fresh (dom (posts db)), post))
  ∧ (¬ NoDup names →
     answer (TravelPostSerializer.create request validated_data) db
       = Raise IntegrityError
     ∧ posts (exec (TravelPostSerializer.create request validated_data) db)
         !! fresh (dom (posts db)) = Some post).
Proof.
  intros Hd Hme HU HF names post.
  assert (posts (exec (TravelPostSerializer.create request validated_data) db)
            !! fresh (dom (posts db)) = Some post) as Hstored.
  { destruct (create_then_tags request validated_data me db Hd Hme)
      as (_ & _ & -> & _).
    cbn. apply lookup_insert_eq. }
  destruct Hd as [d Hd].
  assert (∀ o : Outcome unit,
            (∃ db', (match default [] (PostData.tags_input validated_data) with
                     | [] => mret ()
                     | _ :: _ =>
                         for_each names
                           (TravelPostSerializer.attach_tag
                              (fresh (dom (posts db))))
                     end)
                      (with_rows Objects.TravelPost
                         (<[fresh (dom (posts db)) := post]> (posts db)) db)
                    = (o, db')) →
            answer (TravelPostSerializer.create request validated_data) db
            = match o with
              | Ok _ => Ok (fresh (dom (posts db)), post)
              | Raise e => Raise e
              end) as Hrun.
  { intros o (db' & Hloop).
    unfold answer, TravelPostSerializer.create, get_pk. cbv zeta.
    rewrite bind_eq. cbn [rows MoreObjects.Destination]. rewrite Hd, Hme.
    unfold create at 1. rewrite bind_eq. cbn [rows Objects.TravelPost].
    rewrite bind_eq. fold post names. rewrite Hloop. by destruct o. }
  set (db1 := with_rows Objects.TravelPost
                (<[fresh (dom (posts db)) := post]> (posts db)) db) in *.
  assert (attached (fresh (dom (posts db))) [] db1) as Hat.
  { split; [exact HU |]. split.
    - intros k rel Hk Hp. exfalso. destruct (HF k rel Hk) as [p Hpost].
      rewrite Hp, fresh_key in Hpost. done.
    - intros n Hn. by apply elem_of_nil in Hn. }
  destruct (attach_loop (fresh (dom (posts db))) names [] db1 Hat)
    as [Hok Hfail].
  assert (default [] (PostData.tags_input validated_data) = [] → names = [])
    as Hempty.
  { intros Heq. subst names. by rewrite Heq. }
  split.
  - intros Hnd. apply (Hrun (Ok tt)).
    destruct (default [] (PostData.tags_input validated_data)) as [| c s].
    + by eexists.
    + apply Hok. split; [done |]. intros n _ Hn. by apply elem_of_nil in Hn.
  - intros Hdup. split; [| done]. apply (Hrun (Raise IntegrityError)).
    destruct (default [] (PostData.tags_input validated_data)) as [| c s].
    + exfalso. apply Hdup. rewrite Hempty by done. constructor.
    + apply Hfail. by intros [? _].
Qed.

Lemma repeated_hashtag_fails_witness :
  (is_Some (destinations Demo.db_with_destination
              !! PostData.destination_id (Demo.post_data "#dawn #dawn"))
   ∧ Request.user (Sample.request_by 1) = Some 1%N
   ∧ tag_names_unique Demo.db_with_destination
   ∧ relations_point_to_posts Demo.db_with_destination)
  ∧ answer (TravelPostSerializer.create (Sample.request_by 1)
              (Demo.post_data "#dawn #dawn")) Demo.db_with_destination
    = Raise IntegrityError.
Proof.
  assert (tag_names_unique Demo.db_with_destination) as HU.
  { intros t1 t2 tag1 tag2 H1 H2 Heq. cbn in H1, H2.
    apply lookup_insert_Some in H1 as [[<- <-] | [_ H1]];
      apply lookup_insert_Some in H2 as [[<- <-] | [_ H2]];
      try apply lookup_singleton_Some in H1 as [<- <-];
      try apply lookup_singleton_Some in H2 as [<- <-];
      first [reflexivity | vm_compute in Heq; discriminate]. }
  assert (relations_point_to_posts Demo.db_with_destination) as HF.
  { intros k rel Hk. cbn in Hk.
    apply lookup_singleton_Some in Hk as [<- <-]. vm_compute. by eexists. }
  assert (is_Some (destinations Demo.db_with_destination
                     !! PostData.destination_id (Demo.post_data "#dawn #dawn")))
    as Hd by (vm_compute; by eexists).
  split; [done |].
  apply (repeated_hashtag_fails (Sample.request_by 1)
           (Demo.post_data "#dawn #dawn") 1%N Demo.db_with_destination
           Hd eq_refl HU HF).
  intros Hnd. vm_compute in Hnd.
  apply NoDup_cons in Hnd as [Hnd _]. apply Hnd. by left.
Defined.

(** ** Comments *)

Lemma perform_create_hidden (request : Request.t) (post_id : N)
    (content : str) (s : Site) :
  PostCommentListView.perform_create request post_id content s = None
  ↔ ¬ ∃ p, posts (database s) !! post_id = Some p
           ∧ TravelPost.is_public p = true.
Proof.
  unfold PostCommentListView.perform_create, answer, get_public_post, get_pk.
  rewrite bind_eq. cbn.
  destruct (posts (database s) !! post_id) as [p |] eqn:Hp; cycle 1.
  { split; [intros _ (p & Hp' & _); congruence | done]. }
  destruct (TravelPost.is_public p) eqn:Hpub; cycle 1.
  { split; [intros _ (p' & Hp' & Hpub'); congruence | done]. }
  split.
  - destruct (Request.user request); [| done].
    unfold save_F. cbn. rewrite Hp. cbn.
    destruct (_ <? 0)%Z; done.
  - intros Hno. exfalso. apply Hno. by exists p.
Qed.

Lemma perform_create_step (request : Request.t) (me post_id : N)
    (content : str) (p : TravelPost.t) (s : Site) :
  Request.user request = Some me →
  posts (database s) !! post_id = Some p →
  TravelPost.is_public p = true →
  PostCommentListView.perform_create request post_id content s
  = Some (Ok tt,
          {| database :=
               with_rows Objects.TravelPost
                 (<[post_id := fset MoreCol.comments_count
                                 (TravelPost.comments_count p + 1) p]>
                    (posts (database s))) (database s);
             comments :=
               <[fresh (dom (comments s)) :=
                   {| PostComment.user := me; PostComment.post := post_id;
                      PostComment.parent := None;
                      PostComment.content := content;
                      PostComment.likes_count := 0;
                      PostComment.created_at := Request.now request |}]>
                 (comments s) |}).
Proof.
  intros Hme Hp Hpub.
  unfold PostCommentListView.perform_create, answer, get_public_post, get_pk.
  rewrite bind_eq. cbn. rewrite Hp, Hpub, Hme.
  unfold save_F. cbn. rewrite Hp. cbn.
  assert ((Z.of_N (TravelPost.comments_count p) + 1 <? 0)%Z = false) as ->
    by (apply Z.ltb_ge; lia).
  replace (Z.to_N (Z.of_N (TravelPost.comments_count p) + 1))
    with (TravelPost.comments_count p + 1)%N by lia.
  cbn. by rewrite ?Hpub.
Qed.

(** What [perform_create] leaves behind: the site as it was, or one more
    top-level comment and one more on the counter of its post. *)
Lemma perform_create_cases (request : Request.t) (post_id : N)
    (content : str) (s : Site) :
  site_after (PostCommentListView.perform_create request post_id content s) s
    = s
  ∨ ∃ me p,
      posts (database s) !! post_id = Some p
      ∧ site_after
          (PostCommentListView.perform_create request post_id content s) s
        = {| database :=
               with_rows Objects.TravelPost
                 (<[post_id := fset MoreCol.comments_count
                                 (TravelPost.comments_count p + 1) p]>
                    (posts (database s))) (database s);
             comments :=
               <[fresh (dom (comments s)) :=
                   {| PostComment.user := me; PostComment.post := post_id;
                      PostComment.parent := None;
                      PostComment.content := content;
                      PostComment.likes_count := 0;
                      PostComment.created_at := Request.now request |}]>
                 (comments s) |}.
Proof.
  destruct (posts (database s) !! post_id) as [p |] eqn:Hp; cycle 1.
  { left. rewrite (proj2 (perform_create_hidden request post_id content s));
      [done |].
    intros (p & Hp' & _). congruence. }
  destruct (TravelPost.is_public p) eqn:Hpub; cycle 1.
  { left. rewrite (proj2 (perform_create_hidden request post_id content s));
      [done |].
    intros (p' & Hp' & Hpub'). congruence. }
  destruct (Request.user request) as [me |] eqn:Hme.
  - right. exists me, p. split; [done |].
    by rewrite (perform_create_step request me post_id content p s).
  - left. unfold PostCommentListView.perform_create, answer, get_public_post,
      get_pk.
    rewrite bind_eq. cbn. by rewrite Hp, Hpub, Hme.
Qed.

Lemma perform_create_consistent (request : Request.t) (post_id : N)
    (content : str) (s : Site) :
  comments_consistent s →
  comments_consistent
    (site_after
       (PostCommentListView.perform_create request post_id content s) s).
Proof.
  intros Hc.
  destruct (perform_create_cases request post_id content s)
    as [-> | (me & p & Hp & ->)]; [done |].
  intros pk post Hpost. cbn in Hpost |- *.
  rewrite (count_insert _ _ _ _ (fresh_key _)). cbn.
  apply lookup_insert_Some in Hpost as [[<- <-] | [Hne Hpost]].
  - rewrite decide_True by done. cbn. rewrite (Hc _ _ Hp). lia.
  - rewrite decide_False by done. by rewrite (Hc _ _ Hpost).
Qed.

Lemma perform_create_no_replies (request : Request.t) (post_id : N)
    (content : str) (s : Site) :
  no_replies s →
  no_replies
    (site_after
       (PostCommentListView.perform_create request post_id content s) s).
Proof.
  intros Hn.
  destruct (perform_create_cases request post_id content s)
    as [-> | (me & p & Hp & ->)]; [done |].
  intros k c Hk. cbn in Hk.
  apply lookup_insert_Some in Hk as [[_ <-] | [_ Hk]]; [done |].
  by apply (Hn k).
Qed.

Lemma post_comments_cons (call : Request.t * N * str)
    (calls : list (Request.t * N * str)) (s : Site) :
  post_comments (call :: calls) s
  = post_comments calls
      (site_after
         (PostCommentListView.perform_create call.1.1 call.1.2 call.2 s) s).
Proof. done. Qed.

Lemma post_comments_consistent
    (calls : list (Request.t * N * str)) (s : Site) :
  comments_consistent s → comments_consistent (post_comments calls s).
Proof.
  revert s. induction calls as [| call calls IH]; intros s H; [done |].
  rewrite post_comments_cons. apply IH. by apply perform_create_consistent.
Qed.

(** X26. From a site where the comments counter of every post equals the
    number of comments on it, any sequence of [perform_create] calls, by any
    callers on any posts, ends in a site where it still does. *)
Theorem comments_count_equals_comment_rows
    (calls : list (Request.t * N * str)) (s : Site) :
  comments_consistent s → comments_consistent (post_comments calls s).
Proof. apply post_comments_consistent. Qed.

Lemma comments_count_equals_comment_rows_witness :
  comments_consistent DemoSite.site
  ∧ comments_consistent
      (post_comments
         [(Sample.request_by 1, 10%N, py "nice");
          (Sample.request_by 2, 11%N, py "where?");
          (Sample.request_with None Sample.no_params, 10%N, py "hm");
          (Sample.request_by 2, 12%N, py "lost")]
         DemoSite.site).
Proof.
  assert (comments_consistent DemoSite.site) as H.
  { intros pk post Hpost. cbn in Hpost.
    apply lookup_insert_Some in Hpost as [[<- <-] | [_ Hpost]];
      [vm_compute; reflexivity |].
    apply lookup_singleton_Some in Hpost as [<- <-]. vm_compute; reflexivity. }
  split; [exact H |].
  apply (comments_count_equals_comment_rows _ DemoSite.site H).
Defined.

Lemma no_replies_after (calls : list (Request.t * N * str)) (s : Site) :
  no_replies s → no_replies (post_comments calls s).
Proof.
  revert s. induction calls as [| call calls IH]; intros s H; [done |].
  rewrite post_comments_cons. apply IH. by apply perform_create_no_replies.
Qed.

Lemma get_queryset_length (post_id : N) (s : Site) :
  length (PostCommentListView.get_queryset post_id s)
  = count (top_level_of post_id) (comments s).
Proof.
  unfold PostCommentListView.get_queryset.
  by rewrite merge_sort_Permutation, count_matching.
Qed.

Lemma count_ext {R} (P Q : R → Prop) `{!∀ r, Decision (P r)}
    `{!∀ r, Decision (Q r)} (m : gmap N R) :
  (∀ k r, m !! k = Some r → P r ↔ Q r) → count P m = count Q m.
Proof.
  intros Hext. unfold count, matching. f_equal.
  apply map_filter_ext. intros k r Hk. cbn. by apply (Hext k).
Qed.

(** X27. From a site without replies where the comments counter of every
    post equals the number of comments on it, after any sequence of
    [perform_create] calls the comment listing of each post has as many
    entries as its counter says, the post shows the first three of them (or
    all, when there are fewer), and no comment has replies to show. *)
Theorem comments_are_all_listed (calls : list (Request.t * N * str))
    (s : Site) (pk : N) (post : TravelPost.t) :
  comments_consistent s → no_replies s →
  posts (database (post_comments calls s)) !! pk = Some post →
  length (PostCommentListView.get_queryset pk (post_comments calls s))
    = N.to_nat (TravelPost.comments_count post)
  ∧ length (get_comments pk (post_comments calls s))
    = (3 `min` N.to_nat (TravelPost.comments_count post))%nat
  ∧ ∀ obj, PostCommentSerializer.get_replies obj (post_comments calls s) = [].
Proof.
  intros Hc Hn Hpost.
  pose proof (post_comments_consistent calls s Hc) as Hc'.
  pose proof (no_replies_after calls s Hn) as Hn'.
  set (s' := post_comments calls s) in *.
  assert (length (PostCommentListView.get_queryset pk s')
          = N.to_nat (TravelPost.comments_count post)) as Hlen.
  { rewrite get_queryset_length, (Hc' _ _ Hpost), Nat2N.id.
    apply count_ext. intros k c Hk. unfold top_level_of.
    specialize (Hn' k c Hk). split; [by intros [? _] | by split]. }
  split; [done |]. split.
  - unfold get_comments.
    change (merge_sort _ _) with (PostCommentListView.get_queryset pk s').
    rewrite length_take, Hlen. done.
  - intros obj. unfold PostCommentSerializer.get_replies. cbv zeta.
    rewrite bool_decide_eq_false_2; [done |].
    intros Hne. apply Hne. apply map_size_empty_iff.
    apply (count_none (λ c, PostComment.parent c = Some obj)).
    intros k c Hk. rewrite (Hn' k c Hk). done.
Qed.

Lemma comments_are_all_listed_witness :
  (comments_consistent DemoSite.site ∧ no_replies DemoSite.site
   ∧ posts (database
              (post_comments
                 [(Sample.request_by 1, 10%N, py "nice");
                  (Sample.request_by 2, 11%N, py "where?")]
                 DemoSite.site)) !! 10%N
     = Some (fset MoreCol.comments_count 2 (Sample.post 1 (-5) false)))
  ∧ length (PostCommentListView.get_queryset 10
              (post_comments
                 [(Sample.request_by 1, 10%N, py "nice");
                  (Sample.request_by 2, 11%N, py "where?")]
                 DemoSite.site))
    = 2%nat.
Proof.
  assert (comments_consistent DemoSite.site) as Hc.
  { intros pk post Hpost. cbn in Hpost.
    apply lookup_insert_Some in Hpost as [[<- <-] | [_ Hpost]];
      [vm_compute; reflexivity |].
    apply lookup_singleton_Some in Hpost as [<- <-]. vm_compute; reflexivity. }
  assert (no_replies DemoSite.site) as Hn.
  { intros k c Hk. cbn in Hk.
    by apply lookup_singleton_Some in Hk as [<- <-]. }
  assert (posts (database
                   (post_comments
                      [(Sample.request_by 1, 10%N, py "nice");
                       (Sample.request_by 2, 11%N, py "where?")]
                      DemoSite.site)) !! 10%N
          = Some (fset MoreCol.comments_count 2 (Sample.post 1 (-5) false)))
    as Hpost by (vm_compute; reflexivity).
  split; [done |].
  apply (comments_are_all_listed _ DemoSite.site 10 _ Hc Hn Hpost).
Defined.

Lemma get_queryset_insert (post_id k : N) (c : PostComment.t) (s : Site)
    (db : DB) :
  comments s !! k = None →
  (PostComment.post c = post_id → PostComment.parent c = None →
   PostCommentListView.get_queryset post_id
     {| database := db; comments := <[k := c]> (comments s) |}
   ≡ₚ (k, c) :: PostCommentListView.get_queryset post_id s)
  ∧ (PostComment.post c ≠ post_id →
     PostCommentListView.get_queryset post_id
       {| database := db; comments := <[k := c]> (comments s) |}
     = PostCommentListView.get_queryset post_id s).
Proof.
  intros Hk. unfold PostCommentListView.get_queryset, matching. cbn. split.
  - intros Hpost Hparent.
    rewrite map_filter_insert_True by done.
    rewrite !merge_sort_Permutation.
    apply map_to_list_insert. by apply map_lookup_filter_None_2; left.
  - intros Hne.
    rewrite map_filter_insert_not'; [done | by intros [? _] |].
    intros y Hy. congruence.
Qed.

(** X28. A comment by an authenticated caller on a public post is stored:
    [perform_create] succeeds, the listing of that post is the old listing
    with the new top-level comment of the caller, and the listing of every
    other post is as before. *)
Theorem new_comment_is_listed (request : Request.t) (me post_id : N)
    (content : str) (p : TravelPost.t) (s : Site) :
  Request.user request = Some me →
  posts (database s) !! post_id = Some p →
  TravelPost.is_public p = true →
  ∃ s',
    PostCommentListView.perform_create request post_id content s
      = Some (Ok tt, s')
    ∧ PostCommentListView.get_queryset post_id s'
      ≡ₚ (fresh (dom (comments s)),
          {| PostComment.user := me; PostComment.post := post_id;
             PostComment.parent := None; PostComment.content := content;
             PostComment.likes_count := 0;
             PostComment.created_at := Request.now request |})
         :: PostCommentListView.get_queryset post_id s
    ∧ ∀ other, other ≠ post_id →
        PostCommentListView.get_queryset other s'
        = PostCommentListView.get_queryset other s.
Proof.
  intros Hme Hp Hpub. eexists. split.
  { by apply (perform_create_step request me post_id content p s). }
  split.
  - by apply get_queryset_insert; [apply fresh_key | |].
  - intros other Hne. apply get_queryset_insert; [apply fresh_key |].
    cbn. congruence.
Qed.

Lemma new_comment_is_listed_witness :
  (Request.user (Sample.request_by 1) = Some 1%N
   ∧ posts (database DemoSite.site) !! 11%N = Some (Sample.post 1 (-3) true)
   ∧ TravelPost.is_public (Sample.post 1 (-3) true) = true)
  ∧ ∃ s',
      PostCommentListView.perform_create (Sample.request_by 1) 11
        (py "nice") DemoSite.site = Some (Ok tt, s')
      ∧ PostCommentListView.get_queryset 11 s'
        ≡ₚ (fresh (dom (comments DemoSite.site)),
            {| PostComment.user := 1; PostComment.post := 11;
               PostComment.parent := None; PostComment.content := py "nice";
               PostComment.likes_count := 0;
               PostComment.created_at := Request.now (Sample.request_by 1) |})
           :: PostCommentListView.get_queryset 11 DemoSite.site
      ∧ ∀ other, other ≠ 11%N →
          PostCommentListView.get_queryset other s'
          = PostCommentListView.get_queryset other DemoSite.site.
Proof.
  assert (posts (database DemoSite.site) !! 11%N
          = Some (Sample.post 1 (-3) true)) as Hp by (vm_compute; reflexivity).
  split; [done |].
  apply (new_comment_is_listed (Sample.request_by 1) 1 11 (py "nice")
           (Sample.post 1 (-3) true) DemoSite.site eq_refl Hp eq_refl).
Defined.

(** X29. [perform_create] leaves the site as it was exactly when the caller
    is anonymous or the post is missing or not public, the author's own
    private post included. *)
Theorem comment_is_refused (request : Request.t) (post_id : N)
    (content : str) (s : Site) :
  site_after (PostCommentListView.perform_create request post_id content s) s
    = s
  ↔ Request.user request = None
    ∨ ¬ ∃ p, posts (database s) !! post_id = Some p
             ∧ TravelPost.is_public p = true.
Proof.
  split.
  - intros Hsame.
    destruct (Request.user request) as [me |] eqn:Hme; [| by left].
    right. intros (p & Hp & Hpub).
    rewrite (perform_create_step request me post_id content p s) in Hsame
      by done.
    apply (f_equal comments) in Hsame. cbn in Hsame.
    apply (f_equal (λ m, m !! fresh (dom (comments s)))) in Hsame.
    cbn beta in Hsame. rewrite lookup_insert_eq, fresh_key in Hsame.
    discriminate.
  - intros [Hanon | Hhidden].
    + destruct (perform_create_cases request post_id content s)
        as [-> | (me & p & Hp & _)]; [done |].
      unfold PostCommentListView.perform_create, answer, get_public_post,
        get_pk.
      rewrite bind_eq. cbn. rewrite Hp, Hanon.
      by destruct (TravelPost.is_public p).
    + by rewrite (proj2 (perform_create_hidden request post_id content s)).
Qed.
